(** * devWell: record stores, commit sync and report metrics

    A shallow embedding of the TypeScript services of the dashboard
    (SleepService, CommitService, InsightService, GitHubService,
    GitHubSyncService) and of the pure report metrics of the Commits page.

    Conventions of the model
    - A JavaScript [Date] is its time value: milliseconds since the epoch,
      an integer ([Z]).  ISO-8601 strings that only carry an instant through
      an API (event [created_at], row [commit_timestamp]) are modelled by
      that instant; the strings that are used as cache keys are modelled as
      real strings, built by [toISOString].
    - The local time zone is a fixed offset [tza] (milliseconds east of UTC).
      The Sleep page, whose arithmetic moves a date to the next local day,
      is modelled in a zone whose offset may change ([JsDate.Zone]).
    - JavaScript numbers are modelled by exact integers and rationals.
    - The Supabase client is an external collaborator: its tables follow the
      SQL schema of the migration, and the answer to the n-th request can be
      a transport failure, decided by an oracle [down : nat -> bool]. *)

From Stdlib Require Import ZArith QArith Qabs Qround Lqa Ascii String.
From stdpp Require Import gmap strings list sorting pretty.

Open Scope Z_scope.

(** ** JavaScript dates *)

Module JsDate.

Definition msPerDay : Z := 86400000.
Definition msPerHour : Z := 3600000.
Definition msPerMinute : Z := 60000.
Definition msPerSecond : Z := 1000.

(** ECMAScript Day(t) and TimeWithinDay(t). *)
Definition Day (t : Z) : Z := t `div` msPerDay.
Definition TimeWithinDay (t : Z) : Z := t `mod` msPerDay.

(** LocalTime(t) and UTC(t) for a zone at a fixed offset. *)
Definition LocalTime (tza t : Z) : Z := t + tza.
Definition UTC (tza t : Z) : Z := t - tza.

(** [Date.prototype.getHours]. *)
Definition getHours (tza t : Z) : Z :=
  (LocalTime tza t `div` msPerHour) `mod` 24.

(** [d.setHours(h, m, s, ms)]: same local day, given time of day. *)
Definition setHours (tza t h m s ms : Z) : Z :=
  UTC tza (Day (LocalTime tza t) * msPerDay
           + (h * msPerHour + m * msPerMinute + s * msPerSecond + ms)).

(** [d.setDate(d.getDate() + n)]: [n] local days later, same time of day. *)
Definition setDatePlus (tza t n : Z) : Z :=
  UTC tza (LocalTime tza t + n * msPerDay).

(** A zone whose offset changes over the year: LocalTZA(t, isUTC) of
    ECMAScript.  [atUTC z t] is the offset in force at the instant [t],
    [atLocal z t] the offset by which the local time [t] is read. *)
Record Zone := mkZone {
  atUTC : Z -> Z;
  atLocal : Z -> Z
}.

Definition fixedZone (tza : Z) : Zone := mkZone (fun _ => tza) (fun _ => tza).

Definition LocalTimeIn (z : Zone) (t : Z) : Z := t + atUTC z t.
Definition UTCIn (z : Zone) (t : Z) : Z := t - atLocal z t.

(** [d.setDate(d.getDate() + n)] in such a zone: the local time of [d],
    [n] calendar days later, read back as an instant. *)
Definition setDatePlusIn (z : Zone) (t n : Z) : Z :=
  UTCIn z (LocalTimeIn z t + n * msPerDay).

(** [new Date('YYYY-MM-DD')]: a date-only string is midnight UTC. *)
Definition ofDateString (day : Z) : Z := day * msPerDay.

(** date-fns [subDays] (a fixed-offset zone has no DST gaps). *)
Definition subDays (t n : Z) : Z := t - n * msPerDay.

(** Day number to (year, month, day) in the proleptic Gregorian calendar. *)
Definition civil_from_days (z0 : Z) : Z * Z * Z :=
  let z := z0 + 719468 in
  let era := z `div` 146097 in
  let doe := z - era * 146097 in
  let yoe := (doe - doe `div` 1460 + doe `div` 36524 - doe `div` 146096) `div` 365 in
  let y := yoe + era * 400 in
  let doy := doe - (365 * yoe + yoe `div` 4 - yoe `div` 100) in
  let mp := (5 * doy + 2) `div` 153 in
  let d := doy - (153 * mp + 2) `div` 5 + 1 in
  let m := if mp <? 10 then mp + 3 else mp - 9 in
  (if m <=? 2 then y + 1 else y, m, d).

Definition digit (n : Z) : ascii :=
  ascii_of_nat (48 + Z.to_nat (n `mod` 10)).

Definition pad2 (n : Z) : string :=
  String (digit (n `div` 10)) (String (digit n) "").
Definition pad3 (n : Z) : string :=
  String (digit (n `div` 100)) (pad2 n).
Definition pad4 (n : Z) : string :=
  String (digit (n `div` 1000)) (pad3 n).
Definition pad6 (n : Z) : string :=
  String (digit (n `div` 100000)) (String (digit (n `div` 10000)) (pad4 n)).

(** Years 0..9999 print with four digits, the others in the expanded
    form with a sign and six digits. *)
Definition isoYear (y : Z) : string :=
  if (0 <=? y) && (y <=? 9999) then pad4 y
  else if y <? 0 then String "-"%char (pad6 (- y))
  else String "+"%char (pad6 y).

(** The "YYYY-MM-DD" part of [toISOString], from the UTC day number. *)
Definition isoDate (day : Z) : string :=
  let '(y, m, d) := civil_from_days day in
  isoYear y +:+ "-" +:+ pad2 m +:+ "-" +:+ pad2 d.

(** The "HH:mm:ss.sss" part, from the time within the UTC day. *)
Definition isoTime (tw : Z) : string :=
  pad2 (tw `div` msPerHour) +:+ ":" +:+
  pad2 ((tw `div` msPerMinute) `mod` 60) +:+ ":" +:+
  pad2 ((tw `div` msPerSecond) `mod` 60) +:+ "." +:+
  pad3 (tw `mod` 1000).

(** [Date.prototype.toISOString]. *)
Definition toISOString (t : Z) : string :=
  isoDate (Day t) +:+ "T" +:+ isoTime (TimeWithinDay t) +:+ "Z".

(** [s.split('T')[0]]: the part of [s] before its first 'T'. *)
Fixpoint splitT0 (s : string) : string :=
  match s with
  | EmptyString => EmptyString
  | String c r => if Ascii.eqb c "T"%char then EmptyString
                  else String c (splitT0 r)
  end.

End JsDate.

(** ** Data model (types/github.ts, types/supabase.ts) *)

(** Row identifiers are UUIDs in the database; the model only needs them
    to be comparable. *)
Definition uuid := nat.

(** One entry of [payload.commits] of a push event. *)
Record CommitEntry := mkCommitEntry {
  ce_message : string;
  ce_sha : string
}.

(** The [Commit] interface: an activity event as the hosting API returns
    it.  [ev_commits = None] is a payload without a [commits] property. *)
Record Commit := mkCommit {
  ev_id : string;
  ev_type : option string;
  ev_created_at : option Z;
  ev_repo_name : string;
  ev_commits : option (list CommitEntry)
}.

Record SleepRecord := mkSleepRecord {
  sr_id : uuid;
  sr_user_id : string;
  sr_date : Z;                      (* calendar day, as a UTC day number *)
  sr_start_time : Z;
  sr_end_time : Z;
  sr_duration_hours : Q;
  sr_quality_score : option Z;
  sr_notes : option string
}.

Record SleepRecordInsert := mkSleepRecordInsert {
  sri_id : option uuid;
  sri_user_id : string;
  sri_date : Z;
  sri_start_time : Z;
  sri_end_time : Z;
  sri_duration_hours : Q;
  sri_quality_score : option Z;
  sri_notes : option string
}.

Record CommitRecord := mkCommitRecord {
  cr_id : uuid;
  cr_user_id : string;
  cr_repository : string;
  cr_commit_hash : string;
  cr_commit_message : option string;
  cr_commit_timestamp : Z
}.

Record CommitRecordInsert := mkCommitRecordInsert {
  cri_id : option uuid;
  cri_user_id : string;
  cri_repository : string;
  cri_commit_hash : string;
  cri_commit_message : option string;
  cri_commit_timestamp : Z
}.

Record ActivityInsight := mkActivityInsight {
  ai_id : uuid;
  ai_user_id : string;
  ai_date : Z;                      (* calendar day, as a UTC day number *)
  ai_productivity_score : option Z;
  ai_sleep_score : option Z;
  ai_commit_count : Z;
  ai_active_hours : Q;
  ai_recommendations : option (list string)
}.

Record ActivityInsightInsert := mkActivityInsightInsert {
  aii_id : option uuid;
  aii_user_id : string;
  aii_date : Z;
  aii_productivity_score : option Z;
  aii_sleep_score : option Z;
  aii_commit_count : option Z;
  aii_active_hours : option Q;
  aii_recommendations : option (list string)
}.

(** ** The backing store

    Tables as the migration declares them: a primary key [id] with a
    generated default, [UNIQUE(user_id, date)] on sleep records and
    insights, [UNIQUE(user_id, commit_hash)] on commit records.  Every
    request is one round trip and bumps [requests]; the oracle [down] makes
    a request fail for a reason outside the tables (transport, access
    policy), in which case the tables are left as they are. *)

Inductive PgResult (A : Type) : Type :=
| PgData (a : A)
| PgError (msg : string).
Arguments PgData {A} a.
Arguments PgError {A} msg.

Record Db := mkDb {
  sleep_records : list SleepRecord;
  commit_records : list CommitRecord;
  activity_insights : list ActivityInsight;
  requests : nat
}.

Module Supabase.
Section Requests.

Variable down : nat -> bool.

Definition bump (d : Db) : Db :=
  mkDb (sleep_records d) (commit_records d) (activity_insights d)
       (S (requests d)).

Definition with_sleep (d : Db) (rows : list SleepRecord) : Db :=
  mkDb rows (commit_records d) (activity_insights d) (S (requests d)).
Definition with_commits (d : Db) (rows : list CommitRecord) : Db :=
  mkDb (sleep_records d) rows (activity_insights d) (S (requests d)).
Definition with_insights (d : Db) (rows : list ActivityInsight) : Db :=
  mkDb (sleep_records d) (commit_records d) rows (S (requests d)).

(** [.single()]: exactly one row, or an error. *)
Definition single {A} (rows : list A) : PgResult A :=
  match rows with
  | [x] => PgData x
  | _ => PgError "JSON object requested, multiple (or no) rows returned"
  end.

(** *** sleep_records *)

Definition sleep_newer (a b : SleepRecord) : Prop := sr_date b <= sr_date a.
#[export] Instance sleep_newer_dec a b : Decision (sleep_newer a b).
Proof. unfold sleep_newer. apply _. Defined.

(** select * where user_id = u and lo <= date <= hi order by date desc *)
Definition select_sleep_range (d : Db) (u : string) (lo hi : Z)
  : PgResult (list SleepRecord) * Db :=
  if down (requests d) then (PgError "request failed", bump d)
  else (PgData (merge_sort sleep_newer
                 (filter (fun r => sr_user_id r = u /\ lo <= sr_date r <= hi)
                         (sleep_records d))),
        bump d).

Definition sleep_pk_taken (rows : list SleepRecord) (i : uuid) : bool :=
  existsb (fun r => Nat.eqb (sr_id r) i) rows.
Definition sleep_key_taken (rows : list SleepRecord) (u : string) (day : Z) : bool :=
  existsb (fun r => String.eqb (sr_user_id r) u && (sr_date r =? day)) rows.

(** insert ... returning *, .single() *)
Definition insert_sleep (d : Db) (r : SleepRecordInsert)
  : PgResult SleepRecord * Db :=
  if down (requests d) then (PgError "request failed", bump d)
  else
    let i := default (requests d) (sri_id r) in
    if sleep_pk_taken (sleep_records d) i
    then (PgError "duplicate key value violates unique constraint", bump d)
    else if sleep_key_taken (sleep_records d) (sri_user_id r) (sri_date r)
    then (PgError "duplicate key value violates unique constraint", bump d)
    else
      let row := mkSleepRecord i (sri_user_id r) (sri_date r)
                   (sri_start_time r) (sri_end_time r) (sri_duration_hours r)
                   (sri_quality_score r) (sri_notes r) in
      (PgData row, with_sleep d (sleep_records d ++ [row])).

(** update ... where id = i returning *, .single().  The partial row
    [updates] is modelled by the overwrite it performs on a row. *)
Definition update_sleep (d : Db) (i : uuid) (updates : SleepRecord -> SleepRecord)
  : PgResult SleepRecord * Db :=
  if down (requests d) then (PgError "request failed", bump d)
  else
    let hit := filter (fun r => sr_id r = i) (sleep_records d) in
    let rest := filter (fun r => sr_id r <> i) (sleep_records d) in
    let new := map updates hit in
    if existsb (fun r => sleep_pk_taken rest (sr_id r)
                         || sleep_key_taken rest (sr_user_id r) (sr_date r)) new
    then (PgError "duplicate key value violates unique constraint", bump d)
    else (single new,
          with_sleep d (map (fun r => if decide (sr_id r = i) then updates r else r)
                            (sleep_records d))).

(** delete from sleep_records where id = i *)
Definition delete_sleep (d : Db) (i : uuid) : PgResult unit * Db :=
  if down (requests d) then (PgError "request failed", bump d)
  else (PgData tt,
        with_sleep d (filter (fun r => sr_id r <> i) (sleep_records d))).

(** *** commit_records *)

Definition commit_newer (a b : CommitRecord) : Prop :=
  cr_commit_timestamp b <= cr_commit_timestamp a.
#[export] Instance commit_newer_dec a b : Decision (commit_newer a b).
Proof. unfold commit_newer. apply _. Defined.

Definition commit_in_window (u : string) (lo hi : Z) (r : CommitRecord) : Prop :=
  cr_user_id r = u /\ lo <= cr_commit_timestamp r <= hi.
#[export] Instance commit_in_window_dec u lo hi r :
  Decision (commit_in_window u lo hi r).
Proof. unfold commit_in_window. apply _. Defined.

(** select * where user_id = u and lo <= commit_timestamp <= hi
    order by commit_timestamp desc *)
Definition select_commit_range (d : Db) (u : string) (lo hi : Z)
  : PgResult (list CommitRecord) * Db :=
  if down (requests d) then (PgError "request failed", bump d)
  else (PgData (merge_sort commit_newer
                 (filter (commit_in_window u lo hi) (commit_records d))),
        bump d).

(** select commit_timestamp where user_id = u and lo <= commit_timestamp <= hi *)
Definition select_commit_timestamps (d : Db) (u : string) (lo hi : Z)
  : PgResult (list Z) * Db :=
  if down (requests d) then (PgError "request failed", bump d)
  else (PgData (map cr_commit_timestamp
                 (filter (commit_in_window u lo hi) (commit_records d))),
        bump d).

Definition commit_pk_taken (rows : list CommitRecord) (i : uuid) : bool :=
  existsb (fun r => Nat.eqb (cr_id r) i) rows.
(** UNIQUE(user_id, commit_hash) *)
Definition commit_key_taken (rows : list CommitRecord) (u h : string) : bool :=
  existsb (fun r => String.eqb (cr_user_id r) u
                    && String.eqb (cr_commit_hash r) h) rows.

(** insert ... returning *, .single() *)
Definition insert_commit (d : Db) (r : CommitRecordInsert)
  : PgResult CommitRecord * Db :=
  if down (requests d) then (PgError "request failed", bump d)
  else
    let i := default (requests d) (cri_id r) in
    if commit_pk_taken (commit_records d) i
    then (PgError "duplicate key value violates unique constraint", bump d)
    else if commit_key_taken (commit_records d) (cri_user_id r) (cri_commit_hash r)
    then (PgError "duplicate key value violates unique constraint", bump d)
    else
      let row := mkCommitRecord i (cri_user_id r) (cri_repository r)
                   (cri_commit_hash r) (cri_commit_message r)
                   (cri_commit_timestamp r) in
      (PgData row, with_commits d (commit_records d ++ [row])).

(** *** activity_insights *)

Definition insight_newer (a b : ActivityInsight) : Prop := ai_date b <= ai_date a.
#[export] Instance insight_newer_dec a b : Decision (insight_newer a b).
Proof. unfold insight_newer. apply _. Defined.

(** select * where user_id = u and lo <= date <= hi order by date desc *)
Definition select_insight_range (d : Db) (u : string) (lo hi : Z)
  : PgResult (list ActivityInsight) * Db :=
  if down (requests d) then (PgError "request failed", bump d)
  else (PgData (merge_sort insight_newer
                 (filter (fun r => ai_user_id r = u /\ lo <= ai_date r <= hi)
                         (activity_insights d))),
        bump d).

(** select * where user_id = u order by date desc limit 1, .single() *)
Definition select_latest_insight (d : Db) (u : string)
  : PgResult ActivityInsight * Db :=
  if down (requests d) then (PgError "request failed", bump d)
  else (single (take 1 (merge_sort insight_newer
                 (filter (fun r => ai_user_id r = u) (activity_insights d)))),
        bump d).

Definition insight_pk_taken (rows : list ActivityInsight) (i : uuid) : bool :=
  existsb (fun r => Nat.eqb (ai_id r) i) rows.
Definition insight_key_taken (rows : list ActivityInsight) (u : string) (day : Z) : bool :=
  existsb (fun r => String.eqb (ai_user_id r) u && (ai_date r =? day)) rows.

(** insert ... on conflict (id) do update ... returning *, .single() *)
Definition upsert_insight (d : Db) (r : ActivityInsightInsert)
  : PgResult ActivityInsight * Db :=
  if down (requests d) then (PgError "request failed", bump d)
  else
    let i := default (requests d) (aii_id r) in
    let row := mkActivityInsight i (aii_user_id r) (aii_date r)
                 (aii_productivity_score r) (aii_sleep_score r)
                 (default 0 (aii_commit_count r))
                 (default 0%Q (aii_active_hours r))
                 (aii_recommendations r) in
    let rest := filter (fun x => ai_id x <> i) (activity_insights d) in
    if insight_key_taken rest (aii_user_id r) (aii_date r)
    then (PgError "duplicate key value violates unique constraint", bump d)
    else if insight_pk_taken (activity_insights d) i
    then (PgData row,
          with_insights d (map (fun x => if decide (ai_id x = i) then row else x)
                               (activity_insights d)))
    else (PgData row, with_insights d (activity_insights d ++ [row])).

(** update ... where id = i returning *, .single() *)
Definition update_insight (d : Db) (i : uuid)
    (updates : ActivityInsight -> ActivityInsight)
  : PgResult ActivityInsight * Db :=
  if down (requests d) then (PgError "request failed", bump d)
  else
    let hit := filter (fun r => ai_id r = i) (activity_insights d) in
    let rest := filter (fun r => ai_id r <> i) (activity_insights d) in
    let new := map updates hit in
    if existsb (fun r => insight_pk_taken rest (ai_id r)
                         || insight_key_taken rest (ai_user_id r) (ai_date r)) new
    then (PgError "duplicate key value violates unique constraint", bump d)
    else (single new,
          with_insights d (map (fun r => if decide (ai_id r = i) then updates r else r)
                               (activity_insights d))).

End Requests.
End Supabase.

(** ** The world the services run in *)

(** The database and what [console.error] has printed so far
    ([console.log] is not recorded). *)
Record World := mkWorld {
  db : Db;
  console : list string
}.

(** One cache entry [{ data, timestamp }]. *)
Record Entry (D : Type) := mkEntry {
  data : D;
  timestamp : Z
}.
Arguments mkEntry {D} data timestamp.
Arguments data {D} e.
Arguments timestamp {D} e.

Definition CACHE_DURATION : Z := 5 * 60 * 1000.

(** [cached && Date.now() - cached.timestamp < this.CACHE_DURATION] *)
Definition fresh {D} (cache : gmap string (Entry D)) (cacheKey : string) (now : Z)
  : option (Entry D) :=
  match cache !! cacheKey with
  | Some cached =>
      if now - timestamp cached <? CACHE_DURATION then Some cached else None
  | None => None
  end.

Definition log_error (w : World) (d : Db) (msg : string) : World :=
  mkWorld d (console w ++ [msg]).

(** ** SleepService

    Every method takes the cache and the world and returns its result with
    the new cache and world.  [now0] is [Date.now()] at the freshness test,
    [now1] is [Date.now()] when the entry is stored.  The date-only bounds
    [toISOString().split('T')[0]] of the range queries are passed to the
    table as the UTC day they denote. *)

Module SleepService.
Section Methods.

Variable down : nat -> bool.

Definition getSleepRecords (cache : gmap string (Entry (list SleepRecord)))
    (w : World) (userId : string) (startDate endDate : Z) (now0 now1 : Z)
  : list SleepRecord * gmap string (Entry (list SleepRecord)) * World :=
  let cacheKey := userId +:+ "-" +:+ JsDate.toISOString startDate
                         +:+ "-" +:+ JsDate.toISOString endDate in
  match fresh cache cacheKey now0 with
  | Some cached => (data cached, cache, w)
  | None =>
      match Supabase.select_sleep_range down (db w) userId
              (JsDate.Day startDate) (JsDate.Day endDate) with
      | (PgError _, d) =>
          ([], cache, log_error w d "Error fetching sleep records:")
      | (PgData rows, d) =>
          (rows, <[cacheKey := mkEntry rows now1]> cache, mkWorld d (console w))
      end
  end.

Definition addSleepRecord (cache : gmap string (Entry (list SleepRecord)))
    (w : World) (record : SleepRecordInsert)
  : option SleepRecord * gmap string (Entry (list SleepRecord)) * World :=
  match Supabase.insert_sleep down (db w) record with
  | (PgError _, d) => (None, cache, log_error w d "Error adding sleep record:")
  | (PgData row, d) => (Some row, ∅, mkWorld d (console w))
  end.

Definition updateSleepRecord (cache : gmap string (Entry (list SleepRecord)))
    (w : World) (recordId : uuid) (updates : SleepRecord -> SleepRecord)
  : option SleepRecord * gmap string (Entry (list SleepRecord)) * World :=
  match Supabase.update_sleep down (db w) recordId updates with
  | (PgError _, d) => (None, cache, log_error w d "Error updating sleep record:")
  | (PgData row, d) => (Some row, ∅, mkWorld d (console w))
  end.

Definition deleteSleepRecord (cache : gmap string (Entry (list SleepRecord)))
    (w : World) (recordId : uuid)
  : bool * gmap string (Entry (list SleepRecord)) * World :=
  match Supabase.delete_sleep down (db w) recordId with
  | (PgError _, d) => (false, cache, log_error w d "Error deleting sleep record:")
  | (PgData _, d) => (true, ∅, mkWorld d (console w))
  end.

End Methods.
End SleepService.

(** ** CommitService *)

Record CommitStats := mkStats {
  count : nat;
  hours : nat
}.

(** The commit cache is a [Map<string, { data: any, ... }>]: it holds row
    lists under the "records-" keys and stats under the "stats-" keys, and
    a hit returns [cached.data] whatever it is. *)
Inductive CommitAny : Type :=
| AnyRecords (rows : list CommitRecord)
| AnyStats (stats : CommitStats).

Module CommitService.
Section Methods.

Variable down : nat -> bool.
Variable tza : Z.

Definition getCommitRecords (cache : gmap string (Entry CommitAny))
    (w : World) (userId : string) (startDate endDate : Z) (now0 now1 : Z)
  : CommitAny * gmap string (Entry CommitAny) * World :=
  let cacheKey := "records-" +:+ userId +:+ "-" +:+ JsDate.toISOString startDate
                             +:+ "-" +:+ JsDate.toISOString endDate in
  match fresh cache cacheKey now0 with
  | Some cached => (data cached, cache, w)
  | None =>
      match Supabase.select_commit_range down (db w) userId startDate endDate with
      | (PgError _, d) =>
          (AnyRecords [], cache, log_error w d "Error fetching commit records:")
      | (PgData rows, d) =>
          (AnyRecords rows,
           <[cacheKey := mkEntry (AnyRecords rows) now1]> cache,
           mkWorld d (console w))
      end
  end.

Definition statsKey (userId : string) (date : Z) : string :=
  "stats-" +:+ userId +:+ "-" +:+ JsDate.splitT0 (JsDate.toISOString date).

Definition getCommitStats (cache : gmap string (Entry CommitAny))
    (w : World) (userId : string) (date : Z) (now0 now1 : Z)
  : CommitAny * gmap string (Entry CommitAny) * World :=
  let cacheKey := statsKey userId date in
  match fresh cache cacheKey now0 with
  | Some cached => (data cached, cache, w)
  | None =>
      let startOfDay := JsDate.setHours tza date 0 0 0 0 in
      let endOfDay := JsDate.setHours tza date 23 59 59 999 in
      match Supabase.select_commit_timestamps down (db w) userId
              startOfDay endOfDay with
      | (PgError _, d) =>
          (AnyStats (mkStats 0 0), cache,
           log_error w d "Error fetching commit stats:")
      | (PgData timestamps, d) =>
          let uniqueHours :=
            size (list_to_set (map (JsDate.getHours tza) timestamps) : gset Z) in
          let stats := mkStats (length timestamps) uniqueHours in
          (AnyStats stats,
           <[cacheKey := mkEntry (AnyStats stats) now1]> cache,
           mkWorld d (console w))
      end
  end.

Definition addCommitRecord (cache : gmap string (Entry CommitAny))
    (w : World) (record : CommitRecordInsert)
  : option CommitRecord * gmap string (Entry CommitAny) * World :=
  match Supabase.insert_commit down (db w) record with
  | (PgError _, d) => (None, cache, log_error w d "Error adding commit record:")
  | (PgData row, d) => (Some row, ∅, mkWorld d (console w))
  end.

End Methods.
End CommitService.

(** ** InsightService *)

Module InsightService.
Section Methods.

Variable down : nat -> bool.

Definition getInsights (cache : gmap string (Entry (list ActivityInsight)))
    (w : World) (userId : string) (startDate endDate : Z) (now0 now1 : Z)
  : list ActivityInsight * gmap string (Entry (list ActivityInsight)) * World :=
  let cacheKey := userId +:+ "-" +:+ JsDate.toISOString startDate
                         +:+ "-" +:+ JsDate.toISOString endDate in
  match fresh cache cacheKey now0 with
  | Some cached => (data cached, cache, w)
  | None =>
      match Supabase.select_insight_range down (db w) userId
              (JsDate.Day startDate) (JsDate.Day endDate) with
      | (PgError _, d) =>
          ([], cache, log_error w d "Error fetching insights:")
      | (PgData rows, d) =>
          (rows, <[cacheKey := mkEntry rows now1]> cache, mkWorld d (console w))
      end
  end.

Definition getLatestInsight (cache : gmap string (Entry (list ActivityInsight)))
    (w : World) (userId : string) (now0 now1 : Z)
  : option ActivityInsight * gmap string (Entry (list ActivityInsight)) * World :=
  let cacheKey := "latest-" +:+ userId in
  match fresh cache cacheKey now0 with
  | Some cached => (head (data cached), cache, w)
  | None =>
      match Supabase.select_latest_insight down (db w) userId with
      | (PgError _, d) =>
          (None, cache, log_error w d "Error fetching latest insight:")
      | (PgData row, d) =>
          (Some row, <[cacheKey := mkEntry [row] now1]> cache,
           mkWorld d (console w))
      end
  end.

Definition upsertInsight (cache : gmap string (Entry (list ActivityInsight)))
    (w : World) (insight : ActivityInsightInsert)
  : option ActivityInsight * gmap string (Entry (list ActivityInsight)) * World :=
  match Supabase.upsert_insight down (db w) insight with
  | (PgError _, d) => (None, cache, log_error w d "Error upserting insight:")
  | (PgData row, d) => (Some row, ∅, mkWorld d (console w))
  end.

Definition updateInsight (cache : gmap string (Entry (list ActivityInsight)))
    (w : World) (insightId : uuid) (updates : ActivityInsight -> ActivityInsight)
  : option ActivityInsight * gmap string (Entry (list ActivityInsight)) * World :=
  match Supabase.update_insight down (db w) insightId updates with
  | (PgError _, d) => (None, cache, log_error w d "Error updating insight:")
  | (PgData row, d) => (Some row, ∅, mkWorld d (console w))
  end.

End Methods.
End InsightService.

(** ** GitHubService (lib/github.ts)

    The REST client and the token provider are external: [token] is what
    [getGitHubToken()] resolves to, and [listEvents auth request] is the
    outcome of [octokit.activity.listEventsForAuthenticatedUser(request)]
    for a client bound to [auth]. *)

Inductive Outcome (A : Type) : Type :=
| Returned (a : A)
| Thrown (message : string).
Arguments Returned {A} a.
Arguments Thrown {A} message.

Record EventsRequest := mkEventsRequest {
  rq_username : string;
  rq_per_page : Z;
  rq_since : string
}.

Inductive ApiResult : Type :=
| ApiData (events : list Commit)      (* resolves with { data } *)
| ApiError (message : string)         (* rejects with an Error *)
| ApiReject.                          (* rejects with something else *)

Record GitHubState := mkGitHub {
  octokit : option string;
  initialized : bool
}.

Module GitHubService.
Section Methods.

Variable token : option string.
Variable listEvents : string -> EventsRequest -> ApiResult.

(** [!token]: absent or the empty string. *)
Definition no_token (t : option string) : bool :=
  match t with
  | None => true
  | Some s => String.eqb s ""
  end.

Definition initialize (g : GitHubState) : Outcome unit * GitHubState :=
  if initialized g then (Returned tt, g)
  else if no_token token then (Thrown "No GitHub token available", g)
  else (Returned tt, mkGitHub token true).

Definition ensureInitialized (g : GitHubState) : Outcome string * GitHubState :=
  let '(r, g1) := if negb (initialized g) then initialize g
                  else (Returned tt, g) in
  match r with
  | Thrown m => (Thrown m, g1)
  | Returned _ =>
      match octokit g1 with
      | None => (Thrown "GitHub client not initialized", g1)
      | Some client => (Returned client, g1)
      end
  end.

(** [event.type === 'PushEvent' && 'commits' in event.payload] *)
Definition is_push_with_commits (event : Commit) : bool :=
  match ev_type event with
  | Some t => String.eqb t "PushEvent"
  | None => false
  end
  && match ev_commits event with
     | Some _ => true
     | None => false
     end.

Definition eventsRequest (since : Z) : EventsRequest :=
  mkEventsRequest "me" 100 (JsDate.toISOString since).

Definition getCommits (g : GitHubState) (since : Z)
  : Outcome (list Commit) * GitHubState :=
  match ensureInitialized g with
  | (Thrown m, g1) => (Thrown m, g1)
  | (Returned client, g1) =>
      match listEvents client (eventsRequest since) with
      | ApiData events => (Returned (List.filter is_push_with_commits events), g1)
      | ApiError message => (Thrown ("Failed to fetch commits: " +:+ message), g1)
      | ApiReject => (Thrown "Failed to fetch commits", g1)
      end
  end.

Definition refreshToken (g : GitHubState) : Outcome unit * GitHubState :=
  initialize (mkGitHub (octokit g) false).

End Methods.
End GitHubService.

(** ** GitHubSyncService *)

Record SyncState := mkSync {
  github : GitHubState;                          (* githubService *)
  commitCache : gmap string (Entry CommitAny);   (* commitService.cache *)
  world : World
}.

Module GitHubSyncService.
Section Methods.

Variable down : nat -> bool.
Variable token : option string.
Variable listEvents : string -> EventsRequest -> ApiResult.
(** [nowAt n]: what [new Date()] gives while request number [n] is the
    next one to be sent. *)
Variable nowAt : nat -> Z.

(** The body of the inner loop: one [addCommitRecord] call. *)
Definition addOne (userId : string) (commit : Commit)
    (acc : gmap string (Entry CommitAny) * World) (commitData : CommitEntry)
  : gmap string (Entry CommitAny) * World :=
  let '(cache, w) := acc in
  let record := mkCommitRecordInsert None userId (ev_repo_name commit)
                  (ce_sha commitData) (Some (ce_message commitData))
                  (default (nowAt (requests (db w))) (ev_created_at commit)) in
  let '(_, cache1, w1) := CommitService.addCommitRecord down cache w record in
  (cache1, w1).

(** The body of the outer loop: [if (commit.payload.commits) for (...)]. *)
Definition processEvent (userId : string)
    (acc : gmap string (Entry CommitAny) * World) (commit : Commit)
  : gmap string (Entry CommitAny) * World :=
  match ev_commits commit with
  | Some commits => fold_left (addOne userId commit) commits acc
  | None => acc
  end.

Definition syncCommits (s : SyncState) (userId : string) (now : Z)
  : bool * SyncState :=
  let endDate := now in
  let startDate := JsDate.subDays endDate 30 in
  match GitHubService.getCommits token listEvents (github s) startDate with
  | (Thrown _, g1) =>
      (false, mkSync g1 (commitCache s)
                (log_error (world s) (db (world s)) "Error syncing GitHub commits:"))
  | (Returned commits, g1) =>
      let '(cache1, w1) :=
        fold_left (processEvent userId) commits (commitCache s, world s) in
      (true, mkSync g1 cache1 w1)
  end.

End Methods.
End GitHubSyncService.

(** ** The monthly report (pages/Commits.tsx, component Reports) *)

Record WeekRow := mkWeekRow {
  week : string;
  commits : Z;
  sleep : Q;
  productivity : Q;
  activeHours : Q
}.

Module Reports.

(** [score || 0] on a [number | null] column. *)
Definition or0 (score : option Z) : Z := default 0 score.

(** One iteration of the loop of [calculateConsistencyScore].  The loop
    only visits indices [1 <= i < data.length], so both reads are in
    range there. *)
Definition consistencyStep (data : list ActivityInsight)
    (consistencyScore : Z) (i : nat) : Z :=
  match data !! (i - 1)%nat, data !! i with
  | Some prevDay, Some currentDay =>
      let afterSleep :=
        if Z.abs (or0 (ai_sleep_score prevDay) - or0 (ai_sleep_score currentDay)) <? 20
        then consistencyScore + 1 else consistencyScore in
      if Z.abs (or0 (ai_productivity_score prevDay)
                - or0 (ai_productivity_score currentDay)) <? 20
      then afterSleep + 1 else afterSleep
  | _, _ => consistencyScore
  end.

Definition calculateConsistencyScore (data : list ActivityInsight) : Q :=
  if (length data <? 2)%nat then 0%Q
  else
    let consistencyScore :=
      fold_left (consistencyStep data) (seq 1 (length data - 1)) 0 in
    (inject_Z consistencyScore
     / inject_Z ((Z.of_nat (length data) - 1) * 2) * 100)%Q.

Definition getPercentageChange (current previous : Q) : Q :=
  if Qeq_bool previous 0 then 100%Q
  else ((current - previous) / previous * 100)%Q.

(** The callback of [insights.filter] in [weeklyData].  [weekStart] is
    the Date object of the week: [weekStart.setDate(...)] moves it, and the
    callback sees the moved object at the next insight.  The right operand
    of [&&] (and so the move) is only evaluated when the left one holds. *)
Definition inWeek (tza : Z) (weekStart : Z) (insight : ActivityInsight)
  : bool * Z :=
  let insightDate := JsDate.ofDateString (ai_date insight) in
  if weekStart <=? insightDate then
    let moved := JsDate.setDatePlus tza weekStart 7 in
    (insightDate <? moved, moved)
  else (false, weekStart).

Fixpoint filterWeek (tza : Z) (weekStart : Z) (insights : list ActivityInsight)
  : list ActivityInsight :=
  match insights with
  | [] => []
  | insight :: rest =>
      let '(keep, weekStart1) := inWeek tza weekStart insight in
      if keep then insight :: filterWeek tza weekStart1 rest
      else filterWeek tza weekStart1 rest
  end.

(** [sum / weekInsights.length || 0]: the quotient, or 0 when it is NaN
    (empty list) or zero. *)
Definition averageOr0 (sum : Z) (len : nat) : Q :=
  if (len =? 0)%nat then 0%Q else (inject_Z sum / inject_Z (Z.of_nat len))%Q.

Definition sumZ (f : ActivityInsight -> Z) (l : list ActivityInsight) : Z :=
  fold_left (fun sum insight => sum + f insight) l 0.
Definition sumQ (f : ActivityInsight -> Q) (l : list ActivityInsight) : Q :=
  fold_left (fun sum insight => (sum + f insight)%Q) l 0%Q.

Definition weekRow (tza : Z) (insights : list ActivityInsight)
    (index : nat) (weekStart : Z) : WeekRow :=
  let weekInsights := filterWeek tza weekStart insights in
  mkWeekRow
    ("Week " +:+ pretty (index + 1)%nat)
    (sumZ ai_commit_count weekInsights)
    (averageOr0 (sumZ (fun i => or0 (ai_sleep_score i)) weekInsights)
                (length weekInsights))
    (averageOr0 (sumZ (fun i => or0 (ai_productivity_score i)) weekInsights)
                (length weekInsights))
    (sumQ ai_active_hours weekInsights).

(** [weeks] is the array [eachWeekOfInterval] returns for the selected
    month: one fresh Date per week start. *)
Definition weeklyData (tza : Z) (weeks : list Z) (insights : list ActivityInsight)
  : list WeekRow :=
  imap (weekRow tza insights) weeks.

End Reports.

(** ** Reference definitions used by the statements *)

Module Ref.

(** Points of one pair of adjacent days: one for a sleep-score delta
    under 20, one for a productivity-score delta under 20. *)
Definition pairPoints (a b : ActivityInsight) : Z :=
  (if Z.abs (Reports.or0 (ai_sleep_score a) - Reports.or0 (ai_sleep_score b)) <? 20
   then 1 else 0)
  + (if Z.abs (Reports.or0 (ai_productivity_score a)
               - Reports.or0 (ai_productivity_score b)) <? 20
     then 1 else 0).

(** Points of a sequence of days: the sum over its adjacent pairs. *)
Fixpoint points (l : list ActivityInsight) : Z :=
  match l with
  | a :: (b :: _) as rest => pairPoints a b + points rest
  | _ => 0
  end.

(** The week bucket the report is meant to show: the insights dated in
    [weekStart, weekStart + 7 days). *)
Definition inWeekOf (tza : Z) (weekStart : Z) (insight : ActivityInsight) : bool :=
  let insightDate := JsDate.ofDateString (ai_date insight) in
  (weekStart <=? insightDate) && (insightDate <? JsDate.setDatePlus tza weekStart 7).

Definition weekBucket (tza : Z) (weekStart : Z) (insights : list ActivityInsight)
  : list ActivityInsight :=
  List.filter (inWeekOf tza weekStart) insights.

(** A push event with at least one commit in its list. *)
Definition is_push_nonempty (event : Commit) : bool :=
  match ev_type event, ev_commits event with
  | Some t, Some (_ :: _) => String.eqb t "PushEvent"
  | _, _ => false
  end.

(** The cache keys of the range reads. *)
Definition rangeKey (userId : string) (startDate endDate : Z) : string :=
  userId +:+ "-" +:+ JsDate.toISOString startDate
         +:+ "-" +:+ JsDate.toISOString endDate.
Definition recordsKey (userId : string) (startDate endDate : Z) : string :=
  "records-" +:+ rangeKey userId startDate endDate.
Definition latestKey (userId : string) : string := "latest-" +:+ userId.

(** The natural key of a commit row. *)
Definition commitKey (r : CommitRecord) : string * string :=
  (cr_user_id r, cr_commit_hash r).

(** At most one commit row per (user id, commit hash). *)
Definition uniqueCommits (d : Db) : Prop :=
  NoDup (map commitKey (commit_records d)).

(** The local calendar day of an instant. *)
Definition localDay (tza t : Z) : Z := JsDate.Day (JsDate.LocalTime tza t).

(** The commit rows of a user on the local calendar day of [date]. *)
Definition commitsOnDay (tza : Z) (d : Db) (userId : string) (date : Z)
  : list CommitRecord :=
  filter (fun r => cr_user_id r = userId
                   /\ localDay tza (cr_commit_timestamp r) = localDay tza date)
         (commit_records d).

(** The distinct hours of day among the timestamps of some rows. *)
Definition distinctHours (tza : Z) (rows : list CommitRecord) : list Z :=
  remove_dups (map (fun r => JsDate.getHours tza (cr_commit_timestamp r)) rows).

End Ref.

(** ** Sample data *)

Module Sample.

(** Insights of 2024-09-03 and 2024-09-04, a Tuesday and a Wednesday. *)
Definition day_80_75 : ActivityInsight :=
  mkActivityInsight 1%nat "u" 19969 (Some 75) (Some 80) 3 (2 # 1) None.
Definition day_60_90 : ActivityInsight :=
  mkActivityInsight 2%nat "u" 19970 (Some 90) (Some 60) 1 (1 # 1) None.

(** The week starts of September 2024 in a UTC zone: Sundays 1, 8, 15,
    22 and 29 at midnight. *)
Definition sept_2024_weeks : list Z :=
  [1725148800000; 1725753600000; 1726358400000; 1726963200000; 1727568000000].

Definition never_down : nat -> bool := fun _ => false.
Definition always_down : nat -> bool := fun _ => true.

Definition empty_db : Db := mkDb [] [] [] 0.

(** A zone one hour east of UTC. *)
Definition utc_plus_1 : Z := 3600000.

(** Commits of user "u" at 09:10, 09:40 and 10:05 local time on
    2024-01-01, one on the next day, and one of another user. *)
Definition commit_rows : list CommitRecord :=
  [ mkCommitRecord 1%nat "u" "alpha" "a1" (Some "one") 1704096600000;
    mkCommitRecord 2%nat "u" "alpha" "a2" (Some "two") 1704098400000;
    mkCommitRecord 3%nat "v" "beta" "b1" None 1704098400000;
    mkCommitRecord 4%nat "u" "alpha" "a3" (Some "three") 1704099900000;
    mkCommitRecord 5%nat "u" "alpha" "a4" None 1704186000000 ].
Definition commit_db : Db := mkDb [] commit_rows [] 10.

(** Noon local time on 2024-01-01. *)
Definition noon_jan_1 : Z := 1704106800000.

(** Activity events: a push with two commits, a push whose commit list is
    empty, a watch event, and a push without a commit list. *)
Definition push_two : Commit :=
  mkCommit "e1" (Some "PushEvent") (Some 1704096600000) "alpha"
           (Some [mkCommitEntry "one" "a1"; mkCommitEntry "two" "a2"]).
Definition push_empty : Commit :=
  mkCommit "e2" (Some "PushEvent") (Some 1704098400000) "alpha" (Some []).
Definition watch : Commit :=
  mkCommit "e3" (Some "WatchEvent") (Some 1704098400000) "alpha" None.
Definition push_bare : Commit :=
  mkCommit "e4" (Some "PushEvent") None "alpha" None.

(** 23:30 local on 2024-01-01 and 00:30 local on 2024-01-02, in the zone
    one hour east of UTC: the same UTC day, two local days. *)
Definition late_jan_1 : Z := 1704148200000.
Definition early_jan_2 : Z := 1704151800000.

(** One night of user "u", dated 2024-01-01, and two inserts: one for
    the same user and date, which the table refuses, and one for the next
    date. *)
Definition sleep_row : SleepRecord :=
  mkSleepRecord 7%nat "u" 19723 1704060000000 1704088800000 (8 # 1) (Some 75) None.
Definition sleep_db : Db := mkDb [sleep_row] [] [] 20.
Definition sleep_again : SleepRecordInsert :=
  mkSleepRecordInsert None "u" 19723 1704063600000 1704088800000 (7 # 1)
    (Some 60) None.
Definition sleep_next : SleepRecordInsert :=
  mkSleepRecordInsert None "u" 19724 1704146400000 1704175200000 (8 # 1)
    (Some 80) None.

(** The cache of a sleep service after reading the week of 2024-01-01 at
    time 1000 from [sleep_db]. *)
Definition week_start : Z := 1704067200000.
Definition week_end : Z := 1704672000000.
Definition sleep_cache : gmap string (Entry (list SleepRecord)) :=
  <[Ref.rangeKey "u" week_start week_end := mkEntry [sleep_row] 1000]> ∅.

(** A commit of user "u" at 11:20 local time on 2024-01-01, pushed after
    the stats of that day were cached. *)
Definition late_commit : CommitRecordInsert :=
  mkCommitRecordInsert None "u" "alpha" "a5" (Some "five") 1704104400000.

(** A sync service before its first run: signed out, empty cache, empty
    tables. *)
Definition sync_start : SyncState :=
  mkSync (mkGitHub None false) ∅ (mkWorld (mkDb [] [] [] 0) []).
Definition clock : nat -> Z := fun _ => 1704110400000.

Definition events_api : string -> EventsRequest -> ApiResult :=
  fun _ _ => ApiData [push_two; push_empty; watch; push_bare].

Definition signed_out : GitHubState := mkGitHub None false.

End Sample.

(** ** Notifications *)

(** What [toast.success] and [toast.error] have shown so far. *)
Inductive Toast : Type :=
| ToastSuccess (msg : string)
| ToastError (msg : string).

(** ** The Sleep page (pages/Sleep.tsx) *)

(** The form of the "Add Sleep Record" dialog.  The date input holds a
    'yyyy-MM-dd' string, modelled by its day number; a time input holds an
    'HH:mm' string, modelled by its minutes after midnight. *)
Record FormData := mkFormData {
  fd_date : Z;
  fd_startTime : Z;
  fd_endTime : Z;
  fd_quality : Z;
  fd_notes : string
}.

Record SleepPageState := mkSleepPage {
  sp_sleepRecords : list SleepRecord;
  sp_loading : bool;
  sp_showAddModal : bool;
  sp_toasts : list Toast
}.

Module SleepPage.
Section Handlers.

Variable down : nat -> bool.
Variable zone : JsDate.Zone.

(** [new Date(`${date}T${time}`)]: a date-time string without a zone is
    local time. *)
Definition ofLocalDateTime (day minutes : Z) : Z :=
  JsDate.UTCIn zone (day * JsDate.msPerDay + minutes * JsDate.msPerMinute).

(** [Number(x.toFixed(2))]: the nearest multiple of 1/100, a tie going
    away from zero. *)
Definition toFixed2 (x : Q) : Q :=
  if Qle_bool 0 x then (inject_Z (Qfloor (x * 100 + (1 # 2))%Q) / 100)%Q
  else (- (inject_Z (Qfloor (- x * 100 + (1 # 2))%Q) / 100))%Q.

(** The start and end instants [handleAddSleep] computes from the form. *)
Definition startDateTime (f : FormData) : Z :=
  ofLocalDateTime (fd_date f) (fd_startTime f).
Definition endDateTime (f : FormData) : Z :=
  let e := ofLocalDateTime (fd_date f) (fd_endTime f) in
  if e <? startDateTime f then JsDate.setDatePlusIn zone e 1 else e.

Definition durationHours (f : FormData) : Q :=
  (inject_Z (endDateTime f - startDateTime f) / inject_Z (1000 * 60 * 60))%Q.

(** The record [handleAddSleep] passes to [addSleepRecord]. *)
Definition sleepRecordOf (userId : string) (f : FormData) : SleepRecordInsert :=
  mkSleepRecordInsert None userId (fd_date f) (startDateTime f) (endDateTime f)
    (toFixed2 (durationHours f)) (Some (fd_quality f))
    (if String.eqb (fd_notes f) "" then None else Some (fd_notes f)).

(** [loadSleepData]: the records of the last seven days (date-fns
    [subDays] is [setDate(getDate() - 7)]).  The service method does not
    throw, so the error toast of the [catch] is never shown. *)
Definition loadSleepData (user : option string)
    (page : SleepPageState) (cache : gmap string (Entry (list SleepRecord)))
    (w : World) (now now0 now1 : Z)
  : SleepPageState * gmap string (Entry (list SleepRecord)) * World :=
  match user with
  | None => (page, cache, w)
  | Some userId =>
      let endDate := now in
      let startDate := JsDate.setDatePlusIn zone endDate (-7) in
      let '(records, cache1, w1) :=
        SleepService.getSleepRecords down cache w userId startDate endDate now0 now1 in
      (mkSleepPage records false (sp_showAddModal page) (sp_toasts page), cache1, w1)
  end.

(** [handleAddSleep]: insert the record, show the success toast, close the
    dialog and reload. *)
Definition handleAddSleep (user : option string) (f : FormData)
    (page : SleepPageState) (cache : gmap string (Entry (list SleepRecord)))
    (w : World) (now now0 now1 : Z)
  : SleepPageState * gmap string (Entry (list SleepRecord)) * World :=
  match user with
  | None => (page, cache, w)
  | Some userId =>
      let '(_, cache1, w1) :=
        SleepService.addSleepRecord down cache w (sleepRecordOf userId f) in
      let page1 :=
        mkSleepPage (sp_sleepRecords page) (sp_loading page) false
          (sp_toasts page ++ [ToastSuccess "Sleep record added successfully"]) in
      loadSleepData user page1 cache1 w1 now now0 now1
  end.

Definition sumQ (f : SleepRecord -> Q) (l : list SleepRecord) : Q :=
  fold_left (fun acc record => (acc + f record)%Q) l 0%Q.

(** [sleepRecords.length ? sum / sleepRecords.length : 0] *)
Definition averageSleepDuration (sleepRecords : list SleepRecord) : Q :=
  if (length sleepRecords =? 0)%nat then 0%Q
  else (sumQ sr_duration_hours sleepRecords
        / inject_Z (Z.of_nat (length sleepRecords)))%Q.

Definition averageQuality (sleepRecords : list SleepRecord) : Q :=
  if (length sleepRecords =? 0)%nat then 0%Q
  else (sumQ (fun record => inject_Z (default 0%Z (sr_quality_score record)))
             sleepRecords
        / inject_Z (Z.of_nat (length sleepRecords)))%Q.

End Handlers.
End SleepPage.

(** ** The Commits page (pages/Commits.tsx, component Commits) *)

Record HourRow := mkHourRow {
  hr_hour : string;
  hr_commits : nat
}.

Module CommitsPage.
Section View.

Variable tza : Z.

(** [Array.from({ length: 24 }, (_, hour) => ...)]: one row per hour of
    day, labelled 'HH:00', with the number of commits whose local hour is
    that hour. *)
Definition commitsByHour (commits : list CommitRecord) : list HourRow :=
  map (fun hour : nat =>
         mkHourRow
           (JsDate.pad2 (Z.of_nat hour) +:+ ":00")
           (length (filter (fun commit =>
                              JsDate.getHours tza (cr_commit_timestamp commit)
                              = Z.of_nat hour) commits)))
      (seq 0 24).

(** [rows.reduce((max, current) => current.commits > max.commits ? current : max)]:
    a reduce without initial value starts from the first row, and fails on
    an empty array. *)
Definition peak (rows : list HourRow) : option HourRow :=
  match rows with
  | [] => None
  | first :: rest =>
      Some (fold_left (fun max current =>
                         if (hr_commits max <? hr_commits current)%nat
                         then current else max) rest first)
  end.

(** [[...new Set(names)]]: the distinct names, in the order of their first
    occurrence. *)
Definition distinct (names : list string) : list string :=
  fold_left (fun seen name => if decide (name ∈ seen) then seen else seen ++ [name])
            names [].

Definition repositories (commits : list CommitRecord) : list string :=
  distinct (map cr_repository commits).

(** [commits.filter(c => c.repository === repo)] *)
Definition repoCommits (commits : list CommitRecord) (repo : string)
  : list CommitRecord :=
  filter (fun c => cr_repository c = repo) commits.

End View.
End CommitsPage.

(** ** The monthly statistics of the report (loadMonthlyData) *)

Record MonthlyStats := mkMonthlyStats {
  totalCommits : Z;
  avgSleep : Q;
  avgProductivity : Q;
  goalsMetCount : nat;
  ms_activeHours : Q;
  consistencyScore : Q
}.

Inductive TrendColor : Type := Green | Red.

Module MonthlyReport.

(** [(insight.sleep_score || 0) >= 70 && (insight.productivity_score || 0) >= 70] *)
Definition goalsMet (insight : ActivityInsight) : bool :=
  (70 <=? Reports.or0 (ai_sleep_score insight))
  && (70 <=? Reports.or0 (ai_productivity_score insight)).

Definition stats (monthInsights : list ActivityInsight) : MonthlyStats :=
  mkMonthlyStats
    (Reports.sumZ ai_commit_count monthInsights)
    (Reports.averageOr0 (Reports.sumZ (fun i => Reports.or0 (ai_sleep_score i))
                           monthInsights)
                        (length monthInsights))
    (Reports.averageOr0 (Reports.sumZ (fun i => Reports.or0 (ai_productivity_score i))
                           monthInsights)
                        (length monthInsights))
    (length (List.filter goalsMet monthInsights))
    (Reports.sumQ ai_active_hours monthInsights)
    (Reports.calculateConsistencyScore monthInsights).

(** The colour of [renderTrend]: green for [change >= 0]. *)
Definition trendColor (current previous : Q) : TrendColor :=
  if Qle_bool 0 (Reports.getPercentageChange current previous) then Green else Red.

End MonthlyReport.

(** ** The auth context (contexts/AuthContext.tsx) *)

Record AuthState := mkAuth {
  au_sync : SyncState;
  au_toasts : list Toast
}.

Module AuthContext.
Section Handlers.

Variable down : nat -> bool.
Variable listEvents : string -> EventsRequest -> ApiResult.
Variable nowAt : nat -> Z.

(** [refreshToken]: rebind the client, sync when a user is signed in, and
    report.  [token] is what the token provider resolves to. *)
Definition refreshToken (token : option string) (user : option string)
    (a : AuthState) (now : Z) : AuthState :=
  let s := au_sync a in
  match GitHubService.refreshToken token (github s) with
  | (Thrown _, g1) =>
      mkAuth (mkSync g1 (commitCache s)
                (log_error (world s) (db (world s)) "Token refresh error:"))
             (au_toasts a ++ [ToastError "Failed to refresh token"])
  | (Returned _, g1) =>
      let s1 := mkSync g1 (commitCache s) (world s) in
      let s2 := match user with
                | Some userId =>
                    snd (GitHubSyncService.syncCommits down token listEvents nowAt
                           s1 userId now)
                | None => s1
                end in
      mkAuth s2 (au_toasts a ++ [ToastSuccess "Token refreshed successfully"])
  end.

(** [initializeGitHub(session)].  [token] is what the provider resolves to
    inside [githubService.initialize()], [token1] what it resolves to in the
    call that follows; [sessionUser] is the id of [session.user]. *)
Definition initializeGitHub (token token1 : option string)
    (sessionUser : option string) (s : SyncState) (now : Z) : bool * SyncState :=
  match GitHubService.initialize token (github s) with
  | (Thrown _, g1) =>
      (false, mkSync g1 (commitCache s)
                (log_error (world s) (db (world s)) "GitHub initialization error:"))
  | (Returned _, g1) =>
      if GitHubService.no_token token1
      then (false, mkSync g1 (commitCache s)
                     (log_error (world s) (db (world s))
                        "GitHub initialization error:"))
      else
        let s1 := mkSync g1 (commitCache s) (world s) in
        match sessionUser with
        | Some userId =>
            (true, snd (GitHubSyncService.syncCommits down token1 listEvents nowAt
                          s1 userId now))
        | None => (true, s1)
        end
  end.

End Handlers.
End AuthContext.

(** ** More reference definitions *)

Module Ref2.

(** The commit entries of a list of events, each with its event. *)
Definition entriesOf (events : list Commit) : list (Commit * CommitEntry) :=
  concat (map (fun e => map (fun c => (e, c)) (default [] (ev_commits e))) events).

(** Every commit row has an id below the number of requests sent: the ids
    the table generates later are new. *)
Definition idFresh (d : Db) : Prop :=
  forall r, r ∈ commit_records d -> (cr_id r < requests d)%nat.

(** Stats as [getCommitStats] derives them: at most one active hour per
    commit, at most 24, and at least one as soon as there is a commit. *)
Definition saneStats (st : CommitStats) : Prop :=
  (hours st <= count st)%nat /\ (hours st <= 24)%nat
  /\ ((0 < count st)%nat -> (0 < hours st)%nat).

(** Every entry of the commit cache sits under a key of its own kind. *)
Definition cacheSane (cache : gmap string (Entry CommitAny)) : Prop :=
  forall k e, cache !! k = Some e ->
    match data e with
    | AnyStats st => (exists rest, k = "stats-" +:+ rest) /\ saneStats st
    | AnyRecords _ => exists rest, k = "records-" +:+ rest
    end.

(** The record [syncCommits] inserts for an entry of a push event, when
    the table has answered [requests d] requests so far. *)
Definition recordOf (nowAt : nat -> Z) (userId : string) (e : Commit)
    (c : CommitEntry) (d : Db) : CommitRecordInsert :=
  mkCommitRecordInsert None userId (ev_repo_name e) (ce_sha c)
    (Some (ce_message c)) (default (nowAt (requests d)) (ev_created_at e)).

(** The row the table stores for an entry of a push event. *)
Definition rowOf (userId : string) (r : CommitRecord) (e : Commit) (c : CommitEntry)
  : Prop :=
  cr_user_id r = userId /\ cr_repository r = ev_repo_name e
  /\ cr_commit_hash r = ce_sha c /\ cr_commit_message r = Some (ce_message c).

End Ref2.

Module Sample2.

(** The form left at its defaults: 22:00 to 06:00, quality 75, for
    2024-01-01. *)
Definition night_form : FormData := mkFormData 19723 (22 * 60) (6 * 60) 75 "".

Definition blank_page : SleepPageState := mkSleepPage [] true true [].

(** Two commits in "alpha", one in "beta", one more in "alpha". *)
Definition page_commits : list CommitRecord :=
  [ mkCommitRecord 1%nat "u" "alpha" "a1" (Some "one") 1704096600000;
    mkCommitRecord 2%nat "u" "alpha" "a2" (Some "two") 1704098400000;
    mkCommitRecord 3%nat "u" "beta" "b1" None 1704099900000;
    mkCommitRecord 4%nat "u" "alpha" "a3" None 1704099960000 ].

Definition bound : GitHubState := mkGitHub (Some "old"%string) true.

Definition insight_rows : list ActivityInsight :=
  [ mkActivityInsight 1%nat "u" 19969 (Some 75) (Some 80) 3 (2 # 1) None;
    mkActivityInsight 2%nat "u" 19970 (Some 90) (Some 60) 1 (1 # 1) None;
    mkActivityInsight 3%nat "v" 19971 (Some 10) (Some 10) 0 (0 # 1) None ].
Definition insight_db : Db := mkDb [] [] insight_rows 5.

(** An API that rejects every request. *)
Definition api_down : string -> EventsRequest -> ApiResult :=
  fun _ _ => ApiError "Bad credentials".

Definition signed_in : AuthState := mkAuth (mkSync bound ∅ (mkWorld (mkDb [] [] [] 0) [])) [].

(** Central European time in 2024: one hour east of UTC, two hours from
    31 March 01:00 UTC to 27 October 01:00 UTC.  A local time that the
    clocks skip or show twice is read with the offset before the change. *)
Definition cet_2024 : JsDate.Zone :=
  JsDate.mkZone
    (fun t => if (1711846800000 <=? t) && (t <? 1729990800000)
              then 7200000 else 3600000)
    (fun t => if (1711854000000 <=? t) && (t <? 1729998000000)
              then 7200000 else 3600000).

(** 22:40 to 06:00, entered for 2024-01-01: 7 hours 20 minutes. *)
Definition winter_form : FormData := mkFormData 19723 (22 * 60 + 40) (6 * 60) 75 "".

(** 22:00 to 06:00, entered for 2024-10-26, the night the clocks go back,
    and 00:30 to 00:15, entered for 2024-10-27. *)
Definition autumn_form : FormData := mkFormData 20022 (22 * 60) (6 * 60) 75 "".
Definition round_the_clock_form : FormData := mkFormData 20023 30 15 75 "".

(** A commit table that holds the hash "a1" for the user "u" and for
    another user, and not yet the hash "a2". *)
Definition partial_rows : list CommitRecord :=
  [ mkCommitRecord 3%nat "v" "beta" "a1" None 1704098400000;
    mkCommitRecord 1%nat "u" "alpha" "a1" (Some "one") 1704096600000 ].
Definition partial_db : Db := mkDb [] partial_rows [] 10.

End Sample2.

(** * Theorems *)

Example iso_epoch : JsDate.toISOString 0 = "1970-01-01T00:00:00.000Z"%string.
Proof. reflexivity. Qed.
Example iso_2024 : JsDate.toISOString 1704100200123 = "2024-01-01T09:10:00.123Z"%string.
Proof. reflexivity. Qed.
Example iso_leap : JsDate.toISOString 1709251199999 = "2024-02-29T23:59:59.999Z"%string.
Proof. reflexivity. Qed.
Example iso_before_epoch : JsDate.toISOString (-1) = "1969-12-31T23:59:59.999Z"%string.
Proof. reflexivity. Qed.
Example iso_split_2024 :
  JsDate.splitT0 (JsDate.toISOString 1704100200123) = "2024-01-01"%string.
Proof. reflexivity. Qed.

(** ** Report metrics *)

Lemma consistency_loop (l pre : list ActivityInsight) (a : ActivityInsight) (acc : Z) :
  fold_left (Reports.consistencyStep (pre ++ a :: l))
            (seq (S (length pre)) (length l)) acc
  = acc + Ref.points (a :: l).
Proof.
  revert pre a acc. induction l as [|b l IH]; intros pre a acc.
  - simpl. lia.
  - cbn [length seq fold_left].
    assert (Hstep : Reports.consistencyStep (pre ++ a :: b :: l) acc (S (length pre))
                    = acc + Ref.pairPoints a b).
    { unfold Reports.consistencyStep.
      replace (S (length pre) - 1)%nat with (length pre) by lia.
      rewrite list_lookup_middle by reflexivity.
      replace (pre ++ a :: b :: l) with ((pre ++ [a]) ++ b :: l)
        by (rewrite <- app_assoc; reflexivity).
      rewrite list_lookup_middle by (rewrite length_app; simpl; lia).
      unfold Ref.pairPoints.
      repeat case_match; lia. }
    rewrite Hstep.
    replace (pre ++ a :: b :: l) with ((pre ++ [a]) ++ b :: l)
      by (rewrite <- app_assoc; reflexivity).
    replace (S (S (length pre))) with (S (length (pre ++ [a])))
      by (rewrite length_app; simpl; lia).
    rewrite IH. cbn [Ref.points]. lia.
Qed.

Lemma consistency_loop_points (data : list ActivityInsight) :
  fold_left (Reports.consistencyStep data) (seq 1 (length data - 1)) 0
  = Ref.points data.
Proof.
  destruct data as [|a l]; [reflexivity|].
  cbn [length]. replace (S (length l) - 1)%nat with (length l) by lia.
  etransitivity; [exact (consistency_loop l [] a 0) | lia].
Qed.



(** C6. The percentage change is (current - previous) / previous * 100 when
    previous is not 0, and exactly 100 when previous is 0, whatever current
    is (0 included). *)
Theorem percentage_change_formula (current previous : Q) :
  (~ (previous == 0)%Q ->
     Reports.getPercentageChange current previous
     = ((current - previous) / previous * 100)%Q)
  /\ ((previous == 0)%Q -> Reports.getPercentageChange current previous = 100%Q)
  /\ Reports.getPercentageChange current 0 = 100%Q
  /\ Reports.getPercentageChange 0 0 = 100%Q.
Proof.
  unfold Reports.getPercentageChange.
  split; [|split; [|split]]; try reflexivity.
  - intros H. destruct (Qeq_bool previous 0) eqn:E; [|reflexivity].
    apply Qeq_bool_iff in E. contradiction.
  - intros H. apply Qeq_bool_iff in H. rewrite H. reflexivity.
Qed.

Lemma percentage_change_formula_witness :
  Reports.getPercentageChange 3 2 = ((3 - 2) / 2 * 100)%Q
  /\ Reports.getPercentageChange 7 (0 # 5) = 100%Q.
Proof.
  split.
  - apply (proj1 (percentage_change_formula 3 2)). intros H. discriminate H.
  - apply (proj1 (proj2 (percentage_change_formula 7 (0 # 5)))). reflexivity.
Defined.

Example sept_2024_weeks_iso :
  map JsDate.toISOString Sample.sept_2024_weeks
  = ["2024-09-01T00:00:00.000Z"; "2024-09-08T00:00:00.000Z";
     "2024-09-15T00:00:00.000Z"; "2024-09-22T00:00:00.000Z";
     "2024-09-29T00:00:00.000Z"]%string.
Proof. reflexivity. Qed.

Example sample_days_iso :
  JsDate.isoDate (ai_date Sample.day_80_75) = "2024-09-03"%string
  /\ JsDate.isoDate (ai_date Sample.day_60_90) = "2024-09-04"%string.
Proof. split; reflexivity. Qed.

(** Once the callback has accepted the date of an insight, the week start
    has moved a week ahead, and a later insight of the same week is
    refused. *)
Lemma filterWeek_second_of_week_lost (tza weekStart : Z) (a b : ActivityInsight) :
  Ref.inWeekOf tza weekStart a = true ->
  Ref.inWeekOf tza weekStart b = true ->
  Reports.filterWeek tza weekStart [a; b] = [a].
Proof.
  unfold Ref.inWeekOf, Reports.filterWeek, Reports.inWeek, JsDate.setDatePlus,
    JsDate.UTC, JsDate.LocalTime, JsDate.msPerDay.
  intros Ha Hb.
  apply andb_prop in Ha as [Ha1 Ha2]. apply andb_prop in Hb as [Hb1 Hb2].
  rewrite Ha1, Ha2.
  apply Z.ltb_lt in Hb2.
  destruct (Z.leb_spec (weekStart + tza + 7 * 86400000 - tza)
                       (JsDate.ofDateString (ai_date b))) as [H|H]; [lia|].
  reflexivity.
Qed.

(** C2. On September 2024 with one insight on Tuesday the 3rd (3 commits)
    and one on Wednesday the 4th (1 commit), both in the first week, the
    first row of the weekly report holds the commits of one of them only (1
    for the newest-first order the store returns, 3 for the other order)
    where the week has 4: the bucket lost an insight, and no other week
    holds it. *)
Theorem weekly_report_loses_insights :
  Ref.weekBucket 0 1725148800000 [Sample.day_60_90; Sample.day_80_75]
  = [Sample.day_60_90; Sample.day_80_75]
  /\ map (fun weekStart =>
           Reports.filterWeek 0 weekStart [Sample.day_60_90; Sample.day_80_75])
        Sample.sept_2024_weeks
     = [[Sample.day_60_90]; []; []; []; []]
  /\ map commits
        (Reports.weeklyData 0 Sample.sept_2024_weeks
           [Sample.day_60_90; Sample.day_80_75])
     = [1; 0; 0; 0; 0]
  /\ map commits
        (Reports.weeklyData 0 Sample.sept_2024_weeks
           [Sample.day_80_75; Sample.day_60_90])
     = [3; 0; 0; 0; 0]
  /\ Reports.sumZ ai_commit_count
        (Ref.weekBucket 0 1725148800000 [Sample.day_60_90; Sample.day_80_75])
     = 4.
Proof. repeat split; vm_compute; reflexivity. Qed.

(** ** GitHubService.getCommits *)

(** C8 as stated does not hold: a push event whose commit list is empty
    passes the filter of [getCommits], so the events returned are not exactly the push events
    with a non-empty commit list. *)
Lemma getCommits_keeps_empty_push :
  ~ (forall (token : option string)
            (listEvents : string -> EventsRequest -> ApiResult)
            (g : GitHubState) (since : Z) (client : string)
            (events : list Commit),
        GitHubService.ensureInitialized token g = (Returned client, g) ->
        listEvents client (GitHubService.eventsRequest since) = ApiData events ->
        fst (GitHubService.getCommits token listEvents g since)
        = Returned (List.filter Ref.is_push_nonempty events)).
Proof.
  intros H.
  specialize (H (Some "t"%string) Sample.events_api
                (mkGitHub (Some "t"%string) true) 0 "t"%string
                [Sample.push_two; Sample.push_empty; Sample.watch; Sample.push_bare]
                eq_refl eq_refl).
  vm_compute in H. discriminate H.
Qed.

(** C8 (amended). [getCommits] asks for the first page of at most 100
    events of the authenticated identity since the given time, and returns,
    in the order received, exactly the events whose type is "PushEvent" and
    whose payload has a commit list, empty or not; every other event is
    left out. *)
Theorem getCommits_filters_push_events
    (token : option string) (listEvents : string -> EventsRequest -> ApiResult)
    (g g1 : GitHubState) (since : Z) (client : string) (events : list Commit) :
  GitHubService.ensureInitialized token g = (Returned client, g1) ->
  listEvents client (mkEventsRequest "me" 100 (JsDate.toISOString since))
  = ApiData events ->
  exists result : list Commit,
    GitHubService.getCommits token listEvents g since = (Returned result, g1)
    /\ result = List.filter GitHubService.is_push_with_commits events
    /\ (length result <= length events)%nat
    /\ (forall e : Commit,
          e ∈ result <->
          e ∈ events /\ ev_type e = Some "PushEvent"%string
          /\ exists l, ev_commits e = Some l).
Proof.
  intros Hinit Hapi.
  exists (List.filter GitHubService.is_push_with_commits events).
  split; [|split; [|split]].
  - unfold GitHubService.getCommits, GitHubService.eventsRequest.
    rewrite Hinit, Hapi. reflexivity.
  - reflexivity.
  - apply List.filter_length_le.
  - intros e. rewrite !list_elem_of_In, List.filter_In.
    unfold GitHubService.is_push_with_commits.
    split.
    + intros [Hin Hp]. split; [exact Hin|].
      apply andb_prop in Hp as [Ht Hc].
      destruct (ev_type e) as [t|]; [|discriminate].
      apply String.eqb_eq in Ht. subst t. split; [reflexivity|].
      destruct (ev_commits e) as [l|]; [|discriminate]. exists l. reflexivity.
    + intros (Hin & Ht & l & Hl). split; [exact Hin|].
      rewrite Ht, Hl. reflexivity.
Qed.

Lemma getCommits_filters_push_events_witness :
  exists result : list Commit,
    GitHubService.getCommits (Some "t"%string) Sample.events_api
      Sample.signed_out 1704067200000
    = (Returned result, mkGitHub (Some "t"%string) true)
    /\ result = List.filter GitHubService.is_push_with_commits
                  [Sample.push_two; Sample.push_empty; Sample.watch; Sample.push_bare]
    /\ (length result <= 4)%nat
    /\ (forall e : Commit,
          e ∈ result <->
          e ∈ [Sample.push_two; Sample.push_empty; Sample.watch; Sample.push_bare]
          /\ ev_type e = Some "PushEvent"%string
          /\ exists l, ev_commits e = Some l).
Proof.
  apply (getCommits_filters_push_events (Some "t"%string) Sample.events_api
           Sample.signed_out (mkGitHub (Some "t"%string) true) 1704067200000
           "t"%string
           [Sample.push_two; Sample.push_empty; Sample.watch; Sample.push_bare]);
    reflexivity.
Defined.

Example getCommits_sample :
  fst (GitHubService.getCommits (Some "t"%string) Sample.events_api
         Sample.signed_out 1704067200000)
  = Returned [Sample.push_two; Sample.push_empty].
Proof. reflexivity. Qed.

(** ** Commit sync *)

Lemma commit_key_taken_elem (rows : list CommitRecord) (u h : string) :
  Supabase.commit_key_taken rows u h = true <-> (u, h) ∈ map Ref.commitKey rows.
Proof.
  unfold Supabase.commit_key_taken.
  induction rows as [|r rows IH]; cbn [existsb map].
  - split; [discriminate | intros H; inversion H].
  - rewrite orb_true_iff, IH, elem_of_cons, andb_true_iff, !String.eqb_eq.
    unfold Ref.commitKey at 1. split.
    + intros [[<- <-]|H]; [left; reflexivity | right; exact H].
    + intros [[= -> ->]|H]; [left; split; reflexivity | right; exact H].
Qed.

Lemma insert_commit_unique (down : nat -> bool) (d : Db) (r : CommitRecordInsert) :
  Ref.uniqueCommits d ->
  Ref.uniqueCommits (snd (Supabase.insert_commit down d r)).
Proof.
  unfold Ref.uniqueCommits, Supabase.insert_commit. intros Hd.
  destruct (down (requests d)); [exact Hd|].
  destruct (Supabase.commit_pk_taken _ _); [exact Hd|].
  destruct (Supabase.commit_key_taken _ _ _) eqn:Hk; [exact Hd|].
  cbn. rewrite map_app. apply NoDup_app. split; [exact Hd|]. split.
  - intros k Hin Hk'. cbn in Hk'. apply list_elem_of_singleton in Hk'. subst k.
    apply commit_key_taken_elem in Hin. unfold Ref.commitKey in Hin; cbn in Hin.
    congruence.
  - cbn. apply NoDup_singleton.
Qed.

Lemma addCommitRecord_db (down : nat -> bool) (cache : gmap string (Entry CommitAny))
    (w : World) (record : CommitRecordInsert) :
  db (snd (CommitService.addCommitRecord down cache w record))
  = snd (Supabase.insert_commit down (db w) record).
Proof.
  unfold CommitService.addCommitRecord.
  destruct (Supabase.insert_commit down (db w) record) as [[row|msg] d]; reflexivity.
Qed.

Section SyncInvariant.

Variable down : nat -> bool.
Variable nowAt : nat -> Z.
Variable userId : string.

Lemma addOne_unique (commit : Commit) (acc : gmap string (Entry CommitAny) * World)
    (commitData : CommitEntry) :
  Ref.uniqueCommits (db (snd acc)) ->
  Ref.uniqueCommits
    (db (snd (GitHubSyncService.addOne down nowAt userId commit acc commitData))).
Proof.
  destruct acc as [cache w]. intros H. unfold GitHubSyncService.addOne.
  match goal with
  | |- context [CommitService.addCommitRecord down cache w ?r] =>
      pose proof (addCommitRecord_db down cache w r) as Hdb;
      destruct (CommitService.addCommitRecord down cache w r) as [[res c1] w1]
  end.
  cbn in *. rewrite Hdb. apply insert_commit_unique. exact H.
Qed.

Lemma processEvent_unique (acc : gmap string (Entry CommitAny) * World)
    (commit : Commit) :
  Ref.uniqueCommits (db (snd acc)) ->
  Ref.uniqueCommits
    (db (snd (GitHubSyncService.processEvent down nowAt userId acc commit))).
Proof.
  unfold GitHubSyncService.processEvent.
  destruct (ev_commits commit) as [entries|]; [|auto].
  revert acc. induction entries as [|e entries IH]; intros acc H; cbn; [exact H|].
  apply IH. apply addOne_unique. exact H.
Qed.

Lemma processEvents_unique (commits : list Commit)
    (acc : gmap string (Entry CommitAny) * World) :
  Ref.uniqueCommits (db (snd acc)) ->
  Ref.uniqueCommits
    (db (snd (fold_left (GitHubSyncService.processEvent down nowAt userId)
                        commits acc))).
Proof.
  revert acc. induction commits as [|c commits IH]; intros acc H; cbn; [exact H|].
  apply IH. apply processEvent_unique. exact H.
Qed.

End SyncInvariant.

Lemma syncCommits_unique (down : nat -> bool) (token : option string)
    (listEvents : string -> EventsRequest -> ApiResult) (nowAt : nat -> Z)
    (s : SyncState) (userId : string) (now : Z) :
  Ref.uniqueCommits (db (world s)) ->
  Ref.uniqueCommits
    (db (world (snd (GitHubSyncService.syncCommits down token listEvents nowAt
                       s userId now)))).
Proof.
  intros H. unfold GitHubSyncService.syncCommits.
  destruct (GitHubService.getCommits _ _ _ _) as [[commits|msg] g1]; [|exact H].
  pose proof (processEvents_unique down nowAt userId commits
                (commitCache s, world s) H) as Hp.
  destruct (fold_left _ commits _) as [cache1 w1]. exact Hp.
Qed.

Lemma syncCommits_result (down : nat -> bool) (token : option string)
    (listEvents : string -> EventsRequest -> ApiResult) (nowAt : nat -> Z)
    (s : SyncState) (userId : string) (now : Z) :
  fst (GitHubSyncService.syncCommits down token listEvents nowAt s userId now) = true
  <-> exists commits,
        fst (GitHubService.getCommits token listEvents (github s)
               (JsDate.subDays now 30)) = Returned commits.
Proof.
  unfold GitHubSyncService.syncCommits.
  destruct (GitHubService.getCommits _ _ _ _) as [[commits|msg] g1]; cbn.
  - destruct (fold_left _ commits _) as [cache1 w1]. cbn.
    split; [intros _; exists commits; reflexivity | reflexivity].
  - split; [discriminate | intros [c Hc]; discriminate Hc].
Qed.

(** C1. [syncCommits] preserves "at most one commit row per (user id,
    commit hash)": it holds after a run whenever it held before, hence also
    after a second run over the same event window.  The orchestrator checks
    nothing itself: an insert whose (user_id, commit_hash) is taken is
    refused by the table, [addCommitRecord] logs it, returns null and leaves
    rows and cache as they were, and the run still returns true, which it
    does whenever the events could be fetched. *)
Theorem syncCommits_keeps_commits_unique (down : nat -> bool)
    (token : option string) (listEvents : string -> EventsRequest -> ApiResult)
    (nowAt : nat -> Z) (s : SyncState) (userId : string) (now : Z) :
  Ref.uniqueCommits (db (world s)) ->
  let first := GitHubSyncService.syncCommits down token listEvents nowAt s userId now in
  Ref.uniqueCommits (db (world (snd first)))
  /\ (forall (nowAt' : nat -> Z) (now' : Z),
        Ref.uniqueCommits
          (db (world (snd (GitHubSyncService.syncCommits down token listEvents
                             nowAt' (snd first) userId now')))))
  /\ (fst first = true <->
      exists commits,
        fst (GitHubService.getCommits token listEvents (github s)
               (JsDate.subDays now 30)) = Returned commits)
  /\ (forall (cache : gmap string (Entry CommitAny)) (w : World)
             (record : CommitRecordInsert),
        down (requests (db w)) = false ->
        (cri_user_id record, cri_commit_hash record)
          ∈ map Ref.commitKey (commit_records (db w)) ->
        CommitService.addCommitRecord down cache w record
        = (None, cache,
           mkWorld (mkDb (sleep_records (db w)) (commit_records (db w))
                         (activity_insights (db w)) (S (requests (db w))))
                   (console w ++ ["Error adding commit record:"%string]))).
Proof.
  intros H first. split; [|split; [|split]].
  - apply syncCommits_unique. exact H.
  - intros nowAt' now'. apply syncCommits_unique. apply syncCommits_unique. exact H.
  - apply syncCommits_result.
  - intros cache w record Hup Hin.
    apply commit_key_taken_elem in Hin.
    unfold CommitService.addCommitRecord, Supabase.insert_commit.
    rewrite Hup, Hin.
    destruct (Supabase.commit_pk_taken _ _); reflexivity.
Qed.

(** ** Commit stats *)

Lemma local_day_window (tza date t : Z) :
  JsDate.setHours tza date 0 0 0 0 <= t <= JsDate.setHours tza date 23 59 59 999
  <-> Ref.localDay tza t = Ref.localDay tza date.
Proof.
  unfold JsDate.setHours, Ref.localDay, JsDate.Day, JsDate.UTC, JsDate.LocalTime,
    JsDate.msPerDay, JsDate.msPerHour, JsDate.msPerMinute, JsDate.msPerSecond.
  pose proof (Z.div_mod (t + tza) 86400000 ltac:(lia)) as Hdm.
  pose proof (Z.mod_pos_bound (t + tza) 86400000 ltac:(lia)) as Hb.
  generalize dependent ((t + tza) `mod` 86400000).
  generalize ((t + tza) `div` 86400000).
  generalize ((date + tza) `div` 86400000).
  intros D q r Hdm Hb. lia.
Qed.

Lemma commit_window_is_day (tza : Z) (d : Db) (userId : string) (date : Z) :
  filter (Supabase.commit_in_window userId (JsDate.setHours tza date 0 0 0 0)
            (JsDate.setHours tza date 23 59 59 999))
         (commit_records d)
  = Ref.commitsOnDay tza d userId date.
Proof.
  unfold Ref.commitsOnDay. apply list_filter_iff. intros r.
  unfold Supabase.commit_in_window. rewrite local_day_window. reflexivity.
Qed.

Lemma size_hours_set (l : list Z) :
  size (list_to_set l : gset Z) = length (remove_dups l).
Proof.
  rewrite <- (size_list_to_set (C := gset Z) (remove_dups l))
    by apply NoDup_remove_dups.
  f_equal. apply set_eq. intros x.
  rewrite !elem_of_list_to_set, elem_of_remove_dups. reflexivity.
Qed.

Lemma getCommitStats_miss (down : nat -> bool) (tza : Z)
    (cache : gmap string (Entry CommitAny)) (w : World) (userId : string)
    (date now0 now1 : Z) :
  fresh cache (CommitService.statsKey userId date) now0 = None ->
  down (requests (db w)) = false ->
  let stats := mkStats (length (Ref.commitsOnDay tza (db w) userId date))
                 (length (Ref.distinctHours tza
                            (Ref.commitsOnDay tza (db w) userId date))) in
  CommitService.getCommitStats down tza cache w userId date now0 now1
  = (AnyStats stats,
     <[CommitService.statsKey userId date := mkEntry (AnyStats stats) now1]> cache,
     mkWorld (Supabase.bump (db w)) (console w)).
Proof.
  intros Hmiss Hup. cbn zeta.
  unfold CommitService.getCommitStats, Supabase.select_commit_timestamps.
  rewrite Hmiss, Hup, commit_window_is_day.
  rewrite size_hours_set, length_map.
  unfold Ref.distinctHours. rewrite map_map. reflexivity.
Qed.

(** C3 as stated does not hold for every call: a service whose cache
    holds the stats of a day returns them for five minutes, also when another writer has added a commit of that day to the
    table in the meantime: the count returned is then not the number of rows
    of the day. *)
Lemma getCommitStats_returns_cached_stats :
  ~ (forall (down : nat -> bool) (tza : Z) (cache : gmap string (Entry CommitAny))
            (w : World) (userId : string) (date now0 now1 : Z),
        fst (fst (CommitService.getCommitStats down tza cache w userId date now0 now1))
        = AnyStats
            (mkStats (length (Ref.commitsOnDay tza (db w) userId date))
                     (length (Ref.distinctHours tza
                                (Ref.commitsOnDay tza (db w) userId date))))).
Proof.
  intros H.
  specialize (H Sample.never_down Sample.utc_plus_1
                (snd (fst (CommitService.getCommitStats Sample.never_down
                             Sample.utc_plus_1 ∅ (mkWorld Sample.commit_db [])
                             "u" Sample.noon_jan_1 0 10)))
                (snd (CommitService.addCommitRecord Sample.never_down ∅
                        (mkWorld (Supabase.bump Sample.commit_db) [])
                        Sample.late_commit))
                "u"%string Sample.noon_jan_1 20000 20010).
  vm_compute in H. discriminate H.
Qed.

(** C3 (amended). When [getCommitStats] derives the stats (no fresh cache
    entry under its key, and the table answers), count is the number of commit rows of the user whose
    timestamp falls on the local calendar day of the date, and hours is the
    number of distinct hours of day among those timestamps; three commits at
    09:10, 09:40 and 10:05 of one day give count 3 and hours 2. *)
Theorem getCommitStats_counts_day_and_hours :
  (forall (down : nat -> bool) (tza : Z) (cache : gmap string (Entry CommitAny))
          (w : World) (userId : string) (date now0 now1 : Z),
      fresh cache (CommitService.statsKey userId date) now0 = None ->
      down (requests (db w)) = false ->
      fst (fst (CommitService.getCommitStats down tza cache w userId date now0 now1))
      = AnyStats
          (mkStats (length (Ref.commitsOnDay tza (db w) userId date))
                   (length (Ref.distinctHours tza
                              (Ref.commitsOnDay tza (db w) userId date)))))
  /\ map (fun r => (JsDate.getHours Sample.utc_plus_1 (cr_commit_timestamp r),
                    ((cr_commit_timestamp r + Sample.utc_plus_1) `div` 60000) `mod` 60))
         (Ref.commitsOnDay Sample.utc_plus_1 Sample.commit_db "u" Sample.noon_jan_1)
     = [(9, 10); (9, 40); (10, 5)]
  /\ (forall now0 now1 : Z,
        fst (fst (CommitService.getCommitStats Sample.never_down Sample.utc_plus_1
                    ∅ (mkWorld Sample.commit_db []) "u" Sample.noon_jan_1 now0 now1))
        = AnyStats (mkStats 3 2)).
Proof.
  split; [|split].
  - intros down tza cache w userId date now0 now1 Hmiss Hup.
    rewrite getCommitStats_miss by assumption. reflexivity.
  - vm_compute. reflexivity.
  - intros now0 now1. rewrite getCommitStats_miss by reflexivity.
    vm_compute. reflexivity.
Qed.

Lemma getCommitStats_counts_day_and_hours_witness :
  fst (fst (CommitService.getCommitStats Sample.never_down 0
              ∅ (mkWorld Sample.commit_db []) "u" Sample.early_jan_2 0 1))
  = AnyStats
      (mkStats (length (Ref.commitsOnDay 0 Sample.commit_db "u" Sample.early_jan_2))
               (length (Ref.distinctHours 0
                          (Ref.commitsOnDay 0 Sample.commit_db "u"
                             Sample.early_jan_2)))).
Proof.
  apply (proj1 getCommitStats_counts_day_and_hours Sample.never_down 0 ∅
           (mkWorld Sample.commit_db []) "u"%string Sample.early_jan_2 0 1);
    reflexivity.
Defined.

(** ** The stats cache key *)

Lemma digit_not_T (n : Z) : Ascii.eqb (JsDate.digit n) "T" = false.
Proof.
  unfold JsDate.digit.
  pose proof (Z.mod_pos_bound n 10 ltac:(lia)) as Hb.
  assert (Hk : (Z.to_nat (n `mod` 10) < 10)%nat) by lia.
  generalize dependent (Z.to_nat (n `mod` 10)). intros k Hk.
  do 10 (destruct k as [|k]; [reflexivity|]). lia.
Qed.

Lemma splitT0_digit (n : Z) (s : string) :
  JsDate.splitT0 (String (JsDate.digit n) s) = String (JsDate.digit n) (JsDate.splitT0 s).
Proof. cbn [JsDate.splitT0]. rewrite digit_not_T. reflexivity. Qed.

Lemma append_cons (c : ascii) (a b : string) :
  String c a +:+ b = String c (a +:+ b).
Proof. reflexivity. Qed.

Lemma append_nil (b : string) : "" +:+ b = b.
Proof. reflexivity. Qed.

Lemma append_assoc (a b c : string) : (a +:+ b) +:+ c = a +:+ (b +:+ c).
Proof.
  induction a as [|x a IH]; [reflexivity|].
  rewrite !append_cons, IH. reflexivity.
Qed.

Lemma splitT0_pad2 (n : Z) (s : string) :
  JsDate.splitT0 (JsDate.pad2 n +:+ s) = JsDate.pad2 n +:+ JsDate.splitT0 s.
Proof.
  unfold JsDate.pad2. rewrite !append_cons, !append_nil, !splitT0_digit.
  reflexivity.
Qed.

Lemma splitT0_pad4 (n : Z) (s : string) :
  JsDate.splitT0 (JsDate.pad4 n +:+ s) = JsDate.pad4 n +:+ JsDate.splitT0 s.
Proof.
  unfold JsDate.pad4, JsDate.pad3, JsDate.pad2.
  rewrite !append_cons, !append_nil, !splitT0_digit. reflexivity.
Qed.

Lemma splitT0_pad6 (n : Z) (s : string) :
  JsDate.splitT0 (JsDate.pad6 n +:+ s) = JsDate.pad6 n +:+ JsDate.splitT0 s.
Proof.
  unfold JsDate.pad6. rewrite !append_cons, !splitT0_digit, splitT0_pad4.
  reflexivity.
Qed.

Lemma splitT0_other (c : ascii) (s : string) :
  Ascii.eqb c "T" = false ->
  JsDate.splitT0 (String c s) = String c (JsDate.splitT0 s).
Proof. intros H. cbn [JsDate.splitT0]. rewrite H. reflexivity. Qed.

Lemma splitT0_isoYear (y : Z) (s : string) :
  JsDate.splitT0 (JsDate.isoYear y +:+ s) = JsDate.isoYear y +:+ JsDate.splitT0 s.
Proof.
  unfold JsDate.isoYear.
  destruct ((0 <=? y) && (y <=? 9999)); [apply splitT0_pad4|].
  destruct (y <? 0); rewrite !append_cons, splitT0_other, splitT0_pad6
    by reflexivity; reflexivity.
Qed.

(** [toISOString(t).split('T')[0]] is the date part, which only depends
    on the UTC day of [t]. *)
Lemma iso_date_part (t : Z) :
  JsDate.splitT0 (JsDate.toISOString t) = JsDate.isoDate (JsDate.Day t).
Proof.
  unfold JsDate.toISOString, JsDate.isoDate.
  destruct (JsDate.civil_from_days (JsDate.Day t)) as [[y m] d].
  rewrite !append_assoc, splitT0_isoYear.
  rewrite !append_cons, !append_nil.
  rewrite (splitT0_other "-") by reflexivity. rewrite splitT0_pad2.
  rewrite (splitT0_other "-") by reflexivity. rewrite splitT0_pad2.
  cbn [JsDate.splitT0 Ascii.eqb Bool.eqb].
  unfold JsDate.pad2. rewrite !append_cons, !append_nil. reflexivity.
Qed.

Lemma statsKey_utc_day (userId : string) (d1 d2 : Z) :
  JsDate.Day d1 = JsDate.Day d2 ->
  CommitService.statsKey userId d1 = CommitService.statsKey userId d2.
Proof.
  intros H. unfold CommitService.statsKey. rewrite !iso_date_part, H. reflexivity.
Qed.

(** ** Cache entries *)

Lemma fresh_lookup {D} (cache : gmap string (Entry D)) (key : string) (now : Z)
    (e : Entry D) :
  fresh cache key now = Some e
  <-> cache !! key = Some e /\ now - timestamp e < CACHE_DURATION.
Proof.
  unfold fresh. destruct (cache !! key) as [c|]; [|split; [discriminate | intros [[=] _]]].
  destruct (Z.ltb_spec (now - timestamp c) CACHE_DURATION) as [H|H].
  - split; [intros [= <-]; auto | intros [[= <-] _]; reflexivity].
  - split; [discriminate | intros [[= <-] H']; lia].
Qed.

Lemma fresh_insert {D} (cache : gmap string (Entry D)) (key : string)
    (d : D) (stored now : Z) :
  now - stored < CACHE_DURATION ->
  fresh (<[key := mkEntry d stored]> cache) key now = Some (mkEntry d stored).
Proof.
  intros H. apply fresh_lookup. split; [apply lookup_insert_eq | exact H].
Qed.

Lemma fresh_empty {D} (key : string) (now : Z) :
  fresh (∅ : gmap string (Entry D)) key now = None.
Proof. unfold fresh. rewrite lookup_empty. reflexivity. Qed.

Lemma getCommitStats_hit (down : nat -> bool) (tza : Z)
    (cache : gmap string (Entry CommitAny)) (w : World) (userId : string)
    (date now0 now1 : Z) (e : Entry CommitAny) :
  fresh cache (CommitService.statsKey userId date) now0 = Some e ->
  CommitService.getCommitStats down tza cache w userId date now0 now1
  = (data e, cache, w).
Proof. intros H. unfold CommitService.getCommitStats. rewrite H. reflexivity. Qed.

(** C10. The cache key of [getCommitStats] is "stats-", the user, "-" and
    the date part of [toISOString]: it only depends on the user and on the
    UTC calendar day of the date.  So when a call for [d1] was answered
    (from a fresh entry, or by the table: the stats of the local day of
    [d1], stored under the key at [now1]), the cache holds an entry under
    the key of every [d2] on the same UTC day, and a call for [d2] made
    while that entry is less than five minutes old returns the data of that
    entry, which is the result of the first call, and touches neither the
    cache nor the world, whatever the time of day of [d2] and whatever
    local day window it would have queried. *)
Theorem stats_cache_key_is_utc_day (down : nat -> bool) (tza : Z)
    (cache : gmap string (Entry CommitAny)) (w w2 : World) (userId : string)
    (d1 d2 now0 now1 now2 now3 : Z) :
  JsDate.Day d1 = JsDate.Day d2 ->
  match fresh cache (CommitService.statsKey userId d1) now0 with
  | Some e => now2 - timestamp e < CACHE_DURATION
  | None => down (requests (db w)) = false /\ now2 - now1 < CACHE_DURATION
  end ->
  let first := CommitService.getCommitStats down tza cache w userId d1 now0 now1 in
  let second := CommitService.getCommitStats down tza (snd (fst first)) w2 userId d2
                  now2 now3 in
  CommitService.statsKey userId d1
  = "stats-" +:+ userId +:+ "-" +:+ JsDate.isoDate (JsDate.Day d1)
  /\ CommitService.statsKey userId d2 = CommitService.statsKey userId d1
  /\ exists e,
       snd (fst first) !! CommitService.statsKey userId d2 = Some e
       /\ now2 - timestamp e < CACHE_DURATION
       /\ match fresh cache (CommitService.statsKey userId d1) now0 with
          | Some e0 => e = e0 /\ first = (data e0, cache, w)
          | None =>
              let stats :=
                mkStats (length (Ref.commitsOnDay tza (db w) userId d1))
                        (length (Ref.distinctHours tza
                                   (Ref.commitsOnDay tza (db w) userId d1))) in
              e = mkEntry (AnyStats stats) now1
              /\ first = (AnyStats stats,
                          <[CommitService.statsKey userId d1 := e]> cache,
                          mkWorld (Supabase.bump (db w)) (console w))
          end
       /\ second = (data e, snd (fst first), w2).
Proof.
  intros Hday Hwin first second.
  pose proof (statsKey_utc_day userId d1 d2 Hday) as Hkey.
  split; [unfold CommitService.statsKey; rewrite iso_date_part; reflexivity|].
  split; [symmetry; exact Hkey|].
  subst second first.
  destruct (fresh cache (CommitService.statsKey userId d1) now0) as [e0|] eqn:Hf.
  - rewrite (getCommitStats_hit _ _ _ _ _ _ _ _ e0 Hf). cbn [fst snd].
    pose proof (proj1 (fresh_lookup _ _ _ _) Hf) as [Hl Hw0].
    exists e0. split; [rewrite <- Hkey; exact Hl|]. split; [exact Hwin|].
    split; [split; reflexivity|].
    apply getCommitStats_hit. rewrite <- Hkey.
    apply fresh_lookup. split; assumption.
  - destruct Hwin as [Hup Hwin].
    rewrite (getCommitStats_miss down tza cache w userId d1 now0 now1 Hf Hup).
    cbn [fst snd].
    eexists. split; [rewrite <- Hkey; apply lookup_insert_eq|].
    cbn [timestamp]. split; [exact Hwin|]. split; [split; reflexivity|].
    apply getCommitStats_hit. rewrite <- Hkey. apply fresh_insert. exact Hwin.
Qed.

Lemma stats_cache_key_is_utc_day_witness :
  CommitService.getCommitStats Sample.never_down Sample.utc_plus_1
    (snd (fst (CommitService.getCommitStats Sample.never_down Sample.utc_plus_1
                 ∅ (mkWorld Sample.commit_db []) "u" Sample.late_jan_1 0 10)))
    (mkWorld Sample.empty_db []) "u" Sample.early_jan_2 200000 200010
  = (AnyStats (mkStats 3 2),
     <[CommitService.statsKey "u" Sample.late_jan_1
         := mkEntry (AnyStats (mkStats 3 2)) 10]> ∅,
     mkWorld Sample.empty_db []).
Proof.
  pose proof (stats_cache_key_is_utc_day Sample.never_down Sample.utc_plus_1 ∅
                (mkWorld Sample.commit_db []) (mkWorld Sample.empty_db []) "u"%string
                Sample.late_jan_1 Sample.early_jan_2 0 10 200000 200010 eq_refl)
    as H.
  cbv zeta in H. rewrite fresh_empty in H.
  destruct (H (conj eq_refl eq_refl)) as (_ & _ & e & _ & _ & [He Hfirst] & Hsecond).
  rewrite Hsecond, Hfirst, He. reflexivity.
Defined.

(** The two dates of the sample are on one UTC day and on two local days:
    the second call gets the stats of the first local day, 3 commits in 2
    hours, where its own day has 1 commit. *)
Example stats_cache_serves_other_local_day :
  Ref.localDay Sample.utc_plus_1 Sample.late_jan_1
  <> Ref.localDay Sample.utc_plus_1 Sample.early_jan_2
  /\ fst (fst (CommitService.getCommitStats Sample.never_down Sample.utc_plus_1
       (snd (fst (CommitService.getCommitStats Sample.never_down Sample.utc_plus_1
                    ∅ (mkWorld Sample.commit_db []) "u" Sample.late_jan_1 0 10)))
       (mkWorld Sample.commit_db []) "u" Sample.early_jan_2 200000 200010))
     = AnyStats (mkStats 3 2)
  /\ fst (fst (CommitService.getCommitStats Sample.never_down Sample.utc_plus_1
                 ∅ (mkWorld Sample.commit_db []) "u" Sample.early_jan_2 200000 200010))
     = AnyStats (mkStats 1 1).
Proof.
  split; [vm_compute; discriminate|].
  split; vm_compute; reflexivity.
Qed.

(** ** Read failures *)

(** C7. A read that has no fresh cache entry asks the table; when the
    table reports a failure, the read does not raise: it prints one line on
    the error console, leaves the cache as it was and returns the empty
    result, [[]] for the range reads, null for the single-row read and zero
    stats for the commit stats.  That is also what the read returns when the
    table answers with no rows, so the caller cannot tell the two apart. *)
Theorem read_failure_degrades_to_empty (down : nat -> bool) (tza : Z) :
  (forall cache w userId startDate endDate now0 now1,
      fresh cache (Ref.rangeKey userId startDate endDate) now0 = None ->
      let answer := Supabase.select_sleep_range down (db w) userId
                      (JsDate.Day startDate) (JsDate.Day endDate) in
      (forall msg, fst answer = PgError msg ->
         SleepService.getSleepRecords down cache w userId startDate endDate now0 now1
         = ([], cache,
            mkWorld (snd answer) (console w ++ ["Error fetching sleep records:"%string])))
      /\ (fst answer = PgData [] ->
          fst (fst (SleepService.getSleepRecords down cache w userId
                      startDate endDate now0 now1)) = []))
  /\ (forall cache w userId startDate endDate now0 now1,
      fresh cache (Ref.recordsKey userId startDate endDate) now0 = None ->
      let answer := Supabase.select_commit_range down (db w) userId
                      startDate endDate in
      (forall msg, fst answer = PgError msg ->
         CommitService.getCommitRecords down cache w userId startDate endDate now0 now1
         = (AnyRecords [], cache,
            mkWorld (snd answer) (console w ++ ["Error fetching commit records:"%string])))
      /\ (fst answer = PgData [] ->
          fst (fst (CommitService.getCommitRecords down cache w userId
                      startDate endDate now0 now1)) = AnyRecords []))
  /\ (forall cache w userId date now0 now1,
      fresh cache (CommitService.statsKey userId date) now0 = None ->
      let answer := Supabase.select_commit_timestamps down (db w) userId
                      (JsDate.setHours tza date 0 0 0 0)
                      (JsDate.setHours tza date 23 59 59 999) in
      (forall msg, fst answer = PgError msg ->
         CommitService.getCommitStats down tza cache w userId date now0 now1
         = (AnyStats (mkStats 0 0), cache,
            mkWorld (snd answer) (console w ++ ["Error fetching commit stats:"%string])))
      /\ (fst answer = PgData [] ->
          fst (fst (CommitService.getCommitStats down tza cache w userId
                      date now0 now1)) = AnyStats (mkStats 0 0)))
  /\ (forall cache w userId startDate endDate now0 now1,
      fresh cache (Ref.rangeKey userId startDate endDate) now0 = None ->
      let answer := Supabase.select_insight_range down (db w) userId
                      (JsDate.Day startDate) (JsDate.Day endDate) in
      (forall msg, fst answer = PgError msg ->
         InsightService.getInsights down cache w userId startDate endDate now0 now1
         = ([], cache,
            mkWorld (snd answer) (console w ++ ["Error fetching insights:"%string])))
      /\ (fst answer = PgData [] ->
          fst (fst (InsightService.getInsights down cache w userId
                      startDate endDate now0 now1)) = []))
  /\ (forall cache w userId now0 now1,
      fresh cache (Ref.latestKey userId) now0 = None ->
      let answer := Supabase.select_latest_insight down (db w) userId in
      (forall msg, fst answer = PgError msg ->
         InsightService.getLatestInsight down cache w userId now0 now1
         = (None, cache,
            mkWorld (snd answer) (console w ++ ["Error fetching latest insight:"%string])))
      /\ (down (requests (db w)) = false ->
          filter (fun r => ai_user_id r = userId) (activity_insights (db w)) = [] ->
          fst (fst (InsightService.getLatestInsight down cache w userId now0 now1))
          = None)).
Proof.
  split; [|split; [|split; [|split]]].
  - intros cache w userId startDate endDate now0 now1 Hmiss answer. subst answer.
    unfold SleepService.getSleepRecords.
    fold (Ref.rangeKey userId startDate endDate). rewrite Hmiss.
    destruct (Supabase.select_sleep_range _ _ _ _ _) as [[rows|m] d]; cbn [fst snd].
    + split; [discriminate | intros [= ->]; reflexivity].
    + split; [reflexivity | discriminate].
  - intros cache w userId startDate endDate now0 now1 Hmiss answer. subst answer.
    unfold CommitService.getCommitRecords.
    fold (Ref.rangeKey userId startDate endDate).
    fold (Ref.recordsKey userId startDate endDate). rewrite Hmiss.
    destruct (Supabase.select_commit_range _ _ _ _ _) as [[rows|m] d]; cbn [fst snd].
    + split; [discriminate | intros [= ->]; reflexivity].
    + split; [reflexivity | discriminate].
  - intros cache w userId date now0 now1 Hmiss answer. subst answer.
    unfold CommitService.getCommitStats. rewrite Hmiss.
    destruct (Supabase.select_commit_timestamps _ _ _ _ _) as [[rows|m] d];
      cbn [fst snd].
    + split; [discriminate | intros [= ->]; reflexivity].
    + split; [reflexivity | discriminate].
  - intros cache w userId startDate endDate now0 now1 Hmiss answer. subst answer.
    unfold InsightService.getInsights.
    fold (Ref.rangeKey userId startDate endDate). rewrite Hmiss.
    destruct (Supabase.select_insight_range _ _ _ _ _) as [[rows|m] d]; cbn [fst snd].
    + split; [discriminate | intros [= ->]; reflexivity].
    + split; [reflexivity | discriminate].
  - intros cache w userId now0 now1 Hmiss answer. subst answer.
    unfold InsightService.getLatestInsight.
    fold (Ref.latestKey userId). rewrite Hmiss. split.
    + intros msg Ha.
      destruct (Supabase.select_latest_insight _ _ _) as [[rows|m] d];
        cbn in Ha; [discriminate | reflexivity].
    + intros Hup Hnone. unfold Supabase.select_latest_insight.
      rewrite Hup, Hnone. reflexivity.
Qed.

Lemma read_failure_degrades_to_empty_witness :
  SleepService.getSleepRecords Sample.always_down ∅ (mkWorld Sample.commit_db [])
    "u" 0 Sample.noon_jan_1 5 6
  = ([], ∅,
     mkWorld (mkDb [] Sample.commit_rows [] 11) ["Error fetching sleep records:"%string])
  /\ CommitService.getCommitStats Sample.always_down Sample.utc_plus_1 ∅
       (mkWorld Sample.commit_db []) "u" Sample.noon_jan_1 5 6
     = (AnyStats (mkStats 0 0), ∅,
        mkWorld (mkDb [] Sample.commit_rows [] 11) ["Error fetching commit stats:"%string]).
Proof.
  pose proof (read_failure_degrades_to_empty Sample.always_down Sample.utc_plus_1)
    as (Hsleep & _ & Hstats & _).
  split.
  - apply (proj1 (Hsleep ∅ (mkWorld Sample.commit_db []) "u"%string 0
                    Sample.noon_jan_1 5 6 (fresh_empty _ _)) "request failed"%string).
    reflexivity.
  - apply (proj1 (Hstats ∅ (mkWorld Sample.commit_db []) "u"%string
                    Sample.noon_jan_1 5 6 (fresh_empty _ _)) "request failed"%string).
    reflexivity.
Defined.

(** ** Reads served from the cache *)

Lemma getSleepRecords_hit (down : nat -> bool)
    (cache : gmap string (Entry (list SleepRecord))) (w : World) (userId : string)
    (startDate endDate now0 now1 : Z) (e : Entry (list SleepRecord)) :
  fresh cache (Ref.rangeKey userId startDate endDate) now0 = Some e ->
  SleepService.getSleepRecords down cache w userId startDate endDate now0 now1
  = (data e, cache, w).
Proof.
  intros H. unfold SleepService.getSleepRecords.
  fold (Ref.rangeKey userId startDate endDate). rewrite H. reflexivity.
Qed.

Lemma getSleepRecords_miss (down : nat -> bool)
    (cache : gmap string (Entry (list SleepRecord))) (w : World) (userId : string)
    (startDate endDate now0 now1 : Z) :
  fresh cache (Ref.rangeKey userId startDate endDate) now0 = None ->
  down (requests (db w)) = false ->
  exists rows,
    Supabase.select_sleep_range down (db w) userId
      (JsDate.Day startDate) (JsDate.Day endDate)
    = (PgData rows, Supabase.bump (db w))
    /\ SleepService.getSleepRecords down cache w userId startDate endDate now0 now1
       = (rows,
          <[Ref.rangeKey userId startDate endDate := mkEntry rows now1]> cache,
          mkWorld (Supabase.bump (db w)) (console w)).
Proof.
  intros H Hup. unfold SleepService.getSleepRecords.
  fold (Ref.rangeKey userId startDate endDate). rewrite H.
  unfold Supabase.select_sleep_range. rewrite Hup.
  eexists. split; reflexivity.
Qed.

Lemma getCommitRecords_hit (down : nat -> bool)
    (cache : gmap string (Entry CommitAny)) (w : World) (userId : string)
    (startDate endDate now0 now1 : Z) (e : Entry CommitAny) :
  fresh cache (Ref.recordsKey userId startDate endDate) now0 = Some e ->
  CommitService.getCommitRecords down cache w userId startDate endDate now0 now1
  = (data e, cache, w).
Proof.
  intros H. unfold CommitService.getCommitRecords.
  fold (Ref.rangeKey userId startDate endDate).
  fold (Ref.recordsKey userId startDate endDate). rewrite H. reflexivity.
Qed.

Lemma getCommitRecords_miss (down : nat -> bool)
    (cache : gmap string (Entry CommitAny)) (w : World) (userId : string)
    (startDate endDate now0 now1 : Z) :
  fresh cache (Ref.recordsKey userId startDate endDate) now0 = None ->
  down (requests (db w)) = false ->
  exists rows,
    Supabase.select_commit_range down (db w) userId startDate endDate
    = (PgData rows, Supabase.bump (db w))
    /\ CommitService.getCommitRecords down cache w userId startDate endDate now0 now1
       = (AnyRecords rows,
          <[Ref.recordsKey userId startDate endDate
              := mkEntry (AnyRecords rows) now1]> cache,
          mkWorld (Supabase.bump (db w)) (console w)).
Proof.
  intros H Hup. unfold CommitService.getCommitRecords.
  fold (Ref.rangeKey userId startDate endDate).
  fold (Ref.recordsKey userId startDate endDate). rewrite H.
  unfold Supabase.select_commit_range. rewrite Hup.
  eexists. split; reflexivity.
Qed.

Lemma getInsights_hit (down : nat -> bool)
    (cache : gmap string (Entry (list ActivityInsight))) (w : World) (userId : string)
    (startDate endDate now0 now1 : Z) (e : Entry (list ActivityInsight)) :
  fresh cache (Ref.rangeKey userId startDate endDate) now0 = Some e ->
  InsightService.getInsights down cache w userId startDate endDate now0 now1
  = (data e, cache, w).
Proof.
  intros H. unfold InsightService.getInsights.
  fold (Ref.rangeKey userId startDate endDate). rewrite H. reflexivity.
Qed.

Lemma getInsights_miss (down : nat -> bool)
    (cache : gmap string (Entry (list ActivityInsight))) (w : World) (userId : string)
    (startDate endDate now0 now1 : Z) :
  fresh cache (Ref.rangeKey userId startDate endDate) now0 = None ->
  down (requests (db w)) = false ->
  exists rows,
    Supabase.select_insight_range down (db w) userId
      (JsDate.Day startDate) (JsDate.Day endDate)
    = (PgData rows, Supabase.bump (db w))
    /\ InsightService.getInsights down cache w userId startDate endDate now0 now1
       = (rows,
          <[Ref.rangeKey userId startDate endDate := mkEntry rows now1]> cache,
          mkWorld (Supabase.bump (db w)) (console w)).
Proof.
  intros H Hup. unfold InsightService.getInsights.
  fold (Ref.rangeKey userId startDate endDate). rewrite H.
  unfold Supabase.select_insight_range. rewrite Hup.
  eexists. split; reflexivity.
Qed.

Lemma getLatestInsight_hit (down : nat -> bool)
    (cache : gmap string (Entry (list ActivityInsight))) (w : World) (userId : string)
    (now0 now1 : Z) (e : Entry (list ActivityInsight)) :
  fresh cache (Ref.latestKey userId) now0 = Some e ->
  InsightService.getLatestInsight down cache w userId now0 now1
  = (head (data e), cache, w).
Proof.
  intros H. unfold InsightService.getLatestInsight.
  fold (Ref.latestKey userId). rewrite H. reflexivity.
Qed.

(** ** Writes and the cache *)

Lemma addSleepRecord_outcome (down : nat -> bool)
    (cache : gmap string (Entry (list SleepRecord))) (w : World)
    (record : SleepRecordInsert) :
  SleepService.addSleepRecord down cache w record
  = match Supabase.insert_sleep down (db w) record with
    | (PgError _, d) =>
        (None, cache, mkWorld d (console w ++ ["Error adding sleep record:"%string]))
    | (PgData row, d) => (Some row, ∅, mkWorld d (console w))
    end.
Proof. reflexivity. Qed.

Lemma addCommitRecord_outcome (down : nat -> bool)
    (cache : gmap string (Entry CommitAny)) (w : World)
    (record : CommitRecordInsert) :
  CommitService.addCommitRecord down cache w record
  = match Supabase.insert_commit down (db w) record with
    | (PgError _, d) =>
        (None, cache, mkWorld d (console w ++ ["Error adding commit record:"%string]))
    | (PgData row, d) => (Some row, ∅, mkWorld d (console w))
    end.
Proof. reflexivity. Qed.

Lemma upsertInsight_outcome (down : nat -> bool)
    (cache : gmap string (Entry (list ActivityInsight))) (w : World)
    (insight : ActivityInsightInsert) :
  InsightService.upsertInsight down cache w insight
  = match Supabase.upsert_insight down (db w) insight with
    | (PgError _, d) =>
        (None, cache, mkWorld d (console w ++ ["Error upserting insight:"%string]))
    | (PgData row, d) => (Some row, ∅, mkWorld d (console w))
    end.
Proof. reflexivity. Qed.

(** C9. [addSleepRecord], [addCommitRecord] and [upsertInsight] clear the
    cache of their store exactly when the table accepts the write.  When the
    table refuses it, they return null and the cache is the one they were
    given, entries and timestamps included, so a read whose entry was fresh
    before the failed write is still answered from that entry, without a
    request to the table. *)
Theorem failed_write_keeps_cache (down : nat -> bool) (tza : Z) :
  (forall cache w record,
      let after := SleepService.addSleepRecord down cache w record in
      match fst (Supabase.insert_sleep down (db w) record) with
      | PgError _ =>
          fst (fst after) = None /\ snd (fst after) = cache
          /\ forall userId startDate endDate now0 now1 e,
               fresh cache (Ref.rangeKey userId startDate endDate) now0 = Some e ->
               SleepService.getSleepRecords down (snd (fst after)) (snd after)
                 userId startDate endDate now0 now1
               = (data e, cache, snd after)
      | PgData row => fst (fst after) = Some row /\ snd (fst after) = ∅
      end)
  /\ (forall cache w record,
      let after := CommitService.addCommitRecord down cache w record in
      match fst (Supabase.insert_commit down (db w) record) with
      | PgError _ =>
          fst (fst after) = None /\ snd (fst after) = cache
          /\ (forall userId startDate endDate now0 now1 e,
               fresh cache (Ref.recordsKey userId startDate endDate) now0 = Some e ->
               CommitService.getCommitRecords down (snd (fst after)) (snd after)
                 userId startDate endDate now0 now1
               = (data e, cache, snd after))
          /\ (forall userId date now0 now1 e,
               fresh cache (CommitService.statsKey userId date) now0 = Some e ->
               CommitService.getCommitStats down tza (snd (fst after)) (snd after)
                 userId date now0 now1
               = (data e, cache, snd after))
      | PgData row => fst (fst after) = Some row /\ snd (fst after) = ∅
      end)
  /\ (forall cache w insight,
      let after := InsightService.upsertInsight down cache w insight in
      match fst (Supabase.upsert_insight down (db w) insight) with
      | PgError _ =>
          fst (fst after) = None /\ snd (fst after) = cache
          /\ (forall userId startDate endDate now0 now1 e,
               fresh cache (Ref.rangeKey userId startDate endDate) now0 = Some e ->
               InsightService.getInsights down (snd (fst after)) (snd after)
                 userId startDate endDate now0 now1
               = (data e, cache, snd after))
          /\ (forall userId now0 now1 e,
               fresh cache (Ref.latestKey userId) now0 = Some e ->
               InsightService.getLatestInsight down (snd (fst after)) (snd after)
                 userId now0 now1
               = (head (data e), cache, snd after))
      | PgData row => fst (fst after) = Some row /\ snd (fst after) = ∅
      end).
Proof.
  split; [|split].
  - intros cache w record after. subst after. rewrite addSleepRecord_outcome.
    destruct (Supabase.insert_sleep down (db w) record) as [[row|msg] d]; cbn.
    + split; reflexivity.
    + split; [reflexivity|]. split; [reflexivity|].
      intros. apply getSleepRecords_hit. assumption.
  - intros cache w record after. subst after. rewrite addCommitRecord_outcome.
    destruct (Supabase.insert_commit down (db w) record) as [[row|msg] d]; cbn.
    + split; reflexivity.
    + split; [reflexivity|]. split; [reflexivity|]. split.
      * intros. apply getCommitRecords_hit. assumption.
      * intros. apply getCommitStats_hit. assumption.
  - intros cache w insight after. subst after. rewrite upsertInsight_outcome.
    destruct (Supabase.upsert_insight down (db w) insight) as [[row|msg] d]; cbn.
    + split; reflexivity.
    + split; [reflexivity|]. split; [reflexivity|]. split.
      * intros. apply getInsights_hit. assumption.
      * intros. apply getLatestInsight_hit. assumption.
Qed.

Example sleep_cache_from_read :
  SleepService.getSleepRecords Sample.never_down ∅ (mkWorld Sample.sleep_db [])
    "u" Sample.week_start Sample.week_end 990 1000
  = ([Sample.sleep_row], Sample.sleep_cache,
     mkWorld (mkDb [Sample.sleep_row] [] [] 21) []).
Proof. reflexivity. Qed.

Lemma failed_write_keeps_cache_witness :
  SleepService.addSleepRecord Sample.never_down Sample.sleep_cache
    (mkWorld (mkDb [Sample.sleep_row] [] [] 21) []) Sample.sleep_again
  = (None, Sample.sleep_cache,
     mkWorld (mkDb [Sample.sleep_row] [] [] 22) ["Error adding sleep record:"%string])
  /\ SleepService.getSleepRecords Sample.never_down Sample.sleep_cache
       (mkWorld (mkDb [Sample.sleep_row] [] [] 22) ["Error adding sleep record:"%string])
       "u" Sample.week_start Sample.week_end 2000 2001
     = ([Sample.sleep_row], Sample.sleep_cache,
        mkWorld (mkDb [Sample.sleep_row] [] [] 22) ["Error adding sleep record:"%string]).
Proof.
  pose proof (proj1 (failed_write_keeps_cache Sample.never_down 0)
                Sample.sleep_cache (mkWorld (mkDb [Sample.sleep_row] [] [] 21) [])
                Sample.sleep_again) as H.
  assert (Hins : Supabase.insert_sleep Sample.never_down
                   (db (mkWorld (mkDb [Sample.sleep_row] [] [] 21) []))
                   Sample.sleep_again
                 = (PgError "duplicate key value violates unique constraint",
                    mkDb [Sample.sleep_row] [] [] 22)) by reflexivity.
  rewrite addSleepRecord_outcome, Hins in H. cbn [fst snd] in H.
  destruct H as (_ & _ & Hread).
  split; [reflexivity|].
  apply (Hread "u"%string Sample.week_start Sample.week_end 2000 2001
           (mkEntry [Sample.sleep_row] 1000)).
  apply fresh_insert. reflexivity.
Defined.

(** C4 as stated does not hold for every write: a write that the table
    refuses does not clear the cache, and the read after it is still
    answered from the cache. *)
Lemma refused_write_leaves_cache :
  ~ (forall (down : nat -> bool) (cache : gmap string (Entry (list SleepRecord)))
            (w : World) (record : SleepRecordInsert) (userId : string)
            (startDate endDate now0 now1 : Z),
        let after := SleepService.addSleepRecord down cache w record in
        snd (fst after) = ∅
        /\ requests (db (snd (SleepService.getSleepRecords down (snd (fst after))
                                (snd after) userId startDate endDate now0 now1)))
           = S (requests (db (snd after)))).
Proof.
  intros H.
  specialize (H Sample.never_down Sample.sleep_cache
                (mkWorld (mkDb [Sample.sleep_row] [] [] 21) []) Sample.sleep_again
                "u"%string Sample.week_start Sample.week_end 2000 2001).
  destruct H as [_ H]. vm_compute in H. discriminate H.
Qed.

Lemma read_of_cleared_cache_asks_sleep (down : nat -> bool) (w : World)
    (userId : string) (startDate endDate now0 now1 : Z) :
  let read := SleepService.getSleepRecords down ∅ w userId startDate endDate now0 now1 in
  requests (db (snd read)) = S (requests (db w))
  /\ (down (requests (db w)) = false ->
      snd (fst read)
      = <[Ref.rangeKey userId startDate endDate := mkEntry (fst (fst read)) now1]> ∅
      /\ Supabase.select_sleep_range down (db w) userId
           (JsDate.Day startDate) (JsDate.Day endDate)
         = (PgData (fst (fst read)), db (snd read))).
Proof.
  cbn zeta. unfold SleepService.getSleepRecords.
  fold (Ref.rangeKey userId startDate endDate). rewrite fresh_empty.
  unfold Supabase.select_sleep_range.
  destruct (down (requests (db w))); cbn; split; try reflexivity; try discriminate.
  intros _. split; reflexivity.
Qed.

Lemma read_of_cleared_cache_asks_commits (down : nat -> bool) (w : World)
    (userId : string) (startDate endDate now0 now1 : Z) :
  let read := CommitService.getCommitRecords down ∅ w userId startDate endDate
                now0 now1 in
  requests (db (snd read)) = S (requests (db w))
  /\ (down (requests (db w)) = false ->
      snd (fst read)
      = <[Ref.recordsKey userId startDate endDate := mkEntry (fst (fst read)) now1]> ∅
      /\ exists rows,
           fst (fst read) = AnyRecords rows
           /\ Supabase.select_commit_range down (db w) userId startDate endDate
              = (PgData rows, db (snd read))).
Proof.
  cbn zeta. unfold CommitService.getCommitRecords.
  fold (Ref.rangeKey userId startDate endDate).
  fold (Ref.recordsKey userId startDate endDate). rewrite fresh_empty.
  unfold Supabase.select_commit_range.
  destruct (down (requests (db w))); cbn; split; try reflexivity; try discriminate.
  intros _. split; [reflexivity|]. eexists. split; reflexivity.
Qed.

Lemma read_of_cleared_cache_asks_insights (down : nat -> bool) (w : World)
    (userId : string) (startDate endDate now0 now1 : Z) :
  let read := InsightService.getInsights down ∅ w userId startDate endDate now0 now1 in
  requests (db (snd read)) = S (requests (db w))
  /\ (down (requests (db w)) = false ->
      snd (fst read)
      = <[Ref.rangeKey userId startDate endDate := mkEntry (fst (fst read)) now1]> ∅
      /\ Supabase.select_insight_range down (db w) userId
           (JsDate.Day startDate) (JsDate.Day endDate)
         = (PgData (fst (fst read)), db (snd read))).
Proof.
  cbn zeta. unfold InsightService.getInsights.
  fold (Ref.rangeKey userId startDate endDate). rewrite fresh_empty.
  unfold Supabase.select_insight_range.
  destruct (down (requests (db w))); cbn; split; try reflexivity; try discriminate.
  intros _. split; reflexivity.
Qed.

Lemma read_of_cleared_cache_asks_stats (down : nat -> bool) (tza : Z) (w : World)
    (userId : string) (date now0 now1 : Z) :
  let read := CommitService.getCommitStats down tza ∅ w userId date now0 now1 in
  requests (db (snd read)) = S (requests (db w))
  /\ (down (requests (db w)) = false ->
      snd (fst read)
      = <[CommitService.statsKey userId date := mkEntry (fst (fst read)) now1]> ∅
      /\ exists timestamps,
           fst (fst read)
           = AnyStats (mkStats (length timestamps)
                         (size (list_to_set (map (JsDate.getHours tza) timestamps)
                                : gset Z)))
           /\ Supabase.select_commit_timestamps down (db w) userId
                (JsDate.setHours tza date 0 0 0 0)
                (JsDate.setHours tza date 23 59 59 999)
              = (PgData timestamps, db (snd read))).
Proof.
  cbn zeta. unfold CommitService.getCommitStats. rewrite fresh_empty.
  unfold Supabase.select_commit_timestamps.
  destruct (down (requests (db w))); cbn; split; try reflexivity; try discriminate.
  intros _. split; [reflexivity|]. eexists. split; reflexivity.
Qed.

Lemma read_of_cleared_cache_asks_latest (down : nat -> bool) (w : World)
    (userId : string) (now0 now1 : Z) :
  let read := InsightService.getLatestInsight down ∅ w userId now0 now1 in
  requests (db (snd read)) = S (requests (db w))
  /\ (forall row d,
        Supabase.select_latest_insight down (db w) userId = (PgData row, d) ->
        fst (fst read) = Some row
        /\ snd (fst read) = <[Ref.latestKey userId := mkEntry [row] now1]> ∅
        /\ db (snd read) = d).
Proof.
  cbn zeta. unfold InsightService.getLatestInsight.
  fold (Ref.latestKey userId). rewrite fresh_empty. split.
  - unfold Supabase.select_latest_insight.
    destruct (down (requests (db w))); [reflexivity|].
    destruct (Supabase.single _); reflexivity.
  - intros row d Hrow. rewrite Hrow. repeat split; reflexivity.
Qed.

Lemma updateSleepRecord_outcome (down : nat -> bool)
    (cache : gmap string (Entry (list SleepRecord))) (w : World)
    (recordId : uuid) (updates : SleepRecord -> SleepRecord) :
  SleepService.updateSleepRecord down cache w recordId updates
  = match Supabase.update_sleep down (db w) recordId updates with
    | (PgError _, d) =>
        (None, cache, mkWorld d (console w ++ ["Error updating sleep record:"%string]))
    | (PgData row, d) => (Some row, ∅, mkWorld d (console w))
    end.
Proof. reflexivity. Qed.

Lemma deleteSleepRecord_outcome (down : nat -> bool)
    (cache : gmap string (Entry (list SleepRecord))) (w : World) (recordId : uuid) :
  SleepService.deleteSleepRecord down cache w recordId
  = match Supabase.delete_sleep down (db w) recordId with
    | (PgError _, d) =>
        (false, cache, mkWorld d (console w ++ ["Error deleting sleep record:"%string]))
    | (PgData _, d) => (true, ∅, mkWorld d (console w))
    end.
Proof. reflexivity. Qed.

Lemma updateInsight_outcome (down : nat -> bool)
    (cache : gmap string (Entry (list ActivityInsight))) (w : World)
    (insightId : uuid) (updates : ActivityInsight -> ActivityInsight) :
  InsightService.updateInsight down cache w insightId updates
  = match Supabase.update_insight down (db w) insightId updates with
    | (PgError _, d) =>
        (None, cache, mkWorld d (console w ++ ["Error updating insight:"%string]))
    | (PgData row, d) => (Some row, ∅, mkWorld d (console w))
    end.
Proof. reflexivity. Qed.

(** C4 (amended). In every record store, a read that follows, by less
    than five minutes, the read that stored the entry of its key returns the
    stored result and sends no request to the table.  Every write (insert,
    upsert, update or delete) goes by the answer of the table: when the
    table accepts it, the method returns the row (true for a delete) and
    leaves the store's cache empty, all keys at once; when the table refuses
    it, the method returns null (false for a delete) and the cache is the
    one it was given.  A read on an empty cache sends a request to the
    table and, when the table answers, stores that answer as the only entry
    of the cache.  The window is 300000 milliseconds. *)
Theorem cache_window_and_clear_on_accepted_write (down : nat -> bool) :
  (forall cache w w2 userId startDate endDate now0 now1 now2 now3,
      fresh cache (Ref.rangeKey userId startDate endDate) now0 = None ->
      down (requests (db w)) = false ->
      now2 - now1 < CACHE_DURATION ->
      let first := SleepService.getSleepRecords down cache w userId
                     startDate endDate now0 now1 in
      SleepService.getSleepRecords down (snd (fst first)) w2 userId
        startDate endDate now2 now3
      = (fst (fst first), snd (fst first), w2))
  /\ (forall cache w w2 userId startDate endDate now0 now1 now2 now3,
      fresh cache (Ref.recordsKey userId startDate endDate) now0 = None ->
      down (requests (db w)) = false ->
      now2 - now1 < CACHE_DURATION ->
      let first := CommitService.getCommitRecords down cache w userId
                     startDate endDate now0 now1 in
      CommitService.getCommitRecords down (snd (fst first)) w2 userId
        startDate endDate now2 now3
      = (fst (fst first), snd (fst first), w2))
  /\ (forall cache w w2 userId startDate endDate now0 now1 now2 now3,
      fresh cache (Ref.rangeKey userId startDate endDate) now0 = None ->
      down (requests (db w)) = false ->
      now2 - now1 < CACHE_DURATION ->
      let first := InsightService.getInsights down cache w userId
                     startDate endDate now0 now1 in
      InsightService.getInsights down (snd (fst first)) w2 userId
        startDate endDate now2 now3
      = (fst (fst first), snd (fst first), w2))
  /\ (forall tza cache w w2 userId date now0 now1 now2 now3,
      fresh cache (CommitService.statsKey userId date) now0 = None ->
      down (requests (db w)) = false ->
      now2 - now1 < CACHE_DURATION ->
      let first := CommitService.getCommitStats down tza cache w userId date
                     now0 now1 in
      CommitService.getCommitStats down tza (snd (fst first)) w2 userId date
        now2 now3
      = (fst (fst first), snd (fst first), w2))
  /\ (forall cache w w2 userId now0 now1 now2 now3 row d,
      fresh cache (Ref.latestKey userId) now0 = None ->
      Supabase.select_latest_insight down (db w) userId = (PgData row, d) ->
      now2 - now1 < CACHE_DURATION ->
      let first := InsightService.getLatestInsight down cache w userId now0 now1 in
      fst (fst first) = Some row
      /\ InsightService.getLatestInsight down (snd (fst first)) w2 userId now2 now3
         = (Some row, snd (fst first), w2))
  /\ (forall cache w record,
      let after := SleepService.addSleepRecord down cache w record in
      match fst (Supabase.insert_sleep down (db w) record) with
      | PgData row => fst (fst after) = Some row /\ snd (fst after) = ∅
      | PgError _ => fst (fst after) = None /\ snd (fst after) = cache
      end)
  /\ (forall cache w recordId updates,
      let after := SleepService.updateSleepRecord down cache w recordId updates in
      match fst (Supabase.update_sleep down (db w) recordId updates) with
      | PgData row => fst (fst after) = Some row /\ snd (fst after) = ∅
      | PgError _ => fst (fst after) = None /\ snd (fst after) = cache
      end)
  /\ (forall cache w recordId,
      let after := SleepService.deleteSleepRecord down cache w recordId in
      match fst (Supabase.delete_sleep down (db w) recordId) with
      | PgData _ => fst (fst after) = true /\ snd (fst after) = ∅
      | PgError _ => fst (fst after) = false /\ snd (fst after) = cache
      end)
  /\ (forall cache w record,
      let after := CommitService.addCommitRecord down cache w record in
      match fst (Supabase.insert_commit down (db w) record) with
      | PgData row => fst (fst after) = Some row /\ snd (fst after) = ∅
      | PgError _ => fst (fst after) = None /\ snd (fst after) = cache
      end)
  /\ (forall cache w insight,
      let after := InsightService.upsertInsight down cache w insight in
      match fst (Supabase.upsert_insight down (db w) insight) with
      | PgData row => fst (fst after) = Some row /\ snd (fst after) = ∅
      | PgError _ => fst (fst after) = None /\ snd (fst after) = cache
      end)
  /\ (forall cache w insightId updates,
      let after := InsightService.updateInsight down cache w insightId updates in
      match fst (Supabase.update_insight down (db w) insightId updates) with
      | PgData row => fst (fst after) = Some row /\ snd (fst after) = ∅
      | PgError _ => fst (fst after) = None /\ snd (fst after) = cache
      end)
  /\ (forall w userId startDate endDate now0 now1,
      let read := SleepService.getSleepRecords down ∅ w userId startDate endDate
                    now0 now1 in
      requests (db (snd read)) = S (requests (db w))
      /\ (down (requests (db w)) = false ->
          snd (fst read)
          = <[Ref.rangeKey userId startDate endDate
                := mkEntry (fst (fst read)) now1]> ∅
          /\ Supabase.select_sleep_range down (db w) userId
               (JsDate.Day startDate) (JsDate.Day endDate)
             = (PgData (fst (fst read)), db (snd read))))
  /\ (forall w userId startDate endDate now0 now1,
      let read := CommitService.getCommitRecords down ∅ w userId startDate endDate
                    now0 now1 in
      requests (db (snd read)) = S (requests (db w))
      /\ (down (requests (db w)) = false ->
          snd (fst read)
          = <[Ref.recordsKey userId startDate endDate
                := mkEntry (fst (fst read)) now1]> ∅
          /\ exists rows,
               fst (fst read) = AnyRecords rows
               /\ Supabase.select_commit_range down (db w) userId startDate endDate
                  = (PgData rows, db (snd read))))
  /\ (forall tza w userId date now0 now1,
      let read := CommitService.getCommitStats down tza ∅ w userId date now0 now1 in
      requests (db (snd read)) = S (requests (db w))
      /\ (down (requests (db w)) = false ->
          snd (fst read)
          = <[CommitService.statsKey userId date := mkEntry (fst (fst read)) now1]> ∅
          /\ exists timestamps,
               fst (fst read)
               = AnyStats (mkStats (length timestamps)
                             (size (list_to_set (map (JsDate.getHours tza) timestamps)
                                    : gset Z)))
               /\ Supabase.select_commit_timestamps down (db w) userId
                    (JsDate.setHours tza date 0 0 0 0)
                    (JsDate.setHours tza date 23 59 59 999)
                  = (PgData timestamps, db (snd read))))
  /\ (forall w userId startDate endDate now0 now1,
      let read := InsightService.getInsights down ∅ w userId startDate endDate
                    now0 now1 in
      requests (db (snd read)) = S (requests (db w))
      /\ (down (requests (db w)) = false ->
          snd (fst read)
          = <[Ref.rangeKey userId startDate endDate
                := mkEntry (fst (fst read)) now1]> ∅
          /\ Supabase.select_insight_range down (db w) userId
               (JsDate.Day startDate) (JsDate.Day endDate)
             = (PgData (fst (fst read)), db (snd read))))
  /\ (forall w userId now0 now1,
      let read := InsightService.getLatestInsight down ∅ w userId now0 now1 in
      requests (db (snd read)) = S (requests (db w))
      /\ (forall row d,
            Supabase.select_latest_insight down (db w) userId = (PgData row, d) ->
            fst (fst read) = Some row
            /\ snd (fst read) = <[Ref.latestKey userId := mkEntry [row] now1]> ∅
            /\ db (snd read) = d))
  /\ CACHE_DURATION = 300000.
Proof.
  repeat match goal with |- _ /\ _ => split end.
  - intros cache w w2 userId startDate endDate now0 now1 now2 now3 Hmiss Hup Hwin.
    destruct (getSleepRecords_miss down cache w userId startDate endDate now0 now1
                Hmiss Hup) as (rows & _ & ->).
    cbn [fst snd].
    rewrite (getSleepRecords_hit _ _ _ _ _ _ _ _ (mkEntry rows now1));
      [reflexivity | apply fresh_insert; exact Hwin].
  - intros cache w w2 userId startDate endDate now0 now1 now2 now3 Hmiss Hup Hwin.
    destruct (getCommitRecords_miss down cache w userId startDate endDate now0 now1
                Hmiss Hup) as (rows & _ & ->).
    cbn [fst snd].
    rewrite (getCommitRecords_hit _ _ _ _ _ _ _ _ (mkEntry (AnyRecords rows) now1));
      [reflexivity | apply fresh_insert; exact Hwin].
  - intros cache w w2 userId startDate endDate now0 now1 now2 now3 Hmiss Hup Hwin.
    destruct (getInsights_miss down cache w userId startDate endDate now0 now1
                Hmiss Hup) as (rows & _ & ->).
    cbn [fst snd].
    rewrite (getInsights_hit _ _ _ _ _ _ _ _ (mkEntry rows now1));
      [reflexivity | apply fresh_insert; exact Hwin].
  - intros tza cache w w2 userId date now0 now1 now2 now3 Hmiss Hup Hwin.
    rewrite (getCommitStats_miss down tza cache w userId date now0 now1 Hmiss Hup).
    cbn [fst snd].
    match goal with
    | |- context [mkEntry ?d now1] =>
        rewrite (getCommitStats_hit _ _ _ _ _ _ _ _ (mkEntry d now1));
          [reflexivity | apply fresh_insert; exact Hwin]
    end.
  - intros cache w w2 userId now0 now1 now2 now3 row d Hmiss Hrow Hwin.
    assert (Hfirst : InsightService.getLatestInsight down cache w userId now0 now1
                     = (Some row,
                        <[Ref.latestKey userId := mkEntry [row] now1]> cache,
                        mkWorld d (console w))).
    { unfold InsightService.getLatestInsight.
      fold (Ref.latestKey userId). rewrite Hmiss, Hrow. reflexivity. }
    cbn zeta. rewrite Hfirst. cbn [fst snd].
    split; [reflexivity|].
    rewrite (getLatestInsight_hit _ _ _ _ _ _ (mkEntry [row] now1));
      [reflexivity | apply fresh_insert; exact Hwin].
  - intros cache w record. cbn zeta. rewrite addSleepRecord_outcome.
    destruct (Supabase.insert_sleep _ _ _) as [[r|m] d]; split; reflexivity.
  - intros cache w recordId updates. cbn zeta. rewrite updateSleepRecord_outcome.
    destruct (Supabase.update_sleep _ _ _ _) as [[r|m] d]; split; reflexivity.
  - intros cache w recordId. cbn zeta. rewrite deleteSleepRecord_outcome.
    destruct (Supabase.delete_sleep _ _ _) as [[r|m] d]; split; reflexivity.
  - intros cache w record. cbn zeta. rewrite addCommitRecord_outcome.
    destruct (Supabase.insert_commit _ _ _) as [[r|m] d]; split; reflexivity.
  - intros cache w insight. cbn zeta. rewrite upsertInsight_outcome.
    destruct (Supabase.upsert_insight _ _ _) as [[r|m] d]; split; reflexivity.
  - intros cache w insightId updates. cbn zeta. rewrite updateInsight_outcome.
    destruct (Supabase.update_insight _ _ _ _) as [[r|m] d]; split; reflexivity.
  - intros. apply read_of_cleared_cache_asks_sleep.
  - intros. apply read_of_cleared_cache_asks_commits.
  - intros. apply read_of_cleared_cache_asks_stats.
  - intros. apply read_of_cleared_cache_asks_insights.
  - intros. apply read_of_cleared_cache_asks_latest.
  - reflexivity.
Qed.

Lemma cache_window_and_clear_on_accepted_write_witness :
  SleepService.getSleepRecords Sample.never_down
    (snd (fst (SleepService.getSleepRecords Sample.never_down ∅
                 (mkWorld Sample.sleep_db []) "u" Sample.week_start Sample.week_end
                 990 1000)))
    (mkWorld Sample.empty_db []) "u" Sample.week_start Sample.week_end 300999 301000
  = (fst (fst (SleepService.getSleepRecords Sample.never_down ∅
                 (mkWorld Sample.sleep_db []) "u" Sample.week_start Sample.week_end
                 990 1000)),
     snd (fst (SleepService.getSleepRecords Sample.never_down ∅
                 (mkWorld Sample.sleep_db []) "u" Sample.week_start Sample.week_end
                 990 1000)),
     mkWorld Sample.empty_db []).
Proof.
  apply (proj1 (cache_window_and_clear_on_accepted_write Sample.never_down) ∅
           (mkWorld Sample.sleep_db []) (mkWorld Sample.empty_db []) "u"%string
           Sample.week_start Sample.week_end 990 1000 300999 301000).
  - apply fresh_empty.
  - reflexivity.
  - reflexivity.
Defined.

Example accepted_write_clears_cache :
  SleepService.addSleepRecord Sample.never_down Sample.sleep_cache
    (mkWorld (mkDb [Sample.sleep_row] [] [] 21) []) Sample.sleep_next
  = (Some (mkSleepRecord 21%nat "u" 19724 1704146400000 1704175200000 (8 # 1)
             (Some 80) None),
     ∅,
     mkWorld (mkDb [Sample.sleep_row;
                    mkSleepRecord 21%nat "u" 19724 1704146400000 1704175200000
                      (8 # 1) (Some 80) None] [] [] 22) []).
Proof. reflexivity. Qed.

(** ** Sample runs of the commit sync *)

Lemma syncCommits_keeps_commits_unique_witness :
  Ref.uniqueCommits
    (db (world (snd (GitHubSyncService.syncCommits Sample.never_down
                       (Some "t"%string) Sample.events_api Sample.clock
                       Sample.sync_start "u" 1704110400000)))).
Proof.
  apply (proj1 (syncCommits_keeps_commits_unique Sample.never_down
                  (Some "t"%string) Sample.events_api Sample.clock
                  Sample.sync_start "u"%string 1704110400000
                  (NoDup_nil_2 : Ref.uniqueCommits (db (world Sample.sync_start))))).
Defined.

(** One push event with two commits gives two rows; a second run over the
    same events adds none, logs the two refused inserts and returns true. *)
Example syncCommits_twice :
  let first := GitHubSyncService.syncCommits Sample.never_down (Some "t"%string)
                 Sample.events_api Sample.clock Sample.sync_start "u" 1704110400000 in
  let second := GitHubSyncService.syncCommits Sample.never_down (Some "t"%string)
                  Sample.events_api Sample.clock (snd first) "u" 1704110400000 in
  fst first = true
  /\ map cr_commit_hash (commit_records (db (world (snd first)))) = ["a1"; "a2"]%string
  /\ console (world (snd first)) = []
  /\ fst second = true
  /\ commit_records (db (world (snd second))) = commit_records (db (world (snd first)))
  /\ console (world (snd second))
     = ["Error adding commit record:"; "Error adding commit record:"]%string.
Proof. vm_compute. repeat split; reflexivity. Qed.

(** * Further properties *)

(** ** The GitHub client binding *)

Lemma no_token_false (token : option string) :
  GitHubService.no_token token = false <->
  exists client, token = Some client /\ client <> ""%string.
Proof.
  unfold GitHubService.no_token. destruct token as [t|].
  - rewrite String.eqb_neq. split.
    + intros H. exists t. split; [reflexivity | exact H].
    + intros (c & [= <-] & H). exact H.
  - split; [discriminate | intros (c & H & _); discriminate H].
Qed.

(** X1. Once [initialize] has bound a client, the service keeps that
    client whatever the token provider returns later: [initialize] and
    [ensureInitialized] do not consult the provider again, and [getCommits]
    sends its request with the client bound first. *)
Theorem bound_client_is_kept (token : option string) (g g1 : GitHubState) :
  initialized g = false ->
  GitHubService.initialize token g = (Returned tt, g1) ->
  exists client,
    token = Some client /\ client <> ""%string
    /\ forall (token' : option string)
              (listEvents : string -> EventsRequest -> ApiResult) (since : Z),
         GitHubService.initialize token' g1 = (Returned tt, g1)
         /\ GitHubService.ensureInitialized token' g1 = (Returned client, g1)
         /\ GitHubService.getCommits token' listEvents g1 since
            = (match listEvents client (GitHubService.eventsRequest since) with
               | ApiData events =>
                   Returned (List.filter GitHubService.is_push_with_commits events)
               | ApiError message =>
                   Thrown ("Failed to fetch commits: " +:+ message)
               | ApiReject => Thrown "Failed to fetch commits"
               end, g1).
Proof.
  intros Hun Hinit. unfold GitHubService.initialize in Hinit. rewrite Hun in Hinit.
  destruct (GitHubService.no_token token) eqn:Hn; [discriminate|].
  injection Hinit as <-.
  apply no_token_false in Hn as (client & -> & Hne).
  exists client. split; [reflexivity|]. split; [exact Hne|].
  intros token' listEvents since.
  assert (He : GitHubService.ensureInitialized token' (mkGitHub (Some client) true)
               = (Returned client, mkGitHub (Some client) true)) by reflexivity.
  split; [reflexivity|]. split; [exact He|].
  unfold GitHubService.getCommits. rewrite He.
  destruct (listEvents client (GitHubService.eventsRequest since)); reflexivity.
Qed.

Lemma bound_client_is_kept_witness :
  exists client,
    Some "old"%string = Some client /\ client <> ""%string
    /\ forall (token' : option string)
              (listEvents : string -> EventsRequest -> ApiResult) (since : Z),
         GitHubService.initialize token' Sample2.bound = (Returned tt, Sample2.bound)
         /\ GitHubService.ensureInitialized token' Sample2.bound
            = (Returned client, Sample2.bound)
         /\ GitHubService.getCommits token' listEvents Sample2.bound since
            = (match listEvents client (GitHubService.eventsRequest since) with
               | ApiData events =>
                   Returned (List.filter GitHubService.is_push_with_commits events)
               | ApiError message =>
                   Thrown ("Failed to fetch commits: " +:+ message)
               | ApiReject => Thrown "Failed to fetch commits"
               end, Sample2.bound).
Proof.
  apply (bound_client_is_kept (Some "old"%string) Sample.signed_out Sample2.bound);
    reflexivity.
Defined.

(** X2. [refreshToken] forgets the binding: with a usable token it binds
    the new one, whatever client was bound before, and the next [getCommits]
    sends its request with the new token. *)
Theorem refreshToken_rebinds (token : option string) (g : GitHubState)
    (client : string) (listEvents : string -> EventsRequest -> ApiResult)
    (since : Z) (events : list Commit) :
  token = Some client -> client <> ""%string ->
  listEvents client (GitHubService.eventsRequest since) = ApiData events ->
  GitHubService.refreshToken token g = (Returned tt, mkGitHub (Some client) true)
  /\ forall token' : option string,
       GitHubService.getCommits token' listEvents
         (snd (GitHubService.refreshToken token g)) since
       = (Returned (List.filter GitHubService.is_push_with_commits events),
          mkGitHub (Some client) true).
Proof.
  intros -> Hne Hapi.
  assert (Hr : GitHubService.refreshToken (Some client) g
               = (Returned tt, mkGitHub (Some client) true)).
  { unfold GitHubService.refreshToken, GitHubService.initialize. cbn.
    apply String.eqb_neq in Hne. rewrite Hne. reflexivity. }
  split; [exact Hr|]. intros token'. rewrite Hr. cbn [snd].
  unfold GitHubService.getCommits. cbn. rewrite Hapi. reflexivity.
Qed.

Lemma refreshToken_rebinds_witness :
  GitHubService.refreshToken (Some "new"%string) Sample2.bound
  = (Returned tt, mkGitHub (Some "new"%string) true)
  /\ forall token' : option string,
       GitHubService.getCommits token' Sample.events_api
         (snd (GitHubService.refreshToken (Some "new"%string) Sample2.bound)) 0
       = (Returned (List.filter GitHubService.is_push_with_commits
                      [Sample.push_two; Sample.push_empty; Sample.watch;
                       Sample.push_bare]),
          mkGitHub (Some "new"%string) true).
Proof.
  apply (refreshToken_rebinds (Some "new"%string) Sample2.bound "new"%string
           Sample.events_api 0
           [Sample.push_two; Sample.push_empty; Sample.watch; Sample.push_bare]).
  - reflexivity.
  - discriminate.
  - reflexivity.
Defined.

(** X3. Without a usable token (absent or empty), an unbound service
    never reaches the API: [getCommits] throws "No GitHub token available"
    whatever the API would answer, and stays unbound.  A [refreshToken]
    without a token throws the same and leaves the service unbound, even if
    a client was bound before. *)
Theorem no_token_no_request (token : option string) (g : GitHubState) :
  GitHubService.no_token token = true ->
  (initialized g = false ->
   forall (listEvents : string -> EventsRequest -> ApiResult) (since : Z),
     GitHubService.getCommits token listEvents g since
     = (Thrown "No GitHub token available", g))
  /\ GitHubService.refreshToken token g
     = (Thrown "No GitHub token available", mkGitHub (octokit g) false)
  /\ forall (listEvents : string -> EventsRequest -> ApiResult) (since : Z),
       GitHubService.getCommits token listEvents
         (snd (GitHubService.refreshToken token g)) since
       = (Thrown "No GitHub token available", mkGitHub (octokit g) false).
Proof.
  intros Hn.
  assert (Hget : forall g0, initialized g0 = false ->
            forall (listEvents : string -> EventsRequest -> ApiResult) (since : Z),
              GitHubService.getCommits token listEvents g0 since
              = (Thrown "No GitHub token available", g0)).
  { intros g0 Hun listEvents since.
    unfold GitHubService.getCommits, GitHubService.ensureInitialized,
      GitHubService.initialize.
    rewrite Hun. cbn [negb]. rewrite Hn. reflexivity. }
  assert (Hr : GitHubService.refreshToken token g
               = (Thrown "No GitHub token available", mkGitHub (octokit g) false)).
  { unfold GitHubService.refreshToken, GitHubService.initialize.
    cbn [initialized]. rewrite Hn. reflexivity. }
  split; [apply Hget|]. split; [exact Hr|].
  intros listEvents since. rewrite Hr. cbn [snd]. apply Hget. reflexivity.
Qed.

Lemma no_token_no_request_witness :
  GitHubService.refreshToken (Some ""%string) Sample2.bound
  = (Thrown "No GitHub token available", mkGitHub (Some "old"%string) false).
Proof.
  apply (proj1 (proj2 (no_token_no_request (Some ""%string) Sample2.bound eq_refl))).
Defined.

(** ** What a sync run writes *)

Section SyncRun.

Variable down : nat -> bool.
Variable nowAt : nat -> Z.
Variable userId : string.

Lemma addOne_db (e : Commit) (acc : gmap string (Entry CommitAny) * World)
    (c : CommitEntry) :
  db (snd (GitHubSyncService.addOne down nowAt userId e acc c))
  = snd (Supabase.insert_commit down (db (snd acc)) (Ref2.recordOf nowAt userId e c (db (snd acc)))).
Proof.
  destruct acc as [cache w]. unfold GitHubSyncService.addOne, Ref2.recordOf. cbn [snd].
  match goal with
  | |- context [CommitService.addCommitRecord down cache w ?r] =>
      pose proof (addCommitRecord_db down cache w r) as Hdb;
      destruct (CommitService.addCommitRecord down cache w r) as [[res c1] w1]
  end.
  exact Hdb.
Qed.

(** Induction over the two loops of [syncCommits]. *)
Lemma sync_fold_ind (P : gmap string (Entry CommitAny) * World -> Prop)
    (events : list Commit) :
  (forall acc e c, (e, c) ∈ Ref2.entriesOf events -> P acc ->
     P (GitHubSyncService.addOne down nowAt userId e acc c)) ->
  forall acc, P acc ->
    P (fold_left (GitHubSyncService.processEvent down nowAt userId) events acc).
Proof.
  induction events as [|e events IH]; intros Hstep acc Hacc; [exact Hacc|].
  cbn [fold_left]. apply IH.
  - intros acc' e' c' Hin. apply Hstep.
    unfold Ref2.entriesOf. cbn [map concat]. apply elem_of_app. right. exact Hin.
  - unfold GitHubSyncService.processEvent.
    assert (Hl : forall c, c ∈ default [] (ev_commits e) ->
                   (e, c) ∈ Ref2.entriesOf (e :: events)).
    { intros c Hc. unfold Ref2.entriesOf. cbn [map concat]. apply elem_of_app.
      left. apply list_elem_of_fmap. exists c. split; [reflexivity | exact Hc]. }
    destruct (ev_commits e) as [l|]; [|exact Hacc]. cbn [default] in Hl.
    clear IH. revert acc Hacc.
    induction l as [|c l IHl]; intros acc Hacc; [exact Hacc|].
    cbn [fold_left]. apply IHl.
    + intros c' Hc'. apply Hl. apply elem_of_cons. right. exact Hc'.
    + apply Hstep; [|exact Hacc]. apply Hl. apply elem_of_cons. left. reflexivity.
Qed.

Lemma insert_commit_requests (d : Db) (r : CommitRecordInsert) :
  let d1 := snd (Supabase.insert_commit down d r) in
  requests d1 = S (requests d)
  /\ sleep_records d1 = sleep_records d
  /\ activity_insights d1 = activity_insights d.
Proof.
  unfold Supabase.insert_commit.
  destruct (down (requests d)); [cbn; auto|].
  destruct (Supabase.commit_pk_taken _ _); [cbn; auto|].
  destruct (Supabase.commit_key_taken _ _ _); cbn; auto.
Qed.

Lemma insert_commit_rows (d : Db) (r : CommitRecordInsert) :
  let d1 := snd (Supabase.insert_commit down d r) in
  commit_records d1 = commit_records d
  \/ (Supabase.commit_key_taken (commit_records d) (cri_user_id r)
        (cri_commit_hash r) = false
      /\ commit_records d1
         = commit_records d
           ++ [mkCommitRecord (default (requests d) (cri_id r)) (cri_user_id r)
                 (cri_repository r) (cri_commit_hash r) (cri_commit_message r)
                 (cri_commit_timestamp r)]).
Proof.
  unfold Supabase.insert_commit.
  destruct (down (requests d)); [left; reflexivity|].
  destruct (Supabase.commit_pk_taken _ _); [left; reflexivity|].
  destruct (Supabase.commit_key_taken _ _ _); [left; reflexivity|].
  right. split; reflexivity.
Qed.

Lemma sync_fold_requests (events : list Commit)
    (acc : gmap string (Entry CommitAny) * World) :
  let acc1 := fold_left (GitHubSyncService.processEvent down nowAt userId)
                events acc in
  requests (db (snd acc1))
  = (requests (db (snd acc)) + length (Ref2.entriesOf events))%nat
  /\ sleep_records (db (snd acc1)) = sleep_records (db (snd acc))
  /\ activity_insights (db (snd acc1)) = activity_insights (db (snd acc)).
Proof.
  cbn zeta. revert acc. induction events as [|e events IH]; intros acc.
  - cbn. split; [lia | split; reflexivity].
  - cbn [fold_left]. specialize (IH (GitHubSyncService.processEvent down nowAt
                                       userId acc e)).
    destruct IH as (IH1 & IH2 & IH3). rewrite IH1, IH2, IH3. clear IH1 IH2 IH3.
    unfold Ref2.entriesOf. cbn [map concat]. rewrite length_app, length_map.
    fold (Ref2.entriesOf events).
    unfold GitHubSyncService.processEvent.
    destruct (ev_commits e) as [l|]; [|cbn; split; [lia | split; reflexivity]].
    cbn [default]. revert acc. induction l as [|c l IHl]; intros acc.
    + cbn. split; [lia | split; reflexivity].
    + cbn [fold_left length].
      specialize (IHl (GitHubSyncService.addOne down nowAt userId e acc c)).
      destruct IHl as (H1 & H2 & H3).
      rewrite addOne_db in H1, H2, H3.
      destruct (insert_commit_requests (db (snd acc)) (Ref2.recordOf nowAt userId e c (db (snd acc))))
        as (R1 & R2 & R3).
      rewrite R1 in H1. rewrite R2 in H2. rewrite R3 in H3.
      unfold id in *. cbn [length]. split; [lia | split; assumption].
Qed.

End SyncRun.

(** X4. [syncCommits] sends one insert per commit entry of the fetched
    push events, one after the other, and nothing else: the number of
    requests grows by the number of entries, or not at all when the events
    cannot be fetched, in which case the run returns false and leaves
    tables and cache as they were.  Sleep records and insights are never
    touched. *)
Theorem syncCommits_one_request_per_commit (down : nat -> bool)
    (token : option string) (listEvents : string -> EventsRequest -> ApiResult)
    (nowAt : nat -> Z) (s : SyncState) (userId : string) (now : Z) :
  let run := GitHubSyncService.syncCommits down token listEvents nowAt s userId now in
  let d0 := db (world s) in
  let d1 := db (world (snd run)) in
  sleep_records d1 = sleep_records d0
  /\ activity_insights d1 = activity_insights d0
  /\ match fst (GitHubService.getCommits token listEvents (github s)
                  (JsDate.subDays now 30)) with
     | Returned events =>
         fst run = true
         /\ requests d1 = (requests d0 + length (Ref2.entriesOf events))%nat
     | Thrown _ =>
         fst run = false /\ d1 = d0 /\ commitCache (snd run) = commitCache s
         /\ console (world (snd run))
            = console (world s) ++ ["Error syncing GitHub commits:"%string]
     end.
Proof.
  cbn zeta. unfold GitHubSyncService.syncCommits.
  destruct (GitHubService.getCommits _ _ _ _) as [[events|msg] g1]; cbn [fst snd].
  - pose proof (sync_fold_requests down nowAt userId events (commitCache s, world s))
      as (H1 & H2 & H3).
    destruct (fold_left _ events _) as [cache1 w1]. cbn in *.
    split; [exact H2|]. split; [exact H3|]. split; [reflexivity | exact H1].
  - cbn. repeat split; reflexivity.
Qed.

Section SyncRows.

Variable down : nat -> bool.
Variable nowAt : nat -> Z.
Variable userId : string.

Lemma sync_fold_appends (events : list Commit)
    (acc : gmap string (Entry CommitAny) * World) :
  exists added,
    commit_records
      (db (snd (fold_left (GitHubSyncService.processEvent down nowAt userId)
                  events acc)))
    = commit_records (db (snd acc)) ++ added
    /\ Forall (fun r => exists e c, (e, c) ∈ Ref2.entriesOf events
                                    /\ Ref2.rowOf userId r e c) added.
Proof.
  apply (sync_fold_ind down nowAt userId
           (fun a => exists added,
              commit_records (db (snd a)) = commit_records (db (snd acc)) ++ added
              /\ Forall (fun r => exists e c, (e, c) ∈ Ref2.entriesOf events
                                              /\ Ref2.rowOf userId r e c) added)).
  - intros a e c Hin (added & Hrows & Hall). rewrite addOne_db.
    destruct (insert_commit_rows down (db (snd a))
                (Ref2.recordOf nowAt userId e c (db (snd a)))) as [H|[_ H]];
      rewrite H, Hrows.
    + exists added. split; [reflexivity | exact Hall].
    + eexists (added ++ [_]). split; [rewrite app_assoc; reflexivity|].
      apply Forall_app. split; [exact Hall|].
      apply Forall_singleton. exists e, c. split; [exact Hin|].
      unfold Ref2.rowOf. cbn. auto.
  - exists []. split; [rewrite app_nil_r; reflexivity | constructor].
Qed.

Lemma sync_fold_keeps_present_rows (events : list Commit)
    (acc : gmap string (Entry CommitAny) * World) :
  (forall e c, (e, c) ∈ Ref2.entriesOf events ->
     (userId, ce_sha c) ∈ map Ref.commitKey (commit_records (db (snd acc)))) ->
  commit_records
    (db (snd (fold_left (GitHubSyncService.processEvent down nowAt userId)
                events acc)))
  = commit_records (db (snd acc)).
Proof.
  intros Hall.
  apply (sync_fold_ind down nowAt userId
           (fun a => commit_records (db (snd a)) = commit_records (db (snd acc))));
    [|reflexivity].
  intros a e c Hin Ha. rewrite addOne_db.
  destruct (insert_commit_rows down (db (snd a))
              (Ref2.recordOf nowAt userId e c (db (snd a)))) as [H|[Hk _]].
  - rewrite H. exact Ha.
  - exfalso. specialize (Hall e c Hin). rewrite <- Ha in Hall.
    apply commit_key_taken_elem in Hall. cbn in Hk. congruence.
Qed.

Lemma commit_pk_free (rows : list CommitRecord) (i : uuid) :
  (forall r, r ∈ rows -> (cr_id r < i)%nat) ->
  Supabase.commit_pk_taken rows i = false.
Proof.
  unfold Supabase.commit_pk_taken. intros H.
  induction rows as [|r rows IH]; [reflexivity|]. cbn [existsb].
  rewrite IH by (intros r' Hr'; apply H; apply elem_of_cons; right; exact Hr').
  assert (cr_id r < i)%nat by (apply H; apply elem_of_cons; left; reflexivity).
  destruct (Nat.eqb_spec (cr_id r) i); [lia | reflexivity].
Qed.

Hypothesis healthy : forall n, down n = false.

Lemma insert_commit_healthy (d : Db) (r : CommitRecordInsert) :
  Ref2.idFresh d -> cri_id r = None ->
  let d1 := snd (Supabase.insert_commit down d r) in
  Ref2.idFresh d1
  /\ (cri_user_id r, cri_commit_hash r) ∈ map Ref.commitKey (commit_records d1)
  /\ (forall k, k ∈ map Ref.commitKey (commit_records d) ->
                k ∈ map Ref.commitKey (commit_records d1)).
Proof.
  intros Hfresh Hid. unfold Supabase.insert_commit.
  rewrite healthy, Hid. cbn [default from_option].
  rewrite (commit_pk_free _ _ Hfresh).
  destruct (Supabase.commit_key_taken _ _ _) eqn:Hk;
    unfold Ref2.idFresh, Supabase.bump, Supabase.with_commits; cbn.
  - split; [|split].
    + intros x Hx. specialize (Hfresh x Hx). lia.
    + apply commit_key_taken_elem. exact Hk.
    + auto.
  - split; [|split].
    + intros x Hx. apply elem_of_app in Hx as [Hx|Hx].
      * specialize (Hfresh x Hx). lia.
      * apply list_elem_of_singleton in Hx. subst x. cbn. lia.
    + rewrite map_app. apply elem_of_app. right. cbn.
      apply list_elem_of_singleton. reflexivity.
    + intros k Hk'. rewrite map_app. apply elem_of_app. left. exact Hk'.
Qed.

Lemma sync_fold_flat (events : list Commit)
    (acc : gmap string (Entry CommitAny) * World) :
  fold_left (GitHubSyncService.processEvent down nowAt userId) events acc
  = fold_left (fun a ec => GitHubSyncService.addOne down nowAt userId (fst ec) a (snd ec))
              (Ref2.entriesOf events) acc.
Proof.
  revert acc. induction events as [|e events IH]; intros acc; [reflexivity|].
  cbn [fold_left]. unfold Ref2.entriesOf. cbn [map concat].
  rewrite fold_left_app. fold (Ref2.entriesOf events). rewrite <- IH. f_equal.
  unfold GitHubSyncService.processEvent.
  destruct (ev_commits e) as [l|]; [|reflexivity]. cbn [default from_option id].
  revert acc. induction l as [|c l IHl]; intros acc; [reflexivity|].
  cbn [map fold_left fst snd]. apply IHl.
Qed.

Lemma sync_fold_complete (events : list Commit)
    (acc : gmap string (Entry CommitAny) * World) :
  Ref2.idFresh (db (snd acc)) ->
  let acc1 := fold_left (GitHubSyncService.processEvent down nowAt userId)
                events acc in
  Ref2.idFresh (db (snd acc1))
  /\ (forall k, k ∈ map Ref.commitKey (commit_records (db (snd acc))) ->
                k ∈ map Ref.commitKey (commit_records (db (snd acc1))))
  /\ (forall e c, (e, c) ∈ Ref2.entriesOf events ->
        (userId, ce_sha c) ∈ map Ref.commitKey (commit_records (db (snd acc1)))).
Proof.
  cbn zeta. rewrite sync_fold_flat.
  generalize (Ref2.entriesOf events) as ecs. intros ecs. revert acc.
  induction ecs as [|[e c] ecs IH]; intros acc Hfresh.
  - cbn. split; [exact Hfresh|]. split; [auto|]. intros e c H. inversion H.
  - cbn [fold_left fst snd].
    pose proof (insert_commit_healthy (db (snd acc))
                  (Ref2.recordOf nowAt userId e c (db (snd acc))) Hfresh eq_refl)
      as (S1 & S2 & S3).
    rewrite <- addOne_db in S1, S2, S3.
    destruct (IH _ S1) as (I1 & I2 & I3).
    split; [exact I1|]. split.
    + intros k Hk. apply I2, S3, Hk.
    + intros e' c' Hin. apply elem_of_cons in Hin as [[= -> ->]|Hin].
      * apply I2. exact S2.
      * exact (I3 e' c' Hin).
Qed.

End SyncRows.

(** X5. A sync run only appends to the commit table: the rows that were
    there stay, in place and unchanged, and every row added belongs to the
    user of the run and carries the repository name, hash and message of a
    commit entry of one of the fetched push events. *)
Theorem syncCommits_only_appends_own_rows (down : nat -> bool)
    (token : option string) (listEvents : string -> EventsRequest -> ApiResult)
    (nowAt : nat -> Z) (s : SyncState) (userId : string) (now : Z)
    (events : list Commit) (g1 : GitHubState) :
  GitHubService.getCommits token listEvents (github s) (JsDate.subDays now 30)
  = (Returned events, g1) ->
  exists added,
    commit_records
      (db (world (snd (GitHubSyncService.syncCommits down token listEvents nowAt
                         s userId now))))
    = commit_records (db (world s)) ++ added
    /\ Forall (fun r => exists e c, (e, c) ∈ Ref2.entriesOf events
                                    /\ Ref2.rowOf userId r e c) added.
Proof.
  intros Hget. unfold GitHubSyncService.syncCommits. rewrite Hget.
  pose proof (sync_fold_appends down nowAt userId events (commitCache s, world s))
    as H.
  destruct (fold_left _ events _) as [cache1 w1]. exact H.
Qed.

Lemma syncCommits_only_appends_own_rows_witness :
  (exists added,
     commit_records
       (db (world (snd (GitHubSyncService.syncCommits Sample.never_down
                          (Some "t"%string) Sample.events_api Sample.clock
                          (mkSync Sample.signed_out ∅ (mkWorld Sample2.partial_db []))
                          "u" 1704110400000))))
     = Sample2.partial_rows ++ added
     /\ Forall (fun r => exists e c,
                  (e, c) ∈ Ref2.entriesOf [Sample.push_two; Sample.push_empty]
                  /\ Ref2.rowOf "u" r e c) added)
  /\ commit_records
       (db (world (snd (GitHubSyncService.syncCommits Sample.never_down
                          (Some "t"%string) Sample.events_api Sample.clock
                          (mkSync Sample.signed_out ∅ (mkWorld Sample2.partial_db []))
                          "u" 1704110400000))))
     = Sample2.partial_rows
       ++ [mkCommitRecord 11%nat "u" "alpha" "a2" (Some "two") 1704096600000].
Proof.
  split; [|reflexivity].
  apply (syncCommits_only_appends_own_rows Sample.never_down (Some "t"%string)
           Sample.events_api Sample.clock
           (mkSync Sample.signed_out ∅ (mkWorld Sample2.partial_db []))
           "u"%string 1704110400000 [Sample.push_two; Sample.push_empty]
           (mkGitHub (Some "t"%string) true)).
  reflexivity.
Defined.

(** X6. On a store that answers every request, a sync run leaves in the
    table a row for every commit entry of the fetched events, under the key
    (user, hash); a second run that fetches the same events, on a store
    healthy or not, returns true and leaves the commit rows exactly as the
    first run left them. *)
Theorem resync_adds_nothing (down down' : nat -> bool) (token : option string)
    (listEvents : string -> EventsRequest -> ApiResult) (nowAt nowAt' : nat -> Z)
    (s : SyncState) (userId : string) (now now' : Z) (events : list Commit)
    (g1 g2 : GitHubState) :
  (forall n, down n = false) ->
  Ref2.idFresh (db (world s)) ->
  let first := GitHubSyncService.syncCommits down token listEvents nowAt
                 s userId now in
  let second := GitHubSyncService.syncCommits down' token listEvents nowAt'
                  (snd first) userId now' in
  GitHubService.getCommits token listEvents (github s) (JsDate.subDays now 30)
  = (Returned events, g1) ->
  GitHubService.getCommits token listEvents (github (snd first))
    (JsDate.subDays now' 30) = (Returned events, g2) ->
  (forall e c, (e, c) ∈ Ref2.entriesOf events ->
     (userId, ce_sha c)
       ∈ map Ref.commitKey (commit_records (db (world (snd first)))))
  /\ fst second = true
  /\ commit_records (db (world (snd second)))
     = commit_records (db (world (snd first))).
Proof.
  intros Hup Hfresh first second Hget1 Hget2.
  assert (Hall : forall e c, (e, c) ∈ Ref2.entriesOf events ->
            (userId, ce_sha c)
              ∈ map Ref.commitKey (commit_records (db (world (snd first))))).
  { subst first. unfold GitHubSyncService.syncCommits. rewrite Hget1.
    pose proof (sync_fold_complete down nowAt userId Hup events
                  (commitCache s, world s) Hfresh) as (_ & _ & H).
    destruct (fold_left _ events _) as [cache1 w1]. exact H. }
  split; [exact Hall|].
  subst second. unfold GitHubSyncService.syncCommits at 1 2. rewrite Hget2.
  pose proof (sync_fold_keeps_present_rows down' nowAt' userId events
                (commitCache (snd first), world (snd first)) Hall) as H.
  destruct (fold_left _ events _) as [cache2 w2].
  split; [reflexivity | exact H].
Qed.

Lemma resync_adds_nothing_witness :
  let first := GitHubSyncService.syncCommits Sample.never_down (Some "t"%string)
                 Sample.events_api Sample.clock Sample.sync_start "u"
                 1704110400000 in
  let second := GitHubSyncService.syncCommits Sample.always_down (Some "t"%string)
                  Sample.events_api Sample.clock (snd first) "u" 1704196800000 in
  (forall e c, (e, c) ∈ Ref2.entriesOf [Sample.push_two; Sample.push_empty] ->
     ("u"%string, ce_sha c)
       ∈ map Ref.commitKey (commit_records (db (world (snd first)))))
  /\ fst second = true
  /\ commit_records (db (world (snd second)))
     = commit_records (db (world (snd first))).
Proof.
  apply (resync_adds_nothing Sample.never_down Sample.always_down
           (Some "t"%string) Sample.events_api Sample.clock Sample.clock
           Sample.sync_start "u"%string 1704110400000 1704196800000
           [Sample.push_two; Sample.push_empty]
           (mkGitHub (Some "t"%string) true) (mkGitHub (Some "t"%string) true)).
  - reflexivity.
  - intros r Hr. inversion Hr.
  - reflexivity.
  - reflexivity.
Defined.

(** ** The commit cache holds each kind of entry under its own keys *)

Lemma getHours_range (tza t : Z) : 0 <= JsDate.getHours tza t < 24.
Proof. unfold JsDate.getHours. apply Z.mod_pos_bound. lia. Qed.

Lemma derived_stats_sane (tza : Z) (timestamps : list Z) :
  Ref2.saneStats
    (mkStats (length timestamps)
       (size (list_to_set (map (JsDate.getHours tza) timestamps) : gset Z))).
Proof.
  unfold Ref2.saneStats. cbn [count hours]. rewrite size_hours_set.
  set (hs := map (JsDate.getHours tza) timestamps).
  assert (Hnd : NoDup (remove_dups hs)) by apply NoDup_remove_dups.
  split; [|split].
  - rewrite <- (length_map (JsDate.getHours tza) timestamps). fold hs.
    apply submseteq_length, NoDup_submseteq; [exact Hnd|].
    intros x. apply elem_of_remove_dups.
  - change 24%nat with (Z.to_nat 24). rewrite <- (length_seqZ 0 24).
    apply submseteq_length, NoDup_submseteq; [exact Hnd|].
    intros x Hx. rewrite elem_of_remove_dups in Hx. subst hs.
    rewrite list_elem_of_In, in_map_iff in Hx. destruct Hx as (t & <- & _).
    apply elem_of_seqZ. pose proof (getHours_range tza t). lia.
  - intros Hpos. destruct timestamps as [|t ts]; [cbn in Hpos; lia|].
    assert (Hin : JsDate.getHours tza t ∈ remove_dups hs).
    { apply elem_of_remove_dups. subst hs. cbn. apply elem_of_cons. left.
      reflexivity. }
    destruct (remove_dups hs); [inversion Hin | cbn; lia].
Qed.

Lemma sane_insert (cache : gmap string (Entry CommitAny)) (k : string)
    (e : Entry CommitAny) :
  Ref2.cacheSane cache ->
  match data e with
  | AnyStats st => (exists rest, k = "stats-" +:+ rest) /\ Ref2.saneStats st
  | AnyRecords _ => exists rest, k = "records-" +:+ rest
  end ->
  Ref2.cacheSane (<[k := e]> cache).
Proof.
  intros Hc He k' e' Hl. destruct (decide (k = k')) as [<-|Hne].
  - rewrite lookup_insert_eq in Hl. injection Hl as <-. exact He.
  - rewrite lookup_insert_ne in Hl by exact Hne. apply (Hc k' e' Hl).
Qed.

Lemma sane_empty : Ref2.cacheSane ∅.
Proof. intros k e H. rewrite lookup_empty in H. discriminate H. Qed.

(** X7. The commit cache is typed [any], but the keys keep its two kinds
    of entries apart: as long as the cache is only written by the service,
    [getCommitStats] returns stats, never a row list, and [getCommitRecords]
    returns a row list, whether the answer comes from the cache, from the
    table or from a failure.  The stats returned have at most one active
    hour per commit, at most 24, and at least one when there is a commit, so
    that commits per hour is never a division by zero. *)
Theorem commit_cache_kinds_stay_apart (down : nat -> bool) (tza : Z)
    (cache : gmap string (Entry CommitAny)) (w : World) :
  Ref2.cacheSane cache ->
  (forall userId date now0 now1,
      let r := CommitService.getCommitStats down tza cache w userId date now0 now1 in
      Ref2.cacheSane (snd (fst r))
      /\ exists st, fst (fst r) = AnyStats st /\ Ref2.saneStats st)
  /\ (forall userId startDate endDate now0 now1,
      let r := CommitService.getCommitRecords down cache w userId startDate endDate
                 now0 now1 in
      Ref2.cacheSane (snd (fst r))
      /\ exists rows, fst (fst r) = AnyRecords rows)
  /\ (forall record,
      Ref2.cacheSane (snd (fst (CommitService.addCommitRecord down cache w record)))).
Proof.
  intros Hsane. split; [|split].
  - intros userId date now0 now1. cbn zeta. unfold CommitService.getCommitStats.
    destruct (fresh cache (CommitService.statsKey userId date) now0) as [e|] eqn:Hf.
    + cbn [fst snd]. split; [exact Hsane|].
      apply fresh_lookup in Hf as [Hl _]. specialize (Hsane _ _ Hl).
      destruct (data e) as [rows|st].
      * destruct Hsane as [rest Hk]. discriminate Hk.
      * exists st. split; [reflexivity | apply Hsane].
    + destruct (Supabase.select_commit_timestamps _ _ _ _ _) as [[ts|m] d];
        cbn [fst snd].
      * split.
        -- apply sane_insert; [exact Hsane|]. cbn [data].
           split; [eexists; reflexivity | apply derived_stats_sane].
        -- eexists. split; [reflexivity | apply derived_stats_sane].
      * split; [exact Hsane|]. exists (mkStats 0 0).
        split; [reflexivity|]. unfold Ref2.saneStats. cbn. lia.
  - intros userId startDate endDate now0 now1. cbn zeta.
    unfold CommitService.getCommitRecords.
    fold (Ref.rangeKey userId startDate endDate).
    fold (Ref.recordsKey userId startDate endDate).
    destruct (fresh cache (Ref.recordsKey userId startDate endDate) now0)
      as [e|] eqn:Hf.
    + cbn [fst snd]. split; [exact Hsane|].
      apply fresh_lookup in Hf as [Hl _]. specialize (Hsane _ _ Hl).
      destruct (data e) as [rows|st].
      * exists rows. reflexivity.
      * destruct Hsane as [[rest Hk] _]. discriminate Hk.
    + destruct (Supabase.select_commit_range _ _ _ _ _) as [[rows|m] d];
        cbn [fst snd].
      * split; [|eexists; reflexivity].
        apply sane_insert; [exact Hsane|]. eexists. reflexivity.
      * split; [exact Hsane | eexists; reflexivity].
  - intros record. rewrite addCommitRecord_outcome.
    destruct (Supabase.insert_commit _ _ _) as [[row|m] d]; cbn [fst snd];
      [apply sane_empty | exact Hsane].
Qed.

Lemma commit_cache_kinds_stay_apart_witness :
  exists st,
    fst (fst (CommitService.getCommitStats Sample.never_down Sample.utc_plus_1
                ∅ (mkWorld Sample.commit_db []) "u" Sample.noon_jan_1 0 10))
    = AnyStats st /\ Ref2.saneStats st.
Proof.
  apply (proj1 (commit_cache_kinds_stay_apart Sample.never_down Sample.utc_plus_1
                  ∅ (mkWorld Sample.commit_db []) sane_empty)
           "u"%string Sample.noon_jan_1 0 10).
Defined.

(** ** What the reads return when they ask the table *)

Lemma sorted_newest_first {A} (key : A -> Z) (l : list A)
    `{!forall a b, Decision (key b <= key a)} :
  StronglySorted (fun a b => key b <= key a)
    (merge_sort (fun a b => key b <= key a) l)
  /\ merge_sort (fun a b => key b <= key a) l ≡ₚ l.
Proof.
  split; [|apply merge_sort_Permutation].
  apply StronglySorted_merge_sort.
  - intros a b c Hab Hbc. lia.
  - intros a b. lia.
Qed.

(** X8. A range read that asks the table (no fresh entry, request
    answered) returns the rows of the user inside the bounds, each as often
    as the table holds it, newest first.  For sleep records and insights the
    bounds are the UTC days of the two dates, both included, whatever their
    time of day; for commit records they are the two instants. *)
Theorem range_reads_newest_first (down : nat -> bool) (w : World) (userId : string)
    (startDate endDate now0 now1 : Z) :
  down (requests (db w)) = false ->
  (forall cache,
      fresh cache (Ref.rangeKey userId startDate endDate) now0 = None ->
      let rows := fst (fst (SleepService.getSleepRecords down cache w userId
                              startDate endDate now0 now1)) in
      rows ≡ₚ filter (fun r => sr_user_id r = userId
                               /\ JsDate.Day startDate <= sr_date r
                                  <= JsDate.Day endDate)
                     (sleep_records (db w))
      /\ StronglySorted (fun a b => sr_date b <= sr_date a) rows)
  /\ (forall cache,
      fresh cache (Ref.recordsKey userId startDate endDate) now0 = None ->
      exists rows,
        fst (fst (CommitService.getCommitRecords down cache w userId
                    startDate endDate now0 now1)) = AnyRecords rows
        /\ rows ≡ₚ filter (fun r => cr_user_id r = userId
                                    /\ startDate <= cr_commit_timestamp r <= endDate)
                          (commit_records (db w))
        /\ StronglySorted
             (fun a b => cr_commit_timestamp b <= cr_commit_timestamp a) rows)
  /\ (forall cache,
      fresh cache (Ref.rangeKey userId startDate endDate) now0 = None ->
      let rows := fst (fst (InsightService.getInsights down cache w userId
                              startDate endDate now0 now1)) in
      rows ≡ₚ filter (fun r => ai_user_id r = userId
                               /\ JsDate.Day startDate <= ai_date r
                                  <= JsDate.Day endDate)
                     (activity_insights (db w))
      /\ StronglySorted (fun a b => ai_date b <= ai_date a) rows).
Proof.
  intros Hup. split; [|split].
  - intros cache Hmiss. cbn zeta. unfold SleepService.getSleepRecords.
    fold (Ref.rangeKey userId startDate endDate). rewrite Hmiss.
    unfold Supabase.select_sleep_range. rewrite Hup. cbn [fst snd].
    destruct (sorted_newest_first sr_date
                (filter (fun r => sr_user_id r = userId
                                  /\ JsDate.Day startDate <= sr_date r
                                     <= JsDate.Day endDate)
                        (sleep_records (db w)))) as [Hs Hp].
    split; [exact Hp | exact Hs].
  - intros cache Hmiss. unfold CommitService.getCommitRecords.
    fold (Ref.rangeKey userId startDate endDate).
    fold (Ref.recordsKey userId startDate endDate). rewrite Hmiss.
    unfold Supabase.select_commit_range. rewrite Hup. cbn [fst snd].
    eexists. split; [reflexivity|].
    destruct (sorted_newest_first cr_commit_timestamp
                (filter (Supabase.commit_in_window userId startDate endDate)
                        (commit_records (db w)))) as [Hs Hp].
    split; [exact Hp | exact Hs].
  - intros cache Hmiss. cbn zeta. unfold InsightService.getInsights.
    fold (Ref.rangeKey userId startDate endDate). rewrite Hmiss.
    unfold Supabase.select_insight_range. rewrite Hup. cbn [fst snd].
    destruct (sorted_newest_first ai_date
                (filter (fun r => ai_user_id r = userId
                                  /\ JsDate.Day startDate <= ai_date r
                                     <= JsDate.Day endDate)
                        (activity_insights (db w)))) as [Hs Hp].
    split; [exact Hp | exact Hs].
Qed.

Lemma range_reads_newest_first_witness :
  exists rows,
    fst (fst (CommitService.getCommitRecords Sample.never_down ∅
                (mkWorld Sample.commit_db []) "u" 1704067200000 1704153600000
                0 10)) = AnyRecords rows
    /\ rows ≡ₚ filter (fun r => cr_user_id r = "u"%string
                                /\ 1704067200000 <= cr_commit_timestamp r
                                   <= 1704153600000)
                      Sample.commit_rows
    /\ StronglySorted
         (fun a b => cr_commit_timestamp b <= cr_commit_timestamp a) rows.
Proof.
  apply (proj1 (proj2 (range_reads_newest_first Sample.never_down
                         (mkWorld Sample.commit_db []) "u"%string
                         1704067200000 1704153600000 0 10 eq_refl)) ∅).
  apply fresh_empty.
Defined.

Example commit_records_newest_first :
  fst (fst (CommitService.getCommitRecords Sample.never_down ∅
              (mkWorld Sample.commit_db []) "u" 1704067200000 1704153600000 0 10))
  = AnyRecords
      [ mkCommitRecord 4%nat "u" "alpha" "a3" (Some "three") 1704099900000;
        mkCommitRecord 2%nat "u" "alpha" "a2" (Some "two") 1704098400000;
        mkCommitRecord 1%nat "u" "alpha" "a1" (Some "one") 1704096600000 ].
Proof. reflexivity. Qed.

(** X9. [getLatestInsight], when it asks the table and the request is
    answered, returns the user's insight with the latest date, and null when
    the user has none; the insight found is stored under the user's "latest"
    key. *)
Theorem latest_insight_is_newest (down : nat -> bool)
    (cache : gmap string (Entry (list ActivityInsight))) (w : World)
    (userId : string) (now0 now1 : Z) :
  fresh cache (Ref.latestKey userId) now0 = None ->
  down (requests (db w)) = false ->
  let mine := filter (fun r => ai_user_id r = userId) (activity_insights (db w)) in
  let r := InsightService.getLatestInsight down cache w userId now0 now1 in
  match fst (fst r) with
  | None => mine = [] /\ snd (fst r) = cache
  | Some latest =>
      latest ∈ mine
      /\ (forall other, other ∈ mine -> ai_date other <= ai_date latest)
      /\ snd (fst r) = <[Ref.latestKey userId := mkEntry [latest] now1]> cache
  end.
Proof.
  intros Hmiss Hup mine. cbn zeta. unfold InsightService.getLatestInsight.
  fold (Ref.latestKey userId). rewrite Hmiss.
  unfold Supabase.select_latest_insight. rewrite Hup. fold mine.
  pose proof (@StronglySorted_merge_sort _ Supabase.insight_newer
                Supabase.insight_newer_dec) as Hs.
  specialize (Hs ltac:(intros a b c; unfold Supabase.insight_newer; lia)
                 ltac:(intros a b; unfold Supabase.insight_newer; lia) mine).
  pose proof (@merge_sort_Permutation _ Supabase.insight_newer
                Supabase.insight_newer_dec mine) as Hp.
  destruct (@merge_sort _ Supabase.insight_newer Supabase.insight_newer_dec mine)
    as [|x rest].
  - cbn. split; [|reflexivity]. symmetry in Hp.
    apply Permutation_nil_r in Hp. exact Hp.
  - cbn. split; [|split; [|reflexivity]].
    + rewrite <- Hp. apply elem_of_cons. left. reflexivity.
    + intros other Ho. rewrite <- Hp in Ho.
      apply elem_of_cons in Ho as [->|Ho]; [lia|].
      apply StronglySorted_inv in Hs as [_ Hall].
      rewrite Forall_forall in Hall. apply (Hall other Ho).
Qed.

Lemma latest_insight_is_newest_witness :
  match fst (fst (InsightService.getLatestInsight Sample.never_down ∅
                    (mkWorld Sample2.insight_db []) "u" 0 10)) with
  | None =>
      filter (fun r => ai_user_id r = "u"%string) Sample2.insight_rows = []
      /\ snd (fst (InsightService.getLatestInsight Sample.never_down ∅
                     (mkWorld Sample2.insight_db []) "u" 0 10)) = ∅
  | Some latest =>
      latest ∈ filter (fun r => ai_user_id r = "u"%string) Sample2.insight_rows
      /\ (forall other,
            other ∈ filter (fun r => ai_user_id r = "u"%string) Sample2.insight_rows ->
            ai_date other <= ai_date latest)
      /\ snd (fst (InsightService.getLatestInsight Sample.never_down ∅
                     (mkWorld Sample2.insight_db []) "u" 0 10))
         = <[Ref.latestKey "u" := mkEntry [latest] 10]> ∅
  end.
Proof.
  apply (latest_insight_is_newest Sample.never_down ∅
           (mkWorld Sample2.insight_db []) "u"%string 0 10).
  - apply fresh_empty.
  - reflexivity.
Defined.

(** ** The Sleep page *)

Lemma toFixed2_close (x : Q) :
  (Qabs (SleepPage.toFixed2 x - x) <= 1 # 200)%Q.
Proof.
  unfold SleepPage.toFixed2.
  destruct (Qle_bool 0 x) eqn:Hx.
  - pose proof (Qfloor_le (x * 100 + (1 # 2))) as H1.
    pose proof (Qlt_floor (x * 100 + (1 # 2))) as H2.
    rewrite inject_Z_plus in H2. change (inject_Z 1) with 1%Q in H2.
    set (n := inject_Z (Qfloor (x * 100 + (1 # 2)))) in *.
    assert (E : (n / 100 == n * (1 # 100))%Q) by field. rewrite E.
    apply Qabs_Qle_condition. split; lra.
  - pose proof (Qfloor_le (- x * 100 + (1 # 2))) as H1.
    pose proof (Qlt_floor (- x * 100 + (1 # 2))) as H2.
    rewrite inject_Z_plus in H2. change (inject_Z 1) with 1%Q in H2.
    set (n := inject_Z (Qfloor (- x * 100 + (1 # 2)))) in *.
    assert (E : (n / 100 == n * (1 # 100))%Q) by field. rewrite E.
    apply Qabs_Qle_condition. split; lra.
Qed.

Lemma toFixed2_comp (x y : Q) :
  (x == y)%Q -> (SleepPage.toFixed2 x == SleepPage.toFixed2 y)%Q.
Proof.
  intros E. unfold SleepPage.toFixed2.
  assert (Hc : Qle_bool 0 x = Qle_bool 0 y) by (rewrite E; reflexivity).
  rewrite Hc. destruct (Qle_bool 0 y); rewrite E; reflexivity.
Qed.

(** Whole minutes, in hours, rounded to two decimals. *)
Lemma toFixed2_of_minutes (m : Z) :
  0 <= m ->
  (SleepPage.toFixed2 (inject_Z m / 60) == inject_Z ((10 * m + 3) `div` 6) / 100)%Q.
Proof.
  intros Hm. unfold SleepPage.toFixed2.
  assert (H0 : Qle_bool 0 (inject_Z m / 60) = true).
  { apply Qle_bool_iff. apply Qle_shift_div_l; [reflexivity|].
    rewrite Qmult_0_l. change 0%Q with (inject_Z 0). rewrite <- Zle_Qle. exact Hm. }
  rewrite H0.
  assert (E : (inject_Z m / 60 * 100 + (1 # 2) == (10 * m + 3) # 6)%Q).
  { unfold Qeq, Qdiv, Qmult, Qplus, Qinv, inject_Z. cbn. lia. }
  rewrite E. reflexivity.
Qed.

Lemma sleep_form_span (zone : JsDate.Zone) (tza : Z) (f : FormData) :
  0 <= fd_startTime f < 1440 -> 0 <= fd_endTime f < 1440 ->
  let s := fd_date f * JsDate.msPerDay + fd_startTime f * JsDate.msPerMinute in
  let e := fd_date f * JsDate.msPerDay + fd_endTime f * JsDate.msPerMinute in
  JsDate.atLocal zone s = tza -> JsDate.atLocal zone e = tza ->
  (fd_endTime f < fd_startTime f ->
   JsDate.atUTC zone (e - tza) = tza
   /\ JsDate.atLocal zone (e + JsDate.msPerDay) = tza) ->
  SleepPage.startDateTime zone f = s - tza
  /\ SleepPage.endDateTime zone f
     = s - tza + ((fd_endTime f - fd_startTime f) `mod` 1440) * JsDate.msPerMinute.
Proof.
  intros Hs He s e H1 H2 Hnext.
  pose proof (Z.div_mod (fd_endTime f - fd_startTime f) 1440 ltac:(lia)) as Hdm.
  pose proof (Z.mod_pos_bound (fd_endTime f - fd_startTime f) 1440 ltac:(lia)) as Hb.
  assert (Hstart : SleepPage.startDateTime zone f = s - tza).
  { unfold SleepPage.startDateTime, SleepPage.ofLocalDateTime, JsDate.UTCIn.
    fold s. rewrite H1. reflexivity. }
  split; [exact Hstart|].
  unfold SleepPage.endDateTime. rewrite Hstart.
  unfold SleepPage.ofLocalDateTime, JsDate.UTCIn. fold e. rewrite H2.
  destruct (Z.ltb_spec (e - tza) (s - tza)) as [Hlt|Hge].
  - assert (Hwrap : fd_endTime f < fd_startTime f)
      by (subst s e; unfold JsDate.msPerMinute in Hlt; lia).
    destruct (Hnext Hwrap) as [H3 H4].
    unfold JsDate.setDatePlusIn, JsDate.UTCIn, JsDate.LocalTimeIn. rewrite H3.
    replace (e - tza + tza + 1 * JsDate.msPerDay) with (e + JsDate.msPerDay) by lia.
    rewrite H4. subst s e. unfold JsDate.msPerDay, JsDate.msPerMinute in *.
    generalize dependent ((fd_endTime f - fd_startTime f) `mod` 1440).
    generalize ((fd_endTime f - fd_startTime f) `div` 1440). intros q r Hdm Hb. lia.
  - subst s e. unfold JsDate.msPerDay, JsDate.msPerMinute in *.
    generalize dependent ((fd_endTime f - fd_startTime f) `mod` 1440).
    generalize ((fd_endTime f - fd_startTime f) `div` 1440). intros q r Hdm Hb. lia.
Qed.

(** X10. Away from a change of the clocks (the zone has one offset [tza]
    at the start and at the end, and also at the end moved to the next day
    when it is moved), the sleep form turns its two times of day into a span
    that starts on the form's date at the start time and lasts the time from
    start to end, counted round the clock: an end before the start is taken
    on the next day, the span is shorter than 24 hours, and equal times give
    a span of 0 hours, not 24.  The duration stored is that span in hours
    rounded to the nearest hundredth: a span of whole minutes is never
    half-way between two hundredths, and the stored value is within a third
    of a hundredth of it. *)
Theorem sleep_form_wraps_past_midnight (zone : JsDate.Zone) (tza : Z)
    (userId : string) (f : FormData) :
  0 <= fd_startTime f < 1440 -> 0 <= fd_endTime f < 1440 ->
  let s := fd_date f * JsDate.msPerDay + fd_startTime f * JsDate.msPerMinute in
  let e := fd_date f * JsDate.msPerDay + fd_endTime f * JsDate.msPerMinute in
  JsDate.atLocal zone s = tza -> JsDate.atLocal zone e = tza ->
  (fd_endTime f < fd_startTime f ->
   JsDate.atUTC zone (e - tza) = tza
   /\ JsDate.atLocal zone (e + JsDate.msPerDay) = tza) ->
  let r := SleepPage.sleepRecordOf zone userId f in
  let minutes := (fd_endTime f - fd_startTime f) `mod` 1440 in
  sri_date r = fd_date f
  /\ sri_start_time r = s - tza
  /\ sri_end_time r = sri_start_time r + minutes * JsDate.msPerMinute
  /\ 0 <= minutes < 1440
  /\ (fd_startTime f <= fd_endTime f -> minutes = fd_endTime f - fd_startTime f)
  /\ (fd_endTime f < fd_startTime f ->
      minutes = fd_endTime f + 1440 - fd_startTime f)
  /\ (sri_duration_hours r == inject_Z ((10 * minutes + 3) `div` 6) / 100)%Q
  /\ (Qabs (sri_duration_hours r - inject_Z minutes / 60) <= 1 # 300)%Q.
Proof.
  intros Hs He s e H1 H2 Hnext r minutes. subst r.
  cbn [SleepPage.sleepRecordOf sri_date sri_start_time sri_end_time
       sri_duration_hours].
  destruct (sleep_form_span zone tza f Hs He H1 H2 Hnext) as [Hstart Hend].
  fold s in Hstart, Hend. fold minutes in Hend.
  assert (Hb : 0 <= minutes < 1440) by (apply Z.mod_pos_bound; lia).
  assert (Hdur : (SleepPage.durationHours zone f == inject_Z minutes / 60)%Q).
  { unfold SleepPage.durationHours. rewrite Hend, Hstart.
    replace (s - tza + minutes * JsDate.msPerMinute - (s - tza))
      with (minutes * 60000) by (unfold JsDate.msPerMinute; lia).
    rewrite inject_Z_mult.
    change (inject_Z (1000 * 60 * 60)) with (inject_Z 60000 * 60)%Q. field. }
  assert (Hstored : (SleepPage.toFixed2 (SleepPage.durationHours zone f)
                     == inject_Z ((10 * minutes + 3) `div` 6) / 100)%Q).
  { transitivity (SleepPage.toFixed2 (inject_Z minutes / 60)).
    - apply toFixed2_comp. exact Hdur.
    - apply toFixed2_of_minutes. lia. }
  split; [reflexivity|]. split; [exact Hstart|].
  split; [rewrite Hend, Hstart; reflexivity|]. split; [exact Hb|].
  split; [intros H; apply Z.mod_small; lia|].
  split.
  { intros H. symmetry.
    apply (Z.mod_unique_pos _ _ (-1)); lia. }
  split; [exact Hstored|].
  rewrite Hstored.
  pose proof (Z.div_mod (10 * minutes + 3) 6 ltac:(lia)) as Hdm.
  pose proof (Z.mod_pos_bound (10 * minutes + 3) 6 ltac:(lia)) as Hm.
  assert (Hodd : (10 * minutes + 3) `mod` 6 <> 0).
  { intros H0. rewrite H0 in Hdm. lia. }
  assert (Hk : 6 * ((10 * minutes + 3) `div` 6) - 2 <= 10 * minutes
               <= 6 * ((10 * minutes + 3) `div` 6) + 2) by lia.
  set (k := (10 * minutes + 3) `div` 6) in *. clearbody k.
  apply Qabs_Qle_condition.
  assert (E1 : (inject_Z k / 100 - inject_Z minutes / 60
                == inject_Z (6 * k - 10 * minutes) / 600)%Q).
  { unfold Z.sub. rewrite inject_Z_plus, inject_Z_opp, !inject_Z_mult.
    change (inject_Z 6) with 6%Q. change (inject_Z 10) with 10%Q. field. }
  rewrite E1.
  assert (Hz1 : (inject_Z (-2) <= inject_Z (6 * k - 10 * minutes))%Q)
    by (rewrite <- Zle_Qle; lia).
  assert (Hz2 : (inject_Z (6 * k - 10 * minutes) <= inject_Z 2)%Q)
    by (rewrite <- Zle_Qle; lia).
  set (z := inject_Z (6 * k - 10 * minutes)) in *. clearbody z.
  change (inject_Z (-2)) with (-2 # 1)%Q in Hz1.
  change (inject_Z 2) with (2 # 1)%Q in Hz2.
  assert (E2 : (z / 600 == z * (1 # 600))%Q) by field. rewrite E2.
  split; lra.
Qed.

Lemma sleep_form_wraps_past_midnight_witness :
  sri_start_time (SleepPage.sleepRecordOf Sample2.cet_2024 "u" Sample2.winter_form)
  = 1704145200000
  /\ sri_end_time (SleepPage.sleepRecordOf Sample2.cet_2024 "u" Sample2.winter_form)
     = 1704145200000 + 440 * 60000
  /\ (sri_duration_hours
        (SleepPage.sleepRecordOf Sample2.cet_2024 "u" Sample2.winter_form)
      == 733 # 100)%Q.
Proof.
  destruct (sleep_form_wraps_past_midnight Sample2.cet_2024 3600000 "u"%string
              Sample2.winter_form)
    as (_ & Hstart & Hend & _ & _ & _ & Hstored & _).
  - vm_compute. split; congruence.
  - vm_compute. split; congruence.
  - reflexivity.
  - reflexivity.
  - intros _. split; reflexivity.
  - split; [exact Hstart|]. split; [rewrite Hend, Hstart; reflexivity|].
    rewrite Hstored. reflexivity.
Defined.

Example night_form_record :
  SleepPage.sleepRecordOf Sample2.cet_2024 "u" Sample2.night_form
  = mkSleepRecordInsert None "u" 19723 1704142800000 1704171600000 (800 # 100)
      (Some 75) None
  /\ JsDate.toISOString 1704142800000 = "2024-01-01T21:00:00.000Z"%string
  /\ JsDate.toISOString 1704171600000 = "2024-01-02T05:00:00.000Z"%string.
Proof. repeat split; vm_compute; reflexivity. Qed.

(** On the night the clocks go back, the day added to the end is 25 hours
    long: the same 22:00 to 06:00 is stored as 9 hours, and 00:30 to 00:15
    as 24.75 hours. *)
Example sleep_form_when_clocks_go_back :
  sri_duration_hours
    (SleepPage.sleepRecordOf Sample2.cet_2024 "u" Sample2.autumn_form)
  = 900 # 100
  /\ sri_duration_hours
       (SleepPage.sleepRecordOf Sample2.cet_2024 "u" Sample2.round_the_clock_form)
     = 2475 # 100.
Proof. split; vm_compute; reflexivity. Qed.

Lemma insert_sleep_rows (down : nat -> bool) (d : Db) (r : SleepRecordInsert) :
  match Supabase.insert_sleep down d r with
  | (PgError _, d1) => sleep_records d1 = sleep_records d
  | (PgData row, d1) => sleep_records d1 = sleep_records d ++ [row]
  end.
Proof.
  unfold Supabase.insert_sleep.
  destruct (down (requests d)); [reflexivity|].
  destruct (Supabase.sleep_pk_taken _ _); [reflexivity|].
  destruct (Supabase.sleep_key_taken _ _ _); reflexivity.
Qed.

Lemma getSleepRecords_rows (down : nat -> bool)
    (cache : gmap string (Entry (list SleepRecord))) (w : World) (userId : string)
    (startDate endDate now0 now1 : Z) :
  sleep_records (db (snd (SleepService.getSleepRecords down cache w userId
                            startDate endDate now0 now1)))
  = sleep_records (db w).
Proof.
  unfold SleepService.getSleepRecords.
  destruct (fresh cache _ now0); [reflexivity|].
  unfold Supabase.select_sleep_range.
  destruct (down (requests (db w))); reflexivity.
Qed.

(** X11. [handleAddSleep] shows "Sleep record added successfully" and
    closes the dialog whatever the store answered: [addSleepRecord] reports
    a refused insert by null, not by an exception, and the handler does not
    look at the result.  After a refused insert (the user already has a
    record for the date, or the store is unreachable) the table holds the
    same rows as before, under the success toast.  (The form is one with a
    date and two times, as the inputs of the dialog give them.) *)
Theorem handleAddSleep_always_reports_success (down : nat -> bool)
    (zone : JsDate.Zone) (userId : string) (f : FormData) (page : SleepPageState)
    (cache : gmap string (Entry (list SleepRecord))) (w : World)
    (now now0 now1 : Z) :
  let r := SleepPage.handleAddSleep down zone (Some userId) f page cache w
             now now0 now1 in
  sp_toasts (fst (fst r))
  = sp_toasts page ++ [ToastSuccess "Sleep record added successfully"]
  /\ sp_showAddModal (fst (fst r)) = false
  /\ match fst (Supabase.insert_sleep down (db w)
                  (SleepPage.sleepRecordOf zone userId f)) with
     | PgError _ => sleep_records (db (snd r)) = sleep_records (db w)
     | PgData row => sleep_records (db (snd r)) = sleep_records (db w) ++ [row]
     end
  /\ (down (requests (db w)) = true
      \/ Supabase.sleep_key_taken (sleep_records (db w)) userId (fd_date f) = true ->
      exists msg,
        fst (Supabase.insert_sleep down (db w)
               (SleepPage.sleepRecordOf zone userId f)) = PgError msg).
Proof.
  cbn zeta. unfold SleepPage.handleAddSleep, SleepPage.loadSleepData.
  rewrite addSleepRecord_outcome.
  pose proof (insert_sleep_rows down (db w) (SleepPage.sleepRecordOf zone userId f))
    as Hrows.
  split; [|split; [|split]].
  - destruct (Supabase.insert_sleep _ _ _) as [[row|m] d];
      destruct (SleepService.getSleepRecords _ _ _ _ _ _ _ _) as [[rs c1] w1];
      reflexivity.
  - destruct (Supabase.insert_sleep _ _ _) as [[row|m] d];
      destruct (SleepService.getSleepRecords _ _ _ _ _ _ _ _) as [[rs c1] w1];
      reflexivity.
  - destruct (Supabase.insert_sleep _ _ _) as [[row|m] d]; cbn [fst snd] in *.
    + match goal with
      | |- context [SleepService.getSleepRecords down ?c ?w0 ?u ?a ?b ?n0 ?n1] =>
          pose proof (getSleepRecords_rows down c w0 u a b n0 n1) as Hg;
          destruct (SleepService.getSleepRecords down c w0 u a b n0 n1)
            as [[rs c1] w1]
      end.
      cbn [fst snd] in *. rewrite Hg. exact Hrows.
    + match goal with
      | |- context [SleepService.getSleepRecords down ?c ?w0 ?u ?a ?b ?n0 ?n1] =>
          pose proof (getSleepRecords_rows down c w0 u a b n0 n1) as Hg;
          destruct (SleepService.getSleepRecords down c w0 u a b n0 n1)
            as [[rs c1] w1]
      end.
      cbn [fst snd] in *. rewrite Hg. exact Hrows.
  - intros H. unfold Supabase.insert_sleep.
    destruct (down (requests (db w))); [eexists; reflexivity|].
    destruct H as [H|H]; [discriminate|].
    destruct (Supabase.sleep_pk_taken _ _); [eexists; reflexivity|].
    cbn [SleepPage.sleepRecordOf sri_user_id sri_date]. rewrite H.
    eexists; reflexivity.
Qed.

Lemma handleAddSleep_always_reports_success_witness :
  exists msg,
    fst (Supabase.insert_sleep Sample.never_down Sample.sleep_db
           (SleepPage.sleepRecordOf Sample2.cet_2024 "u" Sample2.night_form))
    = PgError msg.
Proof.
  apply (proj2 (proj2 (proj2
           (handleAddSleep_always_reports_success Sample.never_down
              Sample2.cet_2024 "u"%string Sample2.night_form Sample2.blank_page ∅
              (mkWorld Sample.sleep_db []) 1704200000000 0 10)))).
  right. reflexivity.
Defined.

Example add_sleep_twice :
  let first := SleepPage.handleAddSleep Sample.never_down Sample2.cet_2024
                 (Some "u"%string) Sample2.night_form Sample2.blank_page ∅
                 (mkWorld Sample.empty_db []) 1704200000000 0 10 in
  let second := SleepPage.handleAddSleep Sample.never_down Sample2.cet_2024
                  (Some "u"%string) Sample2.night_form (fst (fst first))
                  (snd (fst first)) (snd first) 1704200060000 60000 60010 in
  length (sleep_records (db (snd first))) = 1%nat
  /\ length (sleep_records (db (snd second))) = 1%nat
  /\ sp_toasts (fst (fst second))
     = [ToastSuccess "Sleep record added successfully";
        ToastSuccess "Sleep record added successfully"]
  /\ console (snd second) = ["Error adding sleep record:"%string].
Proof. vm_compute. repeat split; reflexivity. Qed.

(** ** The Commits page *)

Lemma sum_list_with_add {K} (a b : K -> nat) (ks : list K) :
  sum_list_with (fun k => (a k + b k)%nat) ks
  = (sum_list_with a ks + sum_list_with b ks)%nat.
Proof. induction ks as [|k ks IH]; cbn; [reflexivity | rewrite IH; lia]. Qed.

Lemma sum_indicator {K} `{EqDecision K} (x : K) (ks : list K) :
  NoDup ks -> x ∈ ks ->
  sum_list_with (fun k => if decide (x = k) then 1%nat else 0%nat) ks = 1%nat.
Proof.
  induction 1 as [|k ks Hk Hnd IH]; intros Hx; [inversion Hx|].
  cbn. apply elem_of_cons in Hx as [->|Hx].
  - rewrite decide_True by reflexivity.
    assert (Hz : sum_list_with (fun k0 => if decide (k = k0) then 1%nat else 0%nat) ks
                 = 0%nat).
    { clear IH Hnd. induction ks as [|k' ks IH']; [reflexivity|]. cbn.
      rewrite decide_False by (intros ->; apply Hk, elem_of_cons; left; reflexivity).
      apply IH'. intros H. apply Hk, elem_of_cons. right. exact H. }
    rewrite Hz. reflexivity.
  - rewrite decide_False by (intros ->; contradiction). apply IH. exact Hx.
Qed.

(** Counting the elements of a list by key, over a duplicate-free list of
    keys that has them all, counts every element once. *)
Lemma sum_counts {A K} `{EqDecision K} (f : A -> K) (ks : list K) (l : list A) :
  NoDup ks -> (forall x, x ∈ l -> f x ∈ ks) ->
  sum_list_with (fun k => length (filter (fun x => f x = k) l)) ks = length l.
Proof.
  intros Hnd. induction l as [|x l IH]; intros Hall.
  - clear Hnd Hall. induction ks as [|k ks IHk]; [reflexivity|]. cbn. exact IHk.
  - transitivity
      (sum_list_with (fun k => ((if decide (f x = k) then 1 else 0)
                                 + length (filter (fun y => f y = k) l))%nat) ks).
    + clear. induction ks as [|k ks IHk]; [reflexivity|]. cbn [sum_list_with].
      rewrite IHk, filter_cons. destruct (decide (f x = k)); reflexivity.
    + rewrite sum_list_with_add, sum_indicator, IH; cbn; auto.
      * intros y Hy. apply Hall, elem_of_cons. right. exact Hy.
      * apply Hall, elem_of_cons. left. reflexivity.
Qed.







Example peak_of_sample_commits :
  CommitsPage.peak (CommitsPage.commitsByHour Sample.utc_plus_1 Sample2.page_commits)
  = Some (mkHourRow "09:00" 2)
  /\ hr_commits <$> CommitsPage.peak
                      (CommitsPage.commitsByHour Sample.utc_plus_1
                         [ mkCommitRecord 1%nat "u" "alpha" "a1" None 1704096600000;
                           mkCommitRecord 2%nat "u" "beta" "b1" None 1704099900000 ])
     = Some 1%nat
  /\ hr_hour <$> CommitsPage.peak
                   (CommitsPage.commitsByHour Sample.utc_plus_1
                      [ mkCommitRecord 1%nat "u" "alpha" "a1" None 1704096600000;
                        mkCommitRecord 2%nat "u" "beta" "b1" None 1704099900000 ])
     = Some "09:00"%string.
Proof. repeat split; vm_compute; reflexivity. Qed.

Lemma distinct_acc (names seen : list string) :
  NoDup seen ->
  let out := fold_left (fun seen name =>
                          if decide (name ∈ seen) then seen else seen ++ [name])
                       names seen in
  NoDup out /\ (forall x, x ∈ out <-> x ∈ seen \/ x ∈ names)
  /\ exists more, out = seen ++ more.
Proof.
  cbn zeta. revert seen. induction names as [|n names IH]; intros seen Hnd.
  - cbn. split; [exact Hnd|]. split.
    + intros x. split; [auto | intros [H|H]; [exact H | inversion H]].
    + exists []. rewrite app_nil_r. reflexivity.
  - cbn [fold_left]. destruct (decide (n ∈ seen)) as [Hin|Hout].
    + destruct (IH seen Hnd) as (H1 & H2 & H3). split; [exact H1|]. split.
      * intros x. rewrite H2, elem_of_cons. split; [tauto|].
        intros [H|[->|H]]; auto.
      * exact H3.
    + assert (Hnd' : NoDup (seen ++ [n])).
      { apply NoDup_app. split; [exact Hnd|]. split; [|apply NoDup_singleton].
        intros x Hx Hx'. apply list_elem_of_singleton in Hx'. subst x.
        contradiction. }
      destruct (IH (seen ++ [n]) Hnd') as (H1 & H2 & more & H3).
      split; [exact H1|]. split.
      * intros x. rewrite H2, elem_of_app, list_elem_of_singleton, elem_of_cons.
        tauto.
      * exists (n :: more). rewrite H3, <- app_assoc. reflexivity.
Qed.

(** X14. The repositories of the page are the repository names of its
    commits, each listed once, and the commits shown per repository under
    "Repository Activity" add up to all the commits of the page. *)
Theorem repositories_split_the_commits (commits : list CommitRecord) :
  let repos := CommitsPage.repositories commits in
  NoDup repos
  /\ (forall repo, repo ∈ repos <-> exists c, c ∈ commits /\ cr_repository c = repo)
  /\ sum_list_with (fun repo => length (CommitsPage.repoCommits commits repo)) repos
     = length commits
  /\ (forall repo, repo ∈ repos -> CommitsPage.repoCommits commits repo <> []).
Proof.
  cbn zeta. unfold CommitsPage.repositories, CommitsPage.distinct.
  destruct (distinct_acc (map cr_repository commits) [] NoDup_nil_2)
    as (Hnd & Hmem & _).
  cbn zeta in Hnd, Hmem.
  assert (Hiff : forall repo,
            repo ∈ fold_left (fun seen name =>
                                if decide (name ∈ seen) then seen else seen ++ [name])
                             (map cr_repository commits) []
            <-> exists c, c ∈ commits /\ cr_repository c = repo).
  { intros repo. rewrite Hmem, !list_elem_of_In, in_map_iff. split.
    - intros [H|(c & Hc & Hin)]; [destruct H|].
      exists c. rewrite list_elem_of_In. auto.
    - intros (c & Hin & Hc). right. exists c. rewrite <- list_elem_of_In. auto. }
  split; [exact Hnd|]. split; [exact Hiff|]. split.
  - unfold CommitsPage.repoCommits. apply sum_counts; [exact Hnd|].
    intros c Hc. apply Hiff. exists c. auto.
  - intros repo Hrepo. apply Hiff in Hrepo as (c & Hin & Hc).
    unfold CommitsPage.repoCommits. intros Hnil.
    assert (Hc' : c ∈ filter (fun c0 => cr_repository c0 = repo) commits)
      by (apply list_elem_of_filter; auto).
    rewrite Hnil in Hc'. inversion Hc'.
Qed.

Example repositories_of_sample_commits :
  CommitsPage.repositories Sample2.page_commits = ["alpha"; "beta"]%string
  /\ map (fun repo => length (CommitsPage.repoCommits Sample2.page_commits repo))
         (CommitsPage.repositories Sample2.page_commits) = [3; 1]%nat.
Proof. split; vm_compute; reflexivity. Qed.

(** ** The monthly statistics *)

Lemma sumZ_acc (f : ActivityInsight -> Z) (l : list ActivityInsight) (a : Z) :
  fold_left (fun sum insight => sum + f insight) l a = a + Reports.sumZ f l.
Proof.
  unfold Reports.sumZ. revert a. induction l as [|x l IH]; intros a; cbn.
  - lia.
  - rewrite IH, (IH (0 + f x)). lia.
Qed.

Lemma sumZ_cons (f : ActivityInsight -> Z) (x : ActivityInsight)
    (l : list ActivityInsight) :
  Reports.sumZ f (x :: l) = f x + Reports.sumZ f l.
Proof. unfold Reports.sumZ at 1. cbn. rewrite sumZ_acc. lia. Qed.

Lemma sumZ_bounds (f : ActivityInsight -> Z) (lo hi : Z) (l : list ActivityInsight) :
  (forall i, i ∈ l -> lo <= f i <= hi) ->
  lo * Z.of_nat (length l) <= Reports.sumZ f l <= hi * Z.of_nat (length l).
Proof.
  induction l as [|x l IH]; intros H.
  - unfold Reports.sumZ. cbn. lia.
  - rewrite sumZ_cons. cbn [length].
    assert (lo <= f x <= hi) by (apply H, elem_of_cons; left; reflexivity).
    assert (Hl : forall i, i ∈ l -> lo <= f i <= hi)
      by (intros i Hi; apply H, elem_of_cons; right; exact Hi).
    specialize (IH Hl). lia.
Qed.

Lemma averageOr0_bounds (f : ActivityInsight -> Z) (lo hi : Z)
    (l : list ActivityInsight) :
  l <> [] ->
  (forall i, i ∈ l -> lo <= f i <= hi) ->
  (inject_Z lo <= Reports.averageOr0 (Reports.sumZ f l) (length l) <= inject_Z hi)%Q.
Proof.
  intros Hne H. pose proof (sumZ_bounds f lo hi l H) as [Hlo Hhi].
  unfold Reports.averageOr0.
  destruct l as [|x l]; [contradiction|]. cbn [length Nat.eqb].
  set (n := Z.of_nat (S (length l))) in *.
  assert (Hn : (0 < inject_Z n)%Q).
  { change 0%Q with (inject_Z 0). rewrite <- Zlt_Qlt. subst n. lia. }
  split.
  - apply Qle_shift_div_l; [exact Hn|].
    rewrite <- inject_Z_mult, <- Zle_Qle. exact Hlo.
  - apply Qle_shift_div_r; [exact Hn|].
    rewrite <- inject_Z_mult, <- Zle_Qle. exact Hhi.
Qed.

(** X15. The monthly averages are real averages: for a month with at
    least one insight, the average sleep score and the average productivity
    score lie between the smallest and the largest score of the month (a
    missing score counting as 0), hence between 0 and 100 for scores in that
    range; for a month without insights every statistic is 0.  The number of
    days that met the goals never exceeds the number of days. *)
Theorem monthly_averages_within_scores (monthInsights : list ActivityInsight)
    (lo hi : Z) :
  let st := MonthlyReport.stats monthInsights in
  (monthInsights <> [] ->
   (forall i, i ∈ monthInsights -> lo <= Reports.or0 (ai_sleep_score i) <= hi) ->
   (inject_Z lo <= avgSleep st <= inject_Z hi)%Q)
  /\ (monthInsights <> [] ->
      (forall i, i ∈ monthInsights ->
                 lo <= Reports.or0 (ai_productivity_score i) <= hi) ->
      (inject_Z lo <= avgProductivity st <= inject_Z hi)%Q)
  /\ (goalsMetCount st <= length monthInsights)%nat
  /\ MonthlyReport.stats [] = mkMonthlyStats 0 0 0 0 0 0.
Proof.
  cbn zeta. split; [|split; [|split]].
  - intros Hne H. apply averageOr0_bounds; assumption.
  - intros Hne H. apply averageOr0_bounds; assumption.
  - apply List.filter_length_le.
  - reflexivity.
Qed.

Lemma monthly_averages_within_scores_witness :
  (inject_Z 60 <= avgSleep (MonthlyReport.stats [Sample.day_80_75; Sample.day_60_90])
   <= inject_Z 80)%Q.
Proof.
  apply (proj1 (monthly_averages_within_scores
                  [Sample.day_80_75; Sample.day_60_90] 60 80)).
  - discriminate.
  - intros i Hi. apply elem_of_cons in Hi as [->|Hi]; [vm_compute; split; congruence|].
    apply list_elem_of_singleton in Hi. subst i. vm_compute. split; congruence.
Defined.

Example monthly_stats_sample :
  MonthlyReport.stats [Sample.day_80_75; Sample.day_60_90]
  = mkMonthlyStats 4 (140 # 2) (165 # 2) 1 (0 + (2 # 1) + (1 # 1))
      (Reports.calculateConsistencyScore [Sample.day_80_75; Sample.day_60_90]).
Proof. reflexivity. Qed.

Lemma pairPoints_range (a b : ActivityInsight) : 0 <= Ref.pairPoints a b <= 2.
Proof. unfold Ref.pairPoints. repeat case_match; lia. Qed.

Lemma pairPoints_sym (a b : ActivityInsight) : Ref.pairPoints a b = Ref.pairPoints b a.
Proof.
  unfold Ref.pairPoints.
  replace (Reports.or0 (ai_sleep_score a) - Reports.or0 (ai_sleep_score b))
    with (- (Reports.or0 (ai_sleep_score b) - Reports.or0 (ai_sleep_score a)))
    by lia.
  replace (Reports.or0 (ai_productivity_score a)
           - Reports.or0 (ai_productivity_score b))
    with (- (Reports.or0 (ai_productivity_score b)
             - Reports.or0 (ai_productivity_score a))) by lia.
  rewrite !Z.abs_opp. reflexivity.
Qed.

Lemma points_range (l : list ActivityInsight) :
  0 <= Ref.points l <= 2 * (Z.of_nat (length l) - 1) \/ l = [].
Proof.
  induction l as [|a l IH]; [right; reflexivity|]. left.
  destruct l as [|b l].
  - cbn. lia.
  - destruct IH as [IH|IH]; [|discriminate].
    change (Ref.points (a :: b :: l))
      with (Ref.pairPoints a b + Ref.points (b :: l)).
    pose proof (pairPoints_range a b).
    cbn [length] in *. lia.
Qed.

(** X16. The consistency score is a percentage: for every sequence of
    insights, whatever their scores, it lies between 0 and 100. *)
Theorem consistency_score_is_a_percentage (data : list ActivityInsight) :
  (0 <= Reports.calculateConsistencyScore data <= 100)%Q.
Proof.
  unfold Reports.calculateConsistencyScore.
  destruct (Nat.ltb_spec (length data) 2) as [Hlt|Hge]; [split; discriminate|].
  rewrite consistency_loop_points.
  destruct (points_range data) as [[Hlo Hhi]| ->]; [|cbn in Hge; lia].
  set (den := (Z.of_nat (length data) - 1) * 2).
  assert (Hden : (0 < inject_Z den)%Q).
  { change 0%Q with (inject_Z 0). rewrite <- Zlt_Qlt. subst den. lia. }
  assert (Hx : (0 <= inject_Z (Ref.points data) / inject_Z den <= 1)%Q).
  { split.
    - apply Qle_shift_div_l; [exact Hden|]. rewrite Qmult_0_l.
      change 0%Q with (inject_Z 0). rewrite <- Zle_Qle. exact Hlo.
    - apply Qle_shift_div_r; [exact Hden|]. rewrite Qmult_1_l.
      rewrite <- Zle_Qle. subst den. lia. }
  set (x := (inject_Z (Ref.points data) / inject_Z den)%Q) in *.
  split; lra.
Qed.

Lemma points_snoc (l : list ActivityInsight) (a b : ActivityInsight) :
  Ref.points ((l ++ [a]) ++ [b]) = Ref.points (l ++ [a]) + Ref.pairPoints a b.
Proof.
  induction l as [|x l IH].
  - cbn. lia.
  - destruct l as [|y l].
    + cbn. lia.
    + change (Ref.points (((x :: y :: l) ++ [a]) ++ [b]))
        with (Ref.pairPoints x y + Ref.points (((y :: l) ++ [a]) ++ [b])).
      change (Ref.points ((x :: y :: l) ++ [a]))
        with (Ref.pairPoints x y + Ref.points ((y :: l) ++ [a])).
      rewrite IH. lia.
Qed.

Lemma points_rev (l : list ActivityInsight) : Ref.points (rev l) = Ref.points l.
Proof.
  induction l as [|a l IH]; [reflexivity|].
  destruct l as [|b l]; [reflexivity|].
  change (rev (a :: b :: l)) with ((rev l ++ [b]) ++ [a]).
  rewrite points_snoc. change (rev l ++ [b]) with (rev (b :: l)).
  rewrite IH.
  change (Ref.points (a :: b :: l)) with (Ref.pairPoints a b + Ref.points (b :: l)).
  rewrite (pairPoints_sym b a). lia.
Qed.

(** X17. The consistency score does not depend on the direction of the
    sequence: the insights newest first, as the store returns them, give the
    same score as the same insights oldest first. *)
Theorem consistency_score_ignores_direction (data : list ActivityInsight) :
  Reports.calculateConsistencyScore (rev data)
  = Reports.calculateConsistencyScore data.
Proof.
  unfold Reports.calculateConsistencyScore.
  rewrite !consistency_loop_points, points_rev, length_rev. reflexivity.
Qed.

(** X18. Against a previous month that is not negative, the trend is shown
    green (a rise) exactly when the previous value is 0 or the current value
    is at least the previous one; so a comparison with an empty previous
    month is always a rise, also from 0 to 0. *)
Theorem trend_is_green_unless_below (current previous : Q) :
  (0 <= previous)%Q ->
  (MonthlyReport.trendColor current previous = Green
   <-> (previous == 0)%Q \/ (previous <= current)%Q).
Proof.
  intros Hp. unfold MonthlyReport.trendColor, Reports.getPercentageChange.
  destruct (Qeq_bool previous 0) eqn:Hz.
  - apply Qeq_bool_iff in Hz. split; [left; exact Hz | reflexivity].
  - apply Qeq_bool_neq in Hz.
    assert (Hpos : (0 < previous)%Q) by (apply Qle_lteq in Hp as [H|H]; [exact H|];
                                         exfalso; apply Hz; symmetry; exact H).
    pose proof (Qinv_lt_0_compat previous Hpos) as Hinv.
    unfold Qdiv. set (ip := (/ previous)%Q) in *.
    destruct (Qle_bool 0 ((current - previous) * ip * 100)) eqn:Hc.
    + apply Qle_bool_iff in Hc. split; [intros _ | reflexivity]. right.
      destruct (Qlt_le_dec current previous) as [Hlt|Hge]; [|exact Hge].
      exfalso. assert ((current - previous) * ip < 0)%Q by nra. lra.
    + split; [discriminate|]. intros [H|H]; [contradiction|].
      exfalso. assert (Hn : ~ (0 <= (current - previous) * ip * 100)%Q).
      { intros H0. apply Qle_bool_iff in H0. congruence. }
      apply Hn. assert (0 <= (current - previous) * ip)%Q by nra. lra.
Qed.

Lemma trend_is_green_unless_below_witness :
  MonthlyReport.trendColor 0 0 = Green
  <-> (0 == 0)%Q \/ (0 <= 0)%Q.
Proof.
  apply (trend_is_green_unless_below 0 0). discriminate.
Defined.

(** ** The auth context *)

(** X19. [initializeGitHub] answers true exactly when the client is bound
    (it was already, or a token is available to bind it) and a token is
    available in the check that follows.  The outcome of the sync it starts
    is not part of the answer: a sync that fails returns false to
    [initializeGitHub], which still answers true.  When it answers false,
    nothing was sent to the store and one line was logged. *)
Theorem initializeGitHub_ignores_sync_outcome (down : nat -> bool)
    (listEvents : string -> EventsRequest -> ApiResult) (nowAt : nat -> Z)
    (token token1 : option string) (sessionUser : option string)
    (s : SyncState) (now : Z) :
  let r := AuthContext.initializeGitHub down listEvents nowAt token token1
             sessionUser s now in
  (fst r = true
   <-> (initialized (github s) = true \/ GitHubService.no_token token = false)
       /\ GitHubService.no_token token1 = false)
  /\ (fst r = false ->
      db (world (snd r)) = db (world s)
      /\ commitCache (snd r) = commitCache s
      /\ console (world (snd r))
         = console (world s) ++ ["GitHub initialization error:"%string])
  /\ (fst r = true -> forall userId, sessionUser = Some userId ->
      exists g1,
        snd r = snd (GitHubSyncService.syncCommits down token1 listEvents nowAt
                       (mkSync g1 (commitCache s) (world s)) userId now)
        /\ initialized g1 = true).
Proof.
  cbn zeta. unfold AuthContext.initializeGitHub, GitHubService.initialize.
  destruct (initialized (github s)) eqn:Hi.
  - destruct (GitHubService.no_token token1) eqn:H1.
    + cbn. split; [split; [discriminate | intros [_ H]; discriminate H]|].
      split; [auto | discriminate].
    + destruct sessionUser as [u|]; cbn.
      * split; [split; [auto | reflexivity]|]. split; [discriminate|].
        intros _ userId [= <-]. exists (github s). split; [reflexivity | exact Hi].
      * split; [split; [auto | reflexivity]|]. split; [discriminate|].
        intros _ userId H. discriminate H.
  - destruct (GitHubService.no_token token) eqn:H0.
    + cbn. split; [split; [discriminate | intros [[H|H] _]; discriminate H]|].
      split; [auto | discriminate].
    + destruct (GitHubService.no_token token1) eqn:H1.
      * cbn. split; [split; [discriminate | intros [_ H]; discriminate H]|].
        split; [auto | discriminate].
      * destruct sessionUser as [u|]; cbn.
        -- split; [split; [auto | reflexivity]|]. split; [discriminate|].
           intros _ userId [= <-]. exists (mkGitHub token true).
           split; reflexivity.
        -- split; [split; [auto | reflexivity]|]. split; [discriminate|].
           intros _ userId H. discriminate H.
Qed.

Example initializeGitHub_true_after_failed_sync :
  let r := AuthContext.initializeGitHub Sample.never_down Sample2.api_down Sample.clock
             (Some "t"%string) (Some "t"%string) (Some "u"%string)
             Sample.sync_start 1704110400000 in
  fst r = true
  /\ console (world (snd r)) = ["Error syncing GitHub commits:"%string]
  /\ fst (GitHubSyncService.syncCommits Sample.never_down (Some "t"%string)
            Sample2.api_down Sample.clock Sample.sync_start "u" 1704110400000) = false.
Proof. vm_compute. repeat split; reflexivity. Qed.

(** X20. The toast of [refreshToken] tells whether a token was available,
    nothing else: with a token it is "Token refreshed successfully", also
    when the sync that follows fails; without one it is "Failed to refresh
    token", nothing is sent to the store, and the client that was bound
    before is left unbound. *)
Theorem refreshToken_toast_follows_token (down : nat -> bool)
    (listEvents : string -> EventsRequest -> ApiResult) (nowAt : nat -> Z)
    (token user : option string) (a : AuthState) (now : Z) :
  let a1 := AuthContext.refreshToken down listEvents nowAt token user a now in
  (GitHubService.no_token token = true ->
   au_toasts a1 = au_toasts a ++ [ToastError "Failed to refresh token"]
   /\ db (world (au_sync a1)) = db (world (au_sync a))
   /\ commitCache (au_sync a1) = commitCache (au_sync a)
   /\ initialized (github (au_sync a1)) = false
   /\ console (world (au_sync a1))
      = console (world (au_sync a)) ++ ["Token refresh error:"%string])
  /\ (GitHubService.no_token token = false ->
      au_toasts a1 = au_toasts a ++ [ToastSuccess "Token refreshed successfully"]
      /\ github (au_sync a1) = mkGitHub token true
      /\ forall userId, user = Some userId ->
           au_sync a1
           = snd (GitHubSyncService.syncCommits down token listEvents nowAt
                    (mkSync (mkGitHub token true) (commitCache (au_sync a))
                       (world (au_sync a))) userId now)).
Proof.
  cbn zeta. unfold AuthContext.refreshToken, GitHubService.refreshToken,
    GitHubService.initialize. cbn [initialized].
  split; intros Hn; rewrite Hn.
  - cbn. auto.
  - split; [reflexivity|].
    assert (Hg : forall userId,
              github (snd (GitHubSyncService.syncCommits down token listEvents nowAt
                             (mkSync (mkGitHub token true) (commitCache (au_sync a))
                                (world (au_sync a))) userId now))
              = mkGitHub token true).
    { intros userId. unfold GitHubSyncService.syncCommits, GitHubService.getCommits,
        GitHubService.ensureInitialized. cbn.
      apply no_token_false in Hn as (client & -> & _). cbn.
      destruct (listEvents client _); cbn; [|reflexivity|reflexivity].
      destruct (fold_left _ _ _); reflexivity. }
    destruct user as [userId|]; cbn [au_sync].
    + split; [apply Hg|]. intros u [= <-]. reflexivity.
    + split; [reflexivity|]. intros u H. discriminate H.
Qed.

Lemma refreshToken_toast_follows_token_witness :
  au_toasts (AuthContext.refreshToken Sample.never_down Sample2.api_down Sample.clock
               (Some "new"%string) (Some "u"%string) Sample2.signed_in 1704110400000)
  = [ToastSuccess "Token refreshed successfully"]
  /\ console (world (au_sync
        (AuthContext.refreshToken Sample.never_down Sample2.api_down Sample.clock
           (Some "new"%string) (Some "u"%string) Sample2.signed_in 1704110400000)))
     = ["Error syncing GitHub commits:"%string].
Proof.
  split.
  - apply (proj2 (refreshToken_toast_follows_token Sample.never_down
                    Sample2.api_down Sample.clock (Some "new"%string)
                    (Some "u"%string) Sample2.signed_in 1704110400000)).
    reflexivity.
  - reflexivity.
Defined.
